(** * oracle-mcp: the request pipeline of the [oracle] tool

    A shallow embedding of the server entry point bundled in
    [dist/resources.js] (from [getOpenAI] to [registerOracleTool]): the
    response extractor, the retry executor, request validation and the
    tool handler, with the properties the specification states about
    them.

    Asynchronous code is run to completion one request at a time, over a
    world that carries a logical clock, the registered timers and
    listeners, the client pool and the trace of what the handler did.
    What the event loop runs while the handler is suspended (the expiry of
    the timeout timer, the [onAbort] listener) acts on the request through
    the abort signal handed to the provider call; it is part of the
    behaviour of that call, which is a parameter, and is not replayed in
    the trace. *)

From Stdlib Require Import List String Ascii Bool ZArith QArith Lia.
From Stdlib Require Import DecimalString.
Import ListNotations.

Set Warnings "-register-all".
Close Scope Q_scope.
Open Scope string_scope.
Open Scope list_scope.
Open Scope Z_scope.

(* ================================================================== *)
(** ** JavaScript strings *)

(** A string is the sequence of its code units, one 8-bit character
    each: the strings covered are those whose code units are below 256.
    In that range the white space and line terminators that
    [String.prototype.trim] removes are TAB, LF, VT, FF, CR, SPACE and
    NO-BREAK SPACE (U+00A0). *)

Definition nl : string := String (ascii_of_nat 10) EmptyString.
Definition dquote : string := String (ascii_of_nat 34) EmptyString.

Definition is_space (c : ascii) : bool :=
  let n := nat_of_ascii c in
  Nat.eqb n 32 || (Nat.leb 9 n && Nat.leb n 13) || Nat.eqb n 160.

Fixpoint trimStart (s : string) : string :=
  match s with
  | EmptyString => EmptyString
  | String c r => if is_space c then trimStart r else s
  end.

Fixpoint trimEnd (s : string) : string :=
  match s with
  | EmptyString => EmptyString
  | String c r =>
      match trimEnd r with
      | EmptyString => if is_space c then EmptyString else String c EmptyString
      | r' => String c r'
      end
  end.

Definition trim (s : string) : string := trimEnd (trimStart s).

(** [xs.join(sep)] *)
Definition join (sep : string) (xs : list string) : string :=
  String.concat sep xs.

Definition nonempty (s : string) : bool :=
  match s with EmptyString => false | _ => true end.

Definition string_of_Z (z : Z) : string := NilZero.string_of_int (Z.to_int z).

(* ================================================================== *)
(** ** JavaScript values

    The values the handler probes structurally: tool arguments, the
    caller's sampling result and the provider's response are JSON trees.
    An object is the list of its own properties in [Object.keys] order;
    a property read takes the first binding of the key. Numbers are
    rationals (JSON carries neither NaN nor infinities). *)

Inductive value : Type :=
| VUndefined
| VNull
| VBool (b : bool)
| VNum (q : Q)
| VStr (s : string)
| VArr (xs : list value)
| VObj (fs : list (string * value)).

(** [!!v] *)
Definition truthy (v : value) : bool :=
  match v with
  | VUndefined | VNull => false
  | VBool b => b
  | VNum q => negb (Qeq_bool q 0)
  | VStr s => nonempty s
  | VArr _ | VObj _ => true
  end.

Fixpoint lookup (k : string) (fs : list (string * value)) : value :=
  match fs with
  | [] => VUndefined
  | (k', v) :: r => if String.eqb k' k then v else lookup k r
  end.

(** [v[k]] (equivalently [v?.[k]]) for the property names the handler
    reads; these are not properties of strings, numbers, booleans or
    arrays. *)
Definition get (k : string) (v : value) : value :=
  match v with
  | VObj fs => lookup k fs
  | _ => VUndefined
  end.

(** [v === s] for a string literal [s] *)
Definition is_str (s : string) (v : value) : bool :=
  match v with
  | VStr t => String.eqb t s
  | _ => false
  end.

(** [f (fs[k])] when [k] is a property of the object, [d] otherwise; the
    recursion of [scan] and [extract] goes through it. *)
Definition at_key {B : Type} (k : string) (f : value -> B) (d : B)
  : list (string * value) -> B :=
  fix go (fs : list (string * value)) : B :=
    match fs with
    | [] => d
    | (k', v) :: r => if String.eqb k' k then f v else go r
    end.

(* ================================================================== *)
(** ** Response extractor (index.js, "Extract assistant text robustly
       across response shapes") *)

(** The keys the generic loop of [scan] skips. *)
Definition skipped (k : string) : bool :=
  String.eqb k "logprobs" || String.eqb k "tool" || String.eqb k "annotations".

(** [typeof node.text === "string"] pushes [node.text]; so does
    [node.type === "output_text" && typeof node.text === "string"]. *)
Definition text_pushes (fs : list (string * value)) : list string :=
  match lookup "text" fs with
  | VStr t => [t] ++ (if is_str "output_text" (lookup "type" fs) then [t] else [])
  | _ => []
  end.

(** [scan node]: the strings [scan(node)] pushes onto [texts], in order. *)
Fixpoint scan (node : value) : list string :=
  match node with
  | VStr s => if nonempty s then [s] else []
  | VArr xs => flat_map scan xs
  | VObj fs =>
      text_pushes fs
      ++ (if is_str "assistant" (lookup "role" fs)
          then at_key "content" (fun c => if truthy c then scan c else []) [] fs
          else [])
      ++ at_key "message"
           (fun m =>
              match m with
              | VObj ms =>
                  if is_str "assistant" (lookup "role" ms)
                  then at_key "content" scan [] ms
                  else []
              | _ => []
              end) [] fs
      ++ flat_map (fun kv => if skipped (fst kv) then [] else scan (snd kv)) fs
  | _ => []
  end.

(** The text of a provider response that is an object: the flat
    [output_text] when it is a string with something left after trimming,
    else what [scan] collects under [output] and [message]. *)
Definition response_text (anyResp : value) : string :=
  match get "output_text" anyResp with
  | VStr ot =>
      if nonempty (trim ot) then trim ot
      else trim (join nl (scan (get "output" anyResp) ++ scan (get "message" anyResp)))
  | _ => trim (join nl (scan (get "output" anyResp) ++ scan (get "message" anyResp)))
  end.

Definition resp_flat : value := VObj [("output_text", VStr "hello")].

Definition resp_nested : value :=
  VObj [("output",
         VArr [VObj [("role", VStr "assistant");
                     ("content",
                      VArr [VObj [("type", VStr "output_text");
                                  ("text", VStr "hi")]])]])].


(* ================================================================== *)
(** ** Thrown values, outcomes *)

(** An [Error] object as the handler reads it: [err.status],
    [err.response.status], [err.message], and [String(err)]. *)
Record error : Type := {
  err_status : option Z;
  err_response_status : option Z;
  err_message : string;
  err_string : string
}.

Inductive exn : Type :=
| ExnUndefined                (* [throw undefined] *)
| ExnZod (issue : string)     (* the [ZodError] of [askSchema.parse] *)
| ExnError (e : error).

Inductive outcome (A : Type) : Type :=
| Returned (a : A)
| Threw (x : exn).
Arguments Returned {A} a.
Arguments Threw {A} x.

(** [a || b] on optional statuses: [undefined] and [0] are falsy. *)
Definition or_status (a b : option Z) : option Z :=
  match a with
  | Some s => if s =? 0 then b else Some s
  | None => b
  end.

(** [err?.status || err?.response?.status] *)
Definition status_of (err : exn) : option Z :=
  match err with
  | ExnError e => or_status (err_status e) (err_response_status e)
  | _ => None
  end.

Definition isRetryableStatus (status : option Z) : bool :=
  match status with
  | Some s => (s =? 429) || ((500 <=? s) && (s <? 600))
  | None => false
  end.

(* ================================================================== *)
(** ** The world the handler runs in *)

Record client : Type := {
  c_apiKey : option string;
  c_baseURL : option string;
  c_organization : option string
}.

(** The body of [client.responses.create]. *)
Record provider_request : Type := {
  req_model : string;
  req_reasoning_effort : option string;
  req_input : list (string * string);        (* role, content *)
  req_max_output_tokens : Z;
  req_temperature : option Q
}.

(** The payload of [createMessage]. *)
Record sampling_payload : Type := {
  sp_messages : list (string * string);      (* role, text *)
  sp_maxTokens : Z;
  sp_max_tokens : Z;
  sp_temperature : option Q;
  sp_model : string;
  sp_systemPrompt : string;
  sp_system_prompt : string
}.

Inductive entry_point : Type :=
| SamplingCreateMessage     (* [ctx.sampling.createMessage] *)
| SessionCreateMessage      (* [ctx.session.createMessage] *)
| CtxCreateMessage.         (* [ctx.createMessage] *)

Inductive call : Type :=
| ProviderCall (c : client) (req : provider_request)
| SampleCall (via : entry_point) (payload : sampling_payload).

Inductive info_sink : Type := ViaInfo | ViaLoggingInfo | ViaSendLoggingMessage.
Inductive progress_sink : Type := ViaReportProgress | ViaProgress.

(** What the handler does to its surroundings, in order. Console output
    ([log.*]) is not recorded. *)
Inductive event : Type :=
| EvInfo (via : info_sink) (message : string)
| EvProgress (via : progress_sink) (progress total : Z)
| EvCall (what : call) (at_ms : Z)
| EvSleep (ms : Z) (at_ms : Z)
| EvTimerSet (id : nat) (ms : Z)
| EvTimerCleared (id : nat)
| EvListenerAdded (id : nat)
| EvListenerRemoved (id : nat).

Definition client_key : Type := (string * string * string)%type.

Record world : Type := {
  now : Z;                                   (* [Date.now()], ms *)
  calls : nat;                               (* awaited external calls so far *)
  trace : list event;                        (* oldest first *)
  next_id : nat;                             (* next timer or listener handle *)
  timers : list nat;                         (* [setTimeout] handles not cleared *)
  listeners : list nat;                      (* abort listeners on [ctx.signal] *)
  clients : list (client_key * client)       (* the [__clients] map *)
}.

Definition emit (e : event) (w : world) : world :=
  {| now := now w; calls := calls w; trace := trace w ++ [e];
     next_id := next_id w; timers := timers w; listeners := listeners w;
     clients := clients w |}.

Definition advance (ms : Z) (w : world) : world :=
  {| now := now w + Z.max 0 ms; calls := calls w; trace := trace w;
     next_id := next_id w; timers := timers w; listeners := listeners w;
     clients := clients w |}.

Definition count_call (w : world) : world :=
  {| now := now w; calls := S (calls w); trace := trace w;
     next_id := next_id w; timers := timers w; listeners := listeners w;
     clients := clients w |}.

(** *** State and exceptions *)

Definition M (A : Type) : Type := world -> outcome A * world.

Definition ret {A} (a : A) : M A := fun w => (Returned a, w).
Definition throw {A} (x : exn) : M A := fun w => (Threw x, w).

Definition bind {A B} (m : M A) (k : A -> M B) : M B :=
  fun w =>
    match m w with
    | (Returned a, w1) => k a w1
    | (Threw x, w1) => (Threw x, w1)
    end.

Notation "x <- m ;; k" := (bind m (fun x => k))
  (at level 61, m at next level, right associativity).
Notation "m ;; k" := (bind m (fun _ => k))
  (at level 61, right associativity).

(** [try { m } catch (err) { h err }] *)
Definition try_catch {A} (m : M A) (h : exn -> M A) : M A :=
  fun w =>
    match m w with
    | (Returned a, w1) => (Returned a, w1)
    | (Threw x, w1) => h x w1
    end.

(** [try { m } finally { f }]: [f] runs on both completions of [m] and
    the completion of [m] stands unless [f] throws. *)
Definition try_finally {A} (m : M A) (f : M unit) : M A :=
  fun w =>
    match m w with
    | (r, w1) =>
        match f w1 with
        | (Returned _, w2) => (r, w2)
        | (Threw x, w2) => (Threw x, w2)
        end
    end.

(** [try { m } catch { }] *)
Definition swallow (m : M unit) : M unit :=
  try_catch m (fun _ => ret tt).

Definition tell (e : event) : M unit := fun w => (Returned tt, emit e w).
Definition date_now : M Z := fun w => (Returned (now w), w).

(** An awaited external operation: what it settles to and how long it
    takes, given how many external calls were made before it and the time
    it is started. *)
Definition behaviour (A : Type) : Type := nat -> Z -> outcome A * Z.

Definition invoke {A} (what : call) (beh : behaviour A) : M A :=
  fun w =>
    let '(r, d) := beh (calls w) (now w) in
    (r, advance d (count_call (emit (EvCall what (now w)) w))).

(* ================================================================== *)
(** ** Retry executor *)

(** [sleep(ms)]: a timer nothing can cut short. *)
Definition sleep (ms : Z) : M unit :=
  fun w => (Returned tt, advance ms (emit (EvSleep ms (now w)) w)).

(** The [for] loop of [withRetries] from iteration [i] on, [n] iterations
    left ([n = attempts - i]); past the loop, [throw lastErr]. *)
Fixpoint retry_from {A} (fn : M A) (attempts baseDelay : Z)
         (n : nat) (i : Z) (lastErr : exn) : M A :=
  match n with
  | O => throw lastErr
  | S n' =>
      try_catch fn
        (fun err =>
           if negb (isRetryableStatus (status_of err)) || (i =? attempts - 1)
           then throw err
           else
             sleep (baseDelay * 2 ^ i) ;;
             retry_from fn attempts baseDelay n' (i + 1) err)
  end.

Definition withRetries {A} (fn : M A) (attempts baseDelay : Z) : M A :=
  retry_from fn attempts baseDelay (Z.to_nat attempts) 0 ExnUndefined.


(* ================================================================== *)
(** ** Request validation: [askSchema] *)

Inductive section_name : Type := Summary | Findings | Plan | Risks | Verification.

Definition section_of_string (s : string) : option section_name :=
  if String.eqb s "summary" then Some Summary
  else if String.eqb s "findings" then Some Findings
  else if String.eqb s "plan" then Some Plan
  else if String.eqb s "risks" then Some Risks
  else if String.eqb s "verification" then Some Verification
  else None.

(** [s.toUpperCase()] *)
Definition upper (s : section_name) : string :=
  match s with
  | Summary => "SUMMARY"
  | Findings => "FINDINGS"
  | Plan => "PLAN"
  | Risks => "RISKS"
  | Verification => "VERIFICATION"
  end.

Definition buildSectionsHeader (sections : list section_name) : string :=
  join ", " (map upper sections).

(** The arguments after [askSchema.parse] and the defaults of the
    destructuring. The length of [question] is counted in characters of
    the string. *)
Record request : Type := {
  question : string;
  context_text : option string;              (* [context] *)
  sections : list section_name;
  model : string;
  maxOutputTokens : Z;
  timeoutMs : Z;
  temperature : option Q
}.

Definition DEFAULT_TIMEOUT_MS : Z := 120000.
Definition DEFAULT_MAX_TOKENS : Z := 1024.

Definition known_key (k : string) : bool :=
  String.eqb k "question" || String.eqb k "context" || String.eqb k "sections"
  || String.eqb k "model" || String.eqb k "maxOutputTokens"
  || String.eqb k "timeoutMs" || String.eqb k "temperature".

Definition obind {A B} (o : outcome A) (k : A -> outcome B) : outcome B :=
  match o with
  | Returned a => k a
  | Threw x => Threw x
  end.

(** [z.string().optional()] *)
Definition zod_string_optional (field : string) (v : value) : outcome (option string) :=
  match v with
  | VUndefined => Returned None
  | VStr s => Returned (Some s)
  | _ => Threw (ExnZod field)
  end.

(** [z.number().int().positive().optional()] *)
Definition zod_posint_optional (field : string) (v : value) : outcome (option Z) :=
  match v with
  | VUndefined => Returned None
  | VNum q =>
      if Pos.eqb (Qden (Qred q)) 1 && (0 <? Qnum (Qred q))
      then Returned (Some (Qnum (Qred q)))
      else Threw (ExnZod field)
  | _ => Threw (ExnZod field)
  end.

Fixpoint zod_sections (xs : list value) : outcome (list section_name) :=
  match xs with
  | [] => Returned []
  | VStr s :: r =>
      match section_of_string s with
      | Some sec => obind (zod_sections r) (fun secs => Returned (sec :: secs))
      | None => Threw (ExnZod "sections")
      end
  | _ :: _ => Threw (ExnZod "sections")
  end.

(** [askSchema.parse(rawArgs)] followed by the defaults; [DEFAULT_MODEL]
    is read from the environment at start-up. *)
Definition askSchema_parse (DEFAULT_MODEL : string) (rawArgs : value) : outcome request :=
  match rawArgs with
  | VObj fs =>
      if negb (forallb (fun kv => known_key (fst kv)) fs) then Threw (ExnZod "unrecognized_keys")
      else
        match lookup "question" fs with
        | VStr q =>
            if Nat.ltb (String.length q) 5 then Threw (ExnZod "question too short")
            else
              obind (zod_string_optional "context" (lookup "context" fs)) (fun context =>
              obind (match lookup "sections" fs with
                     | VUndefined => Returned [Summary; Findings; Plan]
                     | VArr xs => zod_sections xs
                     | _ => Threw (ExnZod "sections")
                     end) (fun sections =>
              obind (zod_string_optional "model" (lookup "model" fs)) (fun model =>
              obind (zod_posint_optional "maxOutputTokens" (lookup "maxOutputTokens" fs)) (fun maxOutputTokens =>
              obind (zod_posint_optional "timeoutMs" (lookup "timeoutMs" fs)) (fun timeoutMs =>
              obind (match lookup "temperature" fs with
                     | VUndefined => Returned None
                     | VNum t => if Qle_bool 0 t && Qle_bool t 2 then Returned (Some t)
                                 else Threw (ExnZod "temperature")
                     | _ => Threw (ExnZod "temperature")
                     end) (fun temperature =>
              Returned
                {| question := q;
                   context_text := context;
                   sections := sections;
                   model := match model with Some m => m | None => DEFAULT_MODEL end;
                   maxOutputTokens := match maxOutputTokens with Some n => n | None => DEFAULT_MAX_TOKENS end;
                   timeoutMs := match timeoutMs with Some n => n | None => DEFAULT_TIMEOUT_MS end;
                   temperature := temperature |}))))))
        | _ => Threw (ExnZod "question")
        end
  | _ => Threw (ExnZod "object")
  end.

(* ================================================================== *)
(** ** Process configuration and caller context *)

Record config : Type := {
  OPENAI_API_KEY : option string;
  OPENAI_BASE_URL : option string;
  OPENAI_ORG_ID : option string;
  DEFAULT_MODEL : string;
  MAX_TOKENS_CAP : Z;
  SAMPLING_MODE : string
}.

(** A [createMessage] entry point of the caller. *)
Definition sampler : Type := sampling_payload -> behaviour value.

(** The second argument of the handler, by what the handler probes on it
    (an [undefined] context has none of these). [ctx_signal] says that
    [ctx.signal] is an [AbortSignal]. *)
Record context : Type := {
  ctx_info : bool;
  ctx_logging_info : bool;
  ctx_sendLoggingMessage : bool;
  ctx_reportProgress : bool;
  ctx_progress : bool;
  ctx_sampling_createMessage : option sampler;
  ctx_session_createMessage : option sampler;
  ctx_createMessage : option sampler;
  ctx_signal : bool
}.

(** The sink [sendInfo] finds first: [ctx.info], [ctx.logging.info] or
    [ctx.sendLoggingMessage]. *)
Definition info_sink_of (ctx : context) : option info_sink :=
  if ctx_info ctx then Some ViaInfo
  else if ctx_logging_info ctx then Some ViaLoggingInfo
  else if ctx_sendLoggingMessage ctx then Some ViaSendLoggingMessage
  else None.

(** The sink [reportProgress] finds first: [ctx.reportProgress] or
    [ctx.progress]. *)
Definition progress_sink_of (ctx : context) : option progress_sink :=
  if ctx_reportProgress ctx then Some ViaReportProgress
  else if ctx_progress ctx then Some ViaProgress
  else None.

(** Both notifiers call the first sink they find and swallow what it
    throws. *)
Definition sendInfo (ctx : context) (message : string) : M unit :=
  match info_sink_of ctx with
  | Some via => tell (EvInfo via message)
  | None => ret tt
  end.

Definition reportProgress (ctx : context) (progress total : Z) : M unit :=
  match progress_sink_of ctx with
  | Some via => tell (EvProgress via progress total)
  | None => ret tt
  end.

(** The result handed back to the transport; [isError] is [false] where
    the object has no such field. *)
Record tool_result : Type := {
  isError : bool;
  content : list (string * string)           (* type, text *)
}.

Definition mcpErr (text code : string) : tool_result :=
  {| isError := true; content := [("text", (code ++ ": " ++ text)%string)] |}.

Definition text_result (text : string) : tool_result :=
  {| isError := false; content := [("text", text)] |}.

(* ================================================================== *)
(** ** Provider client pool: [getOpenAI] *)

Definition or_empty (o : option string) : string :=
  match o with Some s => s | None => EmptyString end.

Definition key_eqb (a b : client_key) : bool :=
  let '(a1, a2, a3) := a in
  let '(b1, b2, b3) := b in
  String.eqb a1 b1 && String.eqb a2 b2 && String.eqb a3 b3.

Fixpoint pool_get (key : client_key) (pool : list (client_key * client)) : option client :=
  match pool with
  | [] => None
  | (k, c) :: r => if key_eqb k key then Some c else pool_get key r
  end.

(** The [OpenAIError] of the SDK's constructor. *)
Definition missing_credentials : exn :=
  let message :=
    "The OPENAI_API_KEY environment variable is missing or empty; either provide it, or instantiate the OpenAI client with an apiKey option, like new OpenAI({ apiKey: 'My API Key' })." in
  ExnError {| err_status := None; err_response_status := None;
              err_message := message;
              err_string := ("Error: " ++ message)%string |}.

(** [new OpenAI({ apiKey: k, baseURL: b, organization: o })], the SDK's
    constructor. An [apiKey] that is [undefined] defaults to the content
    of the environment variable [OPENAI_API_KEY], and the constructor
    throws when that leaves it [undefined]. The one caller passes the
    trimmed content of that variable, so [undefined] is passed exactly
    when the variable is unset, and the constructor throws; a string, the
    empty one included, is accepted as it is. *)
Definition new_OpenAI (k b o : option string) : outcome client :=
  match k with
  | Some _ => Returned {| c_apiKey := k; c_baseURL := b; c_organization := o |}
  | None => Threw missing_credentials
  end.

(** The map is keyed by [JSON.stringify] of the three strings, here by the
    triple itself. When the constructor throws nothing is stored. *)
Definition getOpenAI (k b o : option string) : M client :=
  fun w =>
    let key := (or_empty k, or_empty b, or_empty o) in
    match pool_get key (clients w) with
    | Some c => (Returned c, w)
    | None =>
        match new_OpenAI k b o with
        | Returned c =>
            (Returned c,
             {| now := now w; calls := calls w; trace := trace w;
                next_id := next_id w; timers := timers w;
                listeners := listeners w;
                clients := clients w ++ [(key, c)] |})
        | Threw x => (Threw x, w)
        end
    end.

(* ================================================================== *)
(** ** Timers and abort listeners *)

Definition remove_id (id : nat) (l : list nat) : list nat :=
  filter (fun j => negb (Nat.eqb j id)) l.

Definition setTimeout (ms : Z) : M nat :=
  fun w =>
    (Returned (next_id w),
     {| now := now w; calls := calls w;
        trace := trace w ++ [EvTimerSet (next_id w) ms];
        next_id := S (next_id w); timers := timers w ++ [next_id w];
        listeners := listeners w; clients := clients w |}).

Definition clearTimeout (id : nat) : M unit :=
  fun w =>
    (Returned tt,
     {| now := now w; calls := calls w;
        trace := trace w ++ [EvTimerCleared id];
        next_id := next_id w; timers := remove_id id (timers w);
        listeners := listeners w; clients := clients w |}).

(** [ctx.signal.addEventListener("abort", onAbort, { once: true })] *)
Definition addEventListener : M nat :=
  fun w =>
    (Returned (next_id w),
     {| now := now w; calls := calls w;
        trace := trace w ++ [EvListenerAdded (next_id w)];
        next_id := S (next_id w); timers := timers w;
        listeners := listeners w ++ [next_id w]; clients := clients w |}).

(** [ctx.signal.removeEventListener("abort", onAbort)] *)
Definition removeEventListener (id : nat) : M unit :=
  fun w =>
    (Returned tt,
     {| now := now w; calls := calls w;
        trace := trace w ++ [EvListenerRemoved id];
        next_id := next_id w; timers := timers w;
        listeners := remove_id id (listeners w); clients := clients w |}).


(* ================================================================== *)
(** ** The tool handler *)

Section Handler.

(** [String(n)] for a number [n]. *)
Variable Number_toString : Q -> string.

(** [String(v)] *)
Fixpoint js_String (v : value) : string :=
  match v with
  | VUndefined => "undefined"
  | VNull => "null"
  | VBool true => "true"
  | VBool false => "false"
  | VNum q => Number_toString q
  | VStr s => s
  | VArr xs =>
      join ","
        (map (fun x => match x with
                       | VUndefined | VNull => EmptyString
                       | _ => js_String x
                       end) xs)
  | VObj _ => "[object Object]"
  end.

(** *** Caller-provided generation: [tryClientSampling] *)

(** The local [extract] of [tryClientSampling]. *)
Fixpoint extract (node : value) : string :=
  match node with
  | VStr s => s
  | VArr xs => join nl (filter nonempty (map extract xs))
  | VObj fs =>
      if truthy (lookup "text" fs) then js_String (lookup "text" fs)
      else if is_str "text" (lookup "type" fs) && truthy (lookup "text" fs)
           then js_String (lookup "text" fs)
      else at_key "content" (fun c => if truthy c then extract c else EmptyString)
             EmptyString fs
  | _ => EmptyString
  end.

Definition nullish (v : value) : bool :=
  match v with VUndefined | VNull => true | _ => false end.

(** [a ?? b] *)
Definition coalesce (a b : value) : value := if nullish a then b else a.

(** The entry point the probing selects, if any. *)
Definition choose_entry (ctx : context) : option (entry_point * sampler) :=
  match ctx_sampling_createMessage ctx with
  | Some f => Some (SamplingCreateMessage, f)
  | None =>
      match ctx_session_createMessage ctx with
      | Some f => Some (SessionCreateMessage, f)
      | None =>
          match ctx_createMessage ctx with
          | Some f => Some (CtxCreateMessage, f)
          | None => None
          end
      end
  end.

(** [None] is the [null] result. *)
Definition tryClientSampling (ctx : context) (system user : string)
           (maxTokens : Z) (temperature : option Q) (model : string)
  : M (option string) :=
  try_catch
    (let payload :=
       {| sp_messages := [("system", system); ("user", user)];
          sp_maxTokens := maxTokens;
          sp_max_tokens := maxTokens;
          sp_temperature := temperature;
          sp_model := model;
          sp_systemPrompt := system;
          sp_system_prompt := system |} in
     match choose_entry ctx with
     | Some (via, createMessage) =>
         result <- invoke (SampleCall via payload) (createMessage payload) ;;
         let content :=
           coalesce (coalesce (get "content" result)
                              (get "content" (get "message" result)))
                    (get "output" result) in
         let text := trim (extract content) in
         ret (if nonempty text then Some text else None)
     | None => ret None
     end)
    (fun _ => ret None).

(** *** Provider generation *)

(** [/^o3($|[-/])/.test(model)] *)
Definition isReasoningModel (model : string) : bool :=
  match model with
  | String c1 (String c2 r) =>
      Ascii.eqb c1 "o" && Ascii.eqb c2 "3" &&
      match r with
      | EmptyString => true
      | String c _ => Ascii.eqb c "-" || Ascii.eqb c "/"
      end
  | _ => false
  end.

(** The object [req] once the temperature has been decided. *)
Definition build_request (model system user : string) (safeMaxTokens : Z)
           (temperature : option Q) : provider_request :=
  {| req_model := model;
     req_reasoning_effort := if isReasoningModel model then Some "medium" else None;
     req_input := [("system", system); ("user", user)];
     req_max_output_tokens := safeMaxTokens;
     req_temperature := if negb (isReasoningModel model) then temperature else None |}.

Definition system_prompt (sectionsHeader : string) : string :=
  ("You are a senior principal engineer (" ++ dquote ++ "oracle" ++ dquote ++ ")."
   ++ nl ++ "Return guidance in plain text with clearly delineated sections: "
   ++ sectionsHeader ++ "." ++ nl
   ++ "Keep it concise and actionable. Provide commands in Verification.")%string.

Definition user_prompt (question : string) (context : option string) : string :=
  (question ++
   match context with
   | Some c => if nonempty c
               then nl ++ nl ++ "Additional context:" ++ nl ++ c
               else EmptyString
   | None => EmptyString
   end)%string.

Definition type_error (base : string) : exn :=
  ExnError
    {| err_status := None; err_response_status := None;
       err_message := ("Cannot read properties of " ++ base ++ " (reading 'output_text')")%string;
       err_string := ("TypeError: Cannot read properties of " ++ base ++ " (reading 'output_text')")%string |}.

(** Reading [anyResp.output_text] throws on [null] and [undefined]. *)
Definition extract_text (anyResp : value) : M string :=
  match anyResp with
  | VUndefined => throw (type_error "undefined")
  | VNull => throw (type_error "null")
  | _ => ret (response_text anyResp)
  end.

(** [status ? ... : ...] *)
Definition truthy_status (status : option Z) : option Z :=
  match status with
  | Some s => if s =? 0 then None else Some s
  | None => None
  end.

(** [err?.message || err] inside a template string *)
Definition message_or_self (err : exn) : string :=
  match err with
  | ExnUndefined => "undefined"
  | ExnZod issue => issue
  | ExnError e => if nonempty (err_message e) then err_message e else err_string e
  end.

(** The [try] block of the provider path. *)
Definition provider_try (provider : client -> provider_request -> behaviour value)
           (ctx : context) (c : client) (r : request)
           (system user : string) (safeMaxTokens : Z) : M tool_result :=
  start <- date_now ;;
  let req := build_request (model r) system user safeMaxTokens (temperature r) in
  reportProgress ctx 10 100 ;;
  response <- withRetries (invoke (ProviderCall c req) (provider c req)) 3 500 ;;
  finish <- date_now ;;
  let ms := finish - start in
  reportProgress ctx 90 100 ;;
  sendInfo ctx ("Completed in " ++ string_of_Z ms ++ " ms")%string ;;
  text <- extract_text response ;;
  if negb (nonempty text) then
    swallow (reportProgress ctx 100 100) ;;
    swallow (sendInfo ctx "Error: Model returned no text content") ;;
    ret (mcpErr "Model returned no text content" "E_EMPTY_MODEL_OUTPUT")
  else
    swallow (reportProgress ctx 100 100) ;;
    ret (text_result text).

(** Its [catch] block. *)
Definition provider_catch (ctx : context) (err : exn) : M tool_result :=
  let status := truthy_status (status_of err) in
  let msg :=
    ("OpenAI error"
     ++ match status with
        | Some s => " (status " ++ string_of_Z s ++ ")"
        | None => EmptyString
        end
     ++ ": " ++ message_or_self err)%string in
  swallow (sendInfo ctx ("Error: " ++ msg)%string ;; reportProgress ctx 100 100) ;;
  ret (mcpErr msg
         match status with
         | Some s => ("E_OPENAI_HTTP_" ++ string_of_Z s)%string
         | None => "E_OPENAI_ERROR"
         end).

(** Its [finally] block; [cancelUnsub] is the listener to remove, if one
    was registered. *)
Definition provider_finally (timer : nat) (cancelUnsub : option nat) : M unit :=
  clearTimeout timer ;;
  swallow (match cancelUnsub with
           | Some l => swallow (removeEventListener l)
           | None => ret tt
           end).

Definition missing_key_msg : string :=
  "Missing OPENAI_API_KEY in environment (required for server-side generation)".

(** [!apiKey] *)
Definition no_key (apiKey : option string) : bool :=
  match apiKey with
  | Some k => negb (nonempty k)
  | None => true
  end.

(** From [new AbortController()] to the end of the handler. *)
Definition provider_path (provider : client -> provider_request -> behaviour value)
           (ctx : context) (apiKey : option string) (c : client) (r : request)
           (system user : string) (safeMaxTokens : Z) : M tool_result :=
  cancelUnsub <- (if ctx_signal ctx
                  then l <- addEventListener ;; ret (Some l)
                  else ret None) ;;
  timer <- setTimeout (timeoutMs r) ;;
  if no_key apiKey then
    swallow (sendInfo ctx ("Error: " ++ missing_key_msg)%string ;;
             reportProgress ctx 100 100) ;;
    ret (mcpErr missing_key_msg "E_MISSING_OPENAI_KEY")
  else
    try_finally
      (try_catch (provider_try provider ctx c r system user safeMaxTokens)
                 (provider_catch ctx))
      (provider_finally timer cancelUnsub).

Definition trimmed_or_undefined (o : option string) : option string :=
  match o with
  | Some s => if nonempty (trim s) then Some (trim s) else None
  | None => None
  end.

Definition sampling_unavailable_msg : string :=
  "Client sampling requested but not available".

(** The arbitration between the two generation mechanisms ([if
    (SAMPLING_MODE !== "off") ...] and what follows it). *)
Definition sampling_broker (cfg : config)
           (provider : client -> provider_request -> behaviour value)
           (ctx : context) (apiKey : option string) (c : client) (r : request)
           (system user : string) (safeMaxTokens : Z) : M tool_result :=
  if negb (String.eqb (SAMPLING_MODE cfg) "off") then
    sampled <- tryClientSampling ctx system user safeMaxTokens (temperature r) (model r) ;;
    match sampled with
    | Some text =>
        swallow (reportProgress ctx 100 100) ;;
        sendInfo ctx "Used client-side sampling" ;;
        ret (text_result text)
    | None =>
        if String.eqb (SAMPLING_MODE cfg) "always" then
          swallow (sendInfo ctx ("Error: " ++ sampling_unavailable_msg)%string ;;
                   reportProgress ctx 100 100) ;;
          ret (mcpErr sampling_unavailable_msg "E_CLIENT_SAMPLING_UNAVAILABLE")
        else provider_path provider ctx apiKey c r system user safeMaxTokens
    end
  else provider_path provider ctx apiKey c r system user safeMaxTokens.

(** The handler on validated arguments. *)
Definition serve (cfg : config)
           (provider : client -> provider_request -> behaviour value)
           (ctx : context) (r : request) : M tool_result :=
  sendInfo ctx ("Starting oracle request (model=" ++ model r ++ ")")%string ;;
  reportProgress ctx 0 100 ;;
  let apiKey := option_map trim (OPENAI_API_KEY cfg) in
  let baseURL := trimmed_or_undefined (OPENAI_BASE_URL cfg) in
  let organization := trimmed_or_undefined (OPENAI_ORG_ID cfg) in
  c <- getOpenAI apiKey baseURL organization ;;
  let system := system_prompt (buildSectionsHeader (sections r)) in
  let user := user_prompt (question r) (context_text r) in
  let safeMaxTokens := Z.min (Z.max 1 (maxOutputTokens r)) (MAX_TOKENS_CAP cfg) in
  sampling_broker cfg provider ctx apiKey c r system user safeMaxTokens.

(** The handler registered by [registerOracleTool]. *)
Definition oracle_handler (cfg : config)
           (provider : client -> provider_request -> behaviour value)
           (ctx : context) (rawArgs : value) : M tool_result :=
  fun w =>
    match askSchema_parse (DEFAULT_MODEL cfg) rawArgs with
    | Returned r => serve cfg provider ctx r w
    | Threw x => (Threw x, w)
    end.

End Handler.

(* ================================================================== *)
(** ** File-system roots ([roots.js] in the bundle) *)

(** [ROOTS_CONFIG] *)
Record roots_config : Type := {
  readonly : list string;
  writable : list string
}.

Inductive fs_op : Type :=
| FsReadFile (path : string)
| FsMkdir (path : string)
| FsWriteFile (path content : string).

(** What the handlers use of [node:path] and [node:fs/promises]. The
    file operations answer from the operations made so far. *)
Record fs_host : Type := {
  resolve : string -> string;                               (* [path.resolve] *)
  dirname : string -> string;                               (* [path.dirname] *)
  readFile : list fs_op -> string -> outcome string;
  mkdir : list fs_op -> string -> outcome unit;
  writeFile : list fs_op -> string -> string -> outcome unit
}.

(** [new Error(message)] *)
Definition new_Error (message : string) : exn :=
  ExnError {| err_status := None; err_response_status := None;
              err_message := message;
              err_string := ("Error: " ++ message)%string |}.

(** [`${error}`] for a caught value *)
Definition exn_to_string (error : exn) : string :=
  match error with
  | ExnUndefined => "undefined"
  | ExnZod issue => issue
  | ExnError e => err_string e
  end.

(** [isPathAllowed(requestedPath, requireWritable)]: [(allowed, reason)].
    The loop over the roots returns at the first root whose resolved form
    is a prefix ([startsWith]) of the resolved path. [path.resolve] does
    not throw on strings, which is what the tools pass, so the [catch]
    block has no counterpart here. *)
Definition isPathAllowed (host : fs_host) (ROOTS_CONFIG : roots_config)
           (requestedPath : string) (requireWritable : bool) : bool * string :=
  let normalizedPath := resolve host requestedPath in
  let allowedRoots :=
    if requireWritable then writable ROOTS_CONFIG
    else readonly ROOTS_CONFIG ++ writable ROOTS_CONFIG in
  if existsb (fun root => String.prefix (resolve host root) normalizedPath)
             allowedRoots
  then (true, EmptyString)
  else (false,
        ("Path " ++ normalizedPath ++ " is not within allowed roots: "
         ++ join ", " allowedRoots)%string).

(** File handlers thread the list of the operations made, oldest first. *)
Definition safeReadFile (host : fs_host) (ROOTS_CONFIG : roots_config)
           (filePath : string) (ops : list fs_op) : outcome string * list fs_op :=
  let '(allowed, reason) := isPathAllowed host ROOTS_CONFIG filePath false in
  if negb allowed then (Threw (new_Error reason), ops)
  else
    match readFile host ops filePath with
    | Returned content => (Returned content, ops ++ [FsReadFile filePath])
    | Threw error =>
        (Threw (new_Error ("Failed to read file " ++ filePath ++ ": "
                           ++ exn_to_string error)%string),
         ops ++ [FsReadFile filePath])
    end.

Definition safeWriteFile (host : fs_host) (ROOTS_CONFIG : roots_config)
           (filePath content : string) (ops : list fs_op)
  : outcome unit * list fs_op :=
  let '(allowed, reason) := isPathAllowed host ROOTS_CONFIG filePath true in
  if negb allowed then (Threw (new_Error reason), ops)
  else
    let dir := dirname host filePath in
    let failed (error : exn) :=
      Threw (new_Error ("Failed to write file " ++ filePath ++ ": "
                        ++ exn_to_string error)%string) in
    match mkdir host ops dir with
    | Threw error => (failed error, ops ++ [FsMkdir dir])
    | Returned _ =>
        match writeFile host (ops ++ [FsMkdir dir]) filePath content with
        | Threw error =>
            (failed error, ops ++ [FsMkdir dir] ++ [FsWriteFile filePath content])
        | Returned _ =>
            (Returned tt, ops ++ [FsMkdir dir] ++ [FsWriteFile filePath content])
        end
    end.

Definition error_text_result (text : string) : tool_result :=
  {| isError := true; content := [("text", text)] |}.

(** The handler of the tool [read_file]. *)
Definition read_file_tool (host : fs_host) (ROOTS_CONFIG : roots_config)
           (filePath : string) (ops : list fs_op) : tool_result * list fs_op :=
  match safeReadFile host ROOTS_CONFIG filePath ops with
  | (Returned content, ops') => (text_result content, ops')
  | (Threw error, ops') =>
      (error_text_result ("Error reading file: " ++ exn_to_string error)%string, ops')
  end.

(** The handler of the tool [write_file]. *)
Definition write_file_tool (host : fs_host) (ROOTS_CONFIG : roots_config)
           (filePath content : string) (ops : list fs_op)
  : tool_result * list fs_op :=
  match safeWriteFile host ROOTS_CONFIG filePath content ops with
  | (Returned _, ops') =>
      (text_result ("Successfully wrote "
                    ++ string_of_Z (Z.of_nat (String.length content))
                    ++ " characters to " ++ filePath)%string, ops')
  | (Threw error, ops') =>
      (error_text_result ("Error writing file: " ++ exn_to_string error)%string, ops')
  end.

(* ================================================================== *)
(** ** Sample inputs *)

Definition world0 : world :=
  {| now := 0; calls := 0; trace := []; next_id := 0; timers := [];
     listeners := []; clients := [] |}.

Definition http_error (status : Z) : exn :=
  ExnError {| err_status := Some status; err_response_status := None;
              err_message := "HTTP error"; err_string := "Error: HTTP error" |}.

Definition some_client : client :=
  {| c_apiKey := Some "sk-test"; c_baseURL := None; c_organization := None |}.
Definition some_request : provider_request :=
  {| req_model := "o3"; req_reasoning_effort := Some "medium";
     req_input := [("system", "s"); ("user", "u")];
     req_max_output_tokens := 1024; req_temperature := None |}.

(** An operation that answers 429 twice, then succeeds. *)
Definition beh_429_429_ok : behaviour value :=
  fun i _ => if Nat.ltb i 2 then (Threw (http_error 429), 10)
             else (Returned (VStr "ok"), 10).

Definition no_context : context :=
  {| ctx_info := false; ctx_logging_info := false; ctx_sendLoggingMessage := false;
     ctx_reportProgress := false; ctx_progress := false;
     ctx_sampling_createMessage := None; ctx_session_createMessage := None;
     ctx_createMessage := None; ctx_signal := false |}.

(** A caller with notification sinks and an abort signal, no sampling. *)
Definition plain_context : context :=
  {| ctx_info := true; ctx_logging_info := false; ctx_sendLoggingMessage := false;
     ctx_reportProgress := true; ctx_progress := false;
     ctx_sampling_createMessage := None; ctx_session_createMessage := None;
     ctx_createMessage := None; ctx_signal := true |}.

Definition cfg_of (key : option string) (mode : string) : config :=
  {| OPENAI_API_KEY := key; OPENAI_BASE_URL := None; OPENAI_ORG_ID := None;
     DEFAULT_MODEL := "o3"; MAX_TOKENS_CAP := 4096; SAMPLING_MODE := mode |}.

Definition args_of (extra : list (string * value)) : value :=
  VObj (("question", VStr "How do I shard this table?") :: extra).

Definition provider_ok : client -> provider_request -> behaviour value :=
  fun _ _ _ _ => (Returned resp_flat, 40).

(** A printer of numbers, exact on integers. *)
Definition print_number : Q -> string := fun q => string_of_Z (Qnum q).

(** An operation that fails with HTTP 400 whenever it is called. *)
Definition beh_400 : behaviour value :=
  fun _ _ => (Threw (http_error 400), 5).

(** The error the SDK raises for an aborted request: no status. *)
Definition abort_error : exn :=
  ExnError {| err_status := None; err_response_status := None;
              err_message := "Request was aborted.";
              err_string := "Error: Request was aborted." |}.

(** A provider call under a token that fires at time [fired]: rate-limited
    (429, after 10 ms) while the token has not fired, aborted at once when
    it is started after that. *)
Definition beh_busy_until (fired : Z) : behaviour value :=
  fun _ t => if fired <=? t then (Threw abort_error, 0)
             else (Threw (http_error 429), 10).

(* ================================================================== *)
(** ** Vocabulary of the statements *)

(** [reaches node s]: the string [s] sits in [node] on a path of array
    elements and of object keys none of which the scan skips. *)
Inductive reaches : value -> string -> Prop :=
| reaches_here s : reaches (VStr s) s
| reaches_elem xs x s : In x xs -> reaches x s -> reaches (VArr xs) s
| reaches_field fs k v s :
    In (k, v) fs -> skipped k = false -> reaches v s -> reaches (VObj fs) s.

Definition is_call (e : event) : bool :=
  match e with EvCall _ _ => true | _ => false end.

(** An invocation started at or after time [fired]. *)
Definition called_from (fired : Z) (e : event) : bool :=
  match e with EvCall _ t => fired <=? t | _ => false end.

(** In a trace, every backoff sleep is followed by an invocation that
    starts when the whole delay has elapsed. *)
Fixpoint sleeps_run_out (tr : list event) : bool :=
  match tr with
  | [] => true
  | EvSleep ms t :: r =>
      match r with
      | EvCall _ t' :: _ => t' =? t + Z.max 0 ms
      | _ => false
      end && sleeps_run_out r
  | _ :: r => sleeps_run_out r
  end.

(** The operation honours a token fired at [fired]: started at or after
    that time it fails, with a status that is not retryable. *)
Definition refuses_from {A} (fired : Z) (beh : behaviour A) : Prop :=
  forall i t, fired <= t ->
    match fst (beh i t) with
    | Threw x => isRetryableStatus (status_of x) = false
    | Returned _ => False
    end.

(** The world after an invocation of [what] that took [d] ms. *)
Definition after_call (what : call) (d : Z) (w : world) : world :=
  advance d (count_call (emit (EvCall what (now w)) w)).

(** The world after a backoff sleep of [ms] ms. *)
Definition after_sleep (ms : Z) (w : world) : world :=
  advance ms (emit (EvSleep ms (now w)) w).

(** [w'] has the trace of [w] followed by events that all satisfy [P]. *)
Definition extends (P : event -> Prop) (w w' : world) : Prop :=
  exists new, trace w' = trace w ++ new /\ Forall P new.

(** Whatever the world, [m] adds only events that satisfy [P]. *)
Definition emits {A} (P : event -> Prop) (m : M A) : Prop :=
  forall w, extends P w (snd (m w)).

(** Every provider call among the events satisfies [Q]. *)
Definition calls_satisfy (Q : client -> provider_request -> Prop) (e : event) : Prop :=
  match e with
  | EvCall (ProviderCall c req) _ => Q c req
  | _ => True
  end.

Definition no_provider_call : event -> Prop := calls_satisfy (fun _ _ => False).

(** The handles the provider path obtains when it starts in [w]: the
    listener first (when there is a signal), then the timer. *)
Definition listener_of (w : world) : nat := next_id w.
Definition timer_of (ctx : context) (w : world) : nat :=
  if ctx_signal ctx then S (next_id w) else next_id w.

(** The request [serve] builds for the provider from the validated
    arguments [r]. *)
Definition outbound_request (cfg : config) (r : request) : provider_request :=
  build_request (model r)
    (system_prompt (buildSectionsHeader (sections r)))
    (user_prompt (question r) (context_text r))
    (Z.min (Z.max 1 (maxOutputTokens r)) (MAX_TOKENS_CAP cfg))
    (temperature r).

(** The requests of the provider calls in a trace, in order. *)
Fixpoint provider_requests (tr : list event) : list provider_request :=
  match tr with
  | [] => []
  | EvCall (ProviderCall _ req) _ :: r => req :: provider_requests r
  | _ :: r => provider_requests r
  end.

(** The delays of the backoff sleeps in a trace, in order. *)
Fixpoint sleep_delays (tr : list event) : list Z :=
  match tr with
  | [] => []
  | EvSleep ms _ :: r => ms :: sleep_delays r
  | _ :: r => sleep_delays r
  end.

(** The first [k] delays of the exponential schedule that starts at
    iteration [i]: [baseDelay * 2^i], [baseDelay * 2^(i+1)], ... *)
Fixpoint backoff_schedule (baseDelay i : Z) (k : nat) : list Z :=
  match k with
  | O => []
  | S k' => baseDelay * 2 ^ i :: backoff_schedule baseDelay (i + 1) k'
  end.

(** The operation fails with a retryable status whenever it is invoked. *)
Definition always_retryable {A} (beh : behaviour A) : Prop :=
  forall i t,
    match fst (beh i t) with
    | Threw x => isRetryableStatus (status_of x) = true
    | Returned _ => False
    end.

(** An operation that answers 503 whenever it is called. *)
Definition beh_503 : behaviour value :=
  fun _ _ => (Threw (http_error 503), 20).

(** The string is empty or starts with a character [trim] keeps. *)
Definition starts_clean (s : string) : Prop :=
  match s with
  | EmptyString => True
  | String c _ => is_space c = false
  end.

(** The key under which [getOpenAI] files a client. *)
Definition pool_key (k b o : option string) : client_key :=
  (or_empty k, or_empty b, or_empty o).

(** Whatever the world, the outcome of [m] satisfies [Q]. *)
Definition sat {A} (m : M A) (Q : outcome A -> Prop) : Prop :=
  forall w, Q (fst (m w)).

Definition returned {A} (r : outcome A) : Prop := exists a, r = Returned a.

(** Notifications and calls to the caller's sampling, nothing else. *)
Definition quiet (e : event) : Prop :=
  match e with
  | EvInfo _ _ | EvProgress _ _ _ | EvCall (SampleCall _ _) _ => True
  | _ => False
  end.

Definition no_sample_call (e : event) : Prop :=
  match e with
  | EvCall (SampleCall _ _) _ => False
  | _ => True
  end.

(** An invocation of [what] or a backoff sleep. *)
Definition retry_event (what : call) (e : event) : Prop :=
  match e with
  | EvCall what' _ => what' = what
  | EvSleep _ _ => True
  | _ => False
  end.

(** The world in which the [try] block of the provider path starts: the
    listener (when there is a signal) and the timer are registered. *)
Definition registered (ctx : context) (ms : Z) (w : world) : world :=
  snd ((cancelUnsub <- (if ctx_signal ctx
                        then l <- addEventListener ;; ret (Some l)
                        else ret None) ;;
        setTimeout ms) w).

(** The listener handle kept in [cancelUnsub]. *)
Definition cancelUnsub_of (ctx : context) (w : world) : option nat :=
  if ctx_signal ctx then Some (listener_of w) else None.

(** The codes of the error results of the handler. *)
Definition known_code (code : string) : Prop :=
  code = "E_CLIENT_SAMPLING_UNAVAILABLE"
  \/ code = "E_MISSING_OPENAI_KEY"
  \/ code = "E_EMPTY_MODEL_OUTPUT"
  \/ code = "E_OPENAI_ERROR"
  \/ exists s, s <> 0 /\ code = ("E_OPENAI_HTTP_" ++ string_of_Z s)%string.

(** A result of the handler: a text that is not blank and has no
    surrounding whitespace, or an error with a code of the taxonomy. *)
Inductive classified : tool_result -> Prop :=
| classified_text text :
    nonempty text = true -> trim text = text -> classified (text_result text)
| classified_error msg code :
    known_code code -> classified (mcpErr msg code).

(** What the [try] block of the provider path makes of a response. *)
Definition result_of_response (resp : value) : outcome tool_result :=
  match resp with
  | VUndefined => Threw (type_error "undefined")
  | VNull => Threw (type_error "null")
  | _ =>
      Returned (if nonempty (response_text resp)
                then text_result (response_text resp)
                else mcpErr "Model returned no text content" "E_EMPTY_MODEL_OUTPUT")
  end.

(** A text part of a sampling result. *)
Definition text_part (t : string) : value :=
  VObj [("type", VStr "text"); ("text", VStr t)].

(** A [createMessage] that answers with the given text parts. *)
Definition says (parts : list string) : sampler :=
  fun _ _ _ => (Returned (VObj [("role", VStr "assistant");
                               ("content", VArr (map text_part parts))]), 30).

(** A caller that offers [ctx.sampling.createMessage]. *)
Definition sampling_context (f : sampler) : context :=
  {| ctx_info := true; ctx_logging_info := false; ctx_sendLoggingMessage := false;
     ctx_reportProgress := true; ctx_progress := false;
     ctx_sampling_createMessage := Some f; ctx_session_createMessage := None;
     ctx_createMessage := None; ctx_signal := true |}.

(** Neither a provider call nor a backoff sleep. *)
Definition idle (e : event) : Prop :=
  match e with
  | EvCall (ProviderCall _ _) _ | EvSleep _ _ => False
  | _ => True
  end.

(** [w'] has the provider requests and the backoff sleeps of [w]. *)
Definition same_io (w w' : world) : Prop :=
  provider_requests (trace w') = provider_requests (trace w)
  /\ sleep_delays (trace w') = sleep_delays (trace w).

(** The code under which the [catch] block reports [err]. *)
Definition code_of (err : exn) : string :=
  match truthy_status (status_of err) with
  | Some s => ("E_OPENAI_HTTP_" ++ string_of_Z s)%string
  | None => "E_OPENAI_ERROR"
  end.

(** The error result the [catch] block builds from [err]. *)
Definition error_result (err : exn) : tool_result :=
  mcpErr ("OpenAI error"
          ++ match truthy_status (status_of err) with
             | Some s => " (status " ++ string_of_Z s ++ ")"
             | None => EmptyString
             end
          ++ ": " ++ message_or_self err)%string
         (code_of err).

(** The result of the provider path, from the outcome of the retried
    provider call. *)
Definition result_of_run (o : outcome value) : tool_result :=
  match o with
  | Returned resp =>
      match result_of_response resp with
      | Returned t => t
      | Threw x => error_result x
      end
  | Threw x => error_result x
  end.

(** A host on which every path is already absolute and normal, with a
    file system that accepts every operation. *)
Definition plain_host : fs_host :=
  {| resolve := fun p => p;
     dirname := fun _ => "/srv/out";
     readFile := fun _ _ => Returned "data";
     mkdir := fun _ _ => Returned tt;
     writeFile := fun _ _ _ => Returned tt |}.

Definition sample_roots : roots_config :=
  {| readonly := ["/srv/docs"]; writable := ["/srv/out"] |}.

(** The operation writes the file at [path]. *)
Definition writes_to (path : string) (op : fs_op) : Prop :=
  match op with
  | FsWriteFile p _ => p = path
  | _ => False
  end.

(** A notification to the caller. *)
Definition notification (e : event) : Prop :=
  match e with
  | EvInfo _ _ | EvProgress _ _ _ => True
  | _ => False
  end.

(** The caller's generation gives no usable text, whenever it is tried:
    no entry point, or one that throws or answers without text. *)
Definition sampling_yields_nothing (Number_toString : Q -> string)
           (ctx : context) : Prop :=
  forall system user maxTokens temperature model w,
    fst (tryClientSampling Number_toString ctx system user maxTokens
                           temperature model w) = Returned None.

(** The requests whose control reaches the provider path once the client
    is there: mode [off], or a mode other than [always] with a caller
    whose generation gives nothing. *)
Definition reaches_provider_path (Number_toString : Q -> string)
           (cfg : config) (ctx : context) : Prop :=
  SAMPLING_MODE cfg = "off"
  \/ (SAMPLING_MODE cfg <> "always"
      /\ sampling_yields_nothing Number_toString ctx).

(** No client is filed under the key of a request made without
    [OPENAI_API_KEY]. *)
Definition unpooled (cfg : config) (w : world) : Prop :=
  pool_get (pool_key None (trimmed_or_undefined (OPENAI_BASE_URL cfg))
                     (trimmed_or_undefined (OPENAI_ORG_ID cfg)))
           (clients w) = None.

(** A caller with no [createMessage] entry point. *)
Definition no_capability (ctx : context) : Prop :=
  ctx_sampling_createMessage ctx = None
  /\ ctx_session_createMessage ctx = None
  /\ ctx_createMessage ctx = None.

(* ================================================================== *)
(** * Properties *)

(** ** Readings of the definitions *)

Example trim_sample : trim (" " ++ nl ++ "a b " ++ nl)%string = "a b".
Proof. reflexivity. Qed.

Example join_sample : join nl ["a"; "b"] = ("a" ++ nl ++ "b")%string.
Proof. reflexivity. Qed.

Example isReasoningModel_samples :
  isReasoningModel "o3" = true /\ isReasoningModel "o3-mini" = true
  /\ isReasoningModel "o3/high" = true /\ isReasoningModel "o30" = false
  /\ isReasoningModel "gpt-4o" = false.
Proof. repeat split; reflexivity. Qed.

Example isRetryableStatus_samples :
  isRetryableStatus (Some 429) = true /\ isRetryableStatus (Some 503) = true
  /\ isRetryableStatus (Some 600) = false /\ isRetryableStatus (Some 400) = false
  /\ isRetryableStatus None = false.
Proof. repeat split; reflexivity. Qed.

Example askSchema_parse_samples :
  askSchema_parse "o3" (args_of [("sections", VArr [VStr "risks"]);
                                 ("temperature", VNum (3 # 10))])
  = Returned {| question := "How do I shard this table?";
                context_text := None; sections := [Risks]; model := "o3";
                maxOutputTokens := 1024; timeoutMs := 120000;
                temperature := Some (3 # 10)%Q |}
  /\ askSchema_parse "o3" (VObj [("question", VStr "why?")])
     = Threw (ExnZod "question too short")
  /\ askSchema_parse "o3" (args_of [("maxOutputTokens", VNum (3 # 2))])
     = Threw (ExnZod "maxOutputTokens")
  /\ askSchema_parse "o3" (args_of [("verbose", VBool true)])
     = Threw (ExnZod "unrecognized_keys").
Proof. repeat split; reflexivity. Qed.

(** A run that ends in a provider error: the [catch] block names the
    status and the [finally] block has cleared the timer and removed the
    listener. *)
Example provider_error_run :
  let run := oracle_handler print_number (cfg_of (Some "sk-x") "off")
                            (fun _ _ => beh_400) plain_context (args_of [])
                            world0 in
  fst run = Returned (mcpErr "OpenAI error (status 400): HTTP error"
                             "E_OPENAI_HTTP_400")
  /\ timers (snd run) = [] /\ listeners (snd run) = []
  /\ List.length (provider_requests (trace (snd run))) = 1%nat.
Proof. repeat split; reflexivity. Qed.

(** ** Response extractor *)

Lemma scan_obj_eq (fs : list (string * value)) :
  scan (VObj fs) =
  text_pushes fs
  ++ (if is_str "assistant" (lookup "role" fs) && truthy (lookup "content" fs)
      then scan (lookup "content" fs) else [])
  ++ (if truthy (lookup "message" fs)
         && is_str "assistant" (get "role" (lookup "message" fs))
      then scan (get "content" (lookup "message" fs)) else [])
  ++ flat_map (fun kv => if skipped (fst kv) then [] else scan (snd kv)) fs.
Proof.
  assert (Hat : forall k (f : value -> list string) l,
             f VUndefined = [] -> at_key k f [] l = f (lookup k l)).
  { intros k f l Hf. induction l as [|[k' v] l IH]; simpl; auto.
    destruct (String.eqb k' k); auto. }
  change (scan (VObj fs)) with
    (text_pushes fs
     ++ (if is_str "assistant" (lookup "role" fs)
         then at_key "content" (fun c => if truthy c then scan c else []) [] fs
         else [])
     ++ at_key "message"
          (fun m => match m with
                    | VObj ms => if is_str "assistant" (lookup "role" ms)
                                 then at_key "content" scan [] ms else []
                    | _ => []
                    end) [] fs
     ++ flat_map (fun kv => if skipped (fst kv) then [] else scan (snd kv)) fs).
  rewrite (Hat "content") by reflexivity.
  rewrite (Hat "message") by reflexivity.
  f_equal. f_equal.
  - destruct (is_str "assistant" (lookup "role" fs)); reflexivity.
  - f_equal. destruct (lookup "message" fs) as [| |b|q|s|xs|ms]; simpl;
      try reflexivity.
    + destruct b; reflexivity.
    + destruct (negb (Qeq_bool q 0)); reflexivity.
    + destruct (nonempty s); reflexivity.
    + destruct (is_str "assistant" (lookup "role" ms)); [|reflexivity].
      apply (Hat "content"). reflexivity.
Qed.

Lemma lookup_In k fs v : lookup k fs = v -> v <> VUndefined -> In (k, v) fs.
Proof.
  induction fs as [|[k' v'] fs IH]; simpl; intros H Hv.
  - congruence.
  - destruct (String.eqb_spec k' k).
    + left. congruence.
    + right. auto.
Qed.

Lemma scan_loop_In fs k v s :
  In (k, v) fs -> skipped k = false -> In s (scan v) ->
  In s (flat_map (fun kv => if skipped (fst kv) then [] else scan (snd kv)) fs).
Proof.
  intros Hin Hk Hs. apply in_flat_map. exists (k, v). split; auto.
  simpl. rewrite Hk. exact Hs.
Qed.

Lemma scan_reaches node s :
  reaches node s -> s <> EmptyString -> In s (scan node).
Proof.
  intros H Hs. induction H as [s|xs x s Hin _ IH|fs k v s Hin Hk _ IH].
  - simpl. destruct s; [congruence|]. simpl. auto.
  - simpl. apply in_flat_map. exists x. auto.
  - rewrite scan_obj_eq. do 3 (apply in_or_app; right).
    eapply scan_loop_In; eauto.
Qed.

(** C1 (evaluation at the specification's two sample responses). The flat
    response [{ output_text: "hello" }] yields ["hello"]. For the nested
    response without [output_text], [scan] pushes nine fragments, among
    them the type tag and the role, so the extracted text is the nine-line
    string below and not ["hi"]; the handler returns that text. *)
Theorem response_text_samples :
  response_text resp_flat = "hello"
  /\ scan (get "output" resp_nested)
     = ["hi"; "hi"; "output_text"; "hi"; "assistant";
        "hi"; "hi"; "output_text"; "hi"]
  /\ response_text resp_nested
     = join nl ["hi"; "hi"; "output_text"; "hi"; "assistant";
                "hi"; "hi"; "output_text"; "hi"]
  /\ response_text resp_nested <> "hi"
  /\ fst (oracle_handler print_number (cfg_of (Some "sk-x") "off")
            (fun _ _ _ _ => (Returned resp_nested, 40))
            no_context (args_of []) world0)
     = Returned (text_result
                   (join nl ["hi"; "hi"; "output_text"; "hi"; "assistant";
                             "hi"; "hi"; "output_text"; "hi"])).
Proof.
  repeat split; try reflexivity.
  vm_compute. discriminate.
Qed.

(** C10 as stated fails on the empty string: it is reachable under the
    key [role] of [{ role: "" }], and [scan] returns on a falsy node
    before pushing it. *)
Lemma scan_skips_empty_string :
  reaches (VObj [("role", VStr EmptyString)]) EmptyString
  /\ ~ In EmptyString (scan (VObj [("role", VStr EmptyString)])).
Proof.
  split.
  - eapply reaches_field with (k := "role"); [left; reflexivity|reflexivity|].
    constructor.
  - vm_compute. tauto.
Qed.

(** C10 (amended). In the structural scan (i) every non-empty string that
    is reachable through array elements and object keys other than
    [logprobs], [tool] and [annotations] is collected, whatever the key
    (role values and type tags included); (ii) the string [text] of a node
    whose [type] is ["output_text"] is collected at least twice; (iii) the
    [content] of a node whose [role] is ["assistant"] is scanned by the
    role-directed branch and again by the key loop; (iv) on the nested
    sample response the collected fragments repeat ["hi"] six times and
    contain the tag ["output_text"] and the role ["assistant"]. *)
Theorem scan_over_collects :
  (forall node s, reaches node s -> s <> EmptyString -> In s (scan node))
  /\ (forall fs t,
        is_str "output_text" (lookup "type" fs) = true ->
        lookup "text" fs = VStr t ->
        (2 <= count_occ string_dec (scan (VObj fs)) t)%nat)
  /\ (forall fs,
        is_str "assistant" (lookup "role" fs) = true ->
        truthy (lookup "content" fs) = true ->
        exists l2 l3,
          scan (VObj fs)
          = text_pushes fs ++ scan (lookup "content" fs) ++ l2
            ++ scan (lookup "content" fs) ++ l3)
  /\ (count_occ string_dec (scan (get "output" resp_nested)) "hi" = 6%nat
      /\ In "output_text" (scan (get "output" resp_nested))
      /\ In "assistant" (scan (get "output" resp_nested))).
Proof.
  split; [exact scan_reaches|]. split; [|split].
  - intros fs t Hty Htx. rewrite scan_obj_eq, count_occ_app.
    unfold text_pushes. rewrite Htx, Hty. simpl.
    destruct (string_dec t t); [lia|congruence].
  - intros fs Hrole Hc. rewrite scan_obj_eq, Hrole, Hc. simpl andb. cbv iota.
    assert (Hin : In ("content", lookup "content" fs) fs).
    { apply lookup_In; [reflexivity|]. intros E. rewrite E in Hc. discriminate. }
    apply in_split in Hin. destruct Hin as [f1 [f2 Hfs]].
    set (c := lookup "content" fs) in *.
    set (m := if truthy (lookup "message" fs)
                 && is_str "assistant" (get "role" (lookup "message" fs))
              then scan (get "content" (lookup "message" fs)) else []).
    set (f := fun kv : string * value =>
                if skipped (fst kv) then [] else scan (snd kv)).
    exists (m ++ flat_map f f1), (flat_map f f2).
    assert (Hloop : flat_map f fs = flat_map f f1 ++ scan c ++ flat_map f f2).
    { rewrite Hfs at 1. rewrite flat_map_app. reflexivity. }
    rewrite Hloop, <- !app_assoc. reflexivity.
  - vm_compute. repeat split; auto 10.
Qed.

(** The amended C10 at [{ type: "output_text", text: "hi", role: "assistant",
    content: ["x"] }]. *)
Lemma scan_over_collects_witness :
  let fs := [("type", VStr "output_text"); ("text", VStr "hi");
             ("role", VStr "assistant"); ("content", VArr [VStr "x"])] in
  In "output_text" (scan (VObj fs))
  /\ (2 <= count_occ string_dec (scan (VObj fs)) "hi")%nat
  /\ exists l2 l3,
      scan (VObj fs)
      = text_pushes fs ++ scan (lookup "content" fs) ++ l2
        ++ scan (lookup "content" fs) ++ l3.
Proof.
  intros fs. split; [|split].
  - apply (proj1 scan_over_collects (VObj fs) "output_text").
    + eapply reaches_field with (k := "type");
        [left; reflexivity|reflexivity|constructor].
    + discriminate.
  - apply (proj1 (proj2 scan_over_collects) fs "hi"); reflexivity.
  - apply (proj1 (proj2 (proj2 scan_over_collects)) fs); reflexivity.
Defined.

(* ------------------------------------------------------------------ *)
(** ** Retry executor *)

Section Retries.

Context {A : Type}.
Variable what : call.
Variable beh : behaviour A.
Variables attempts baseDelay : Z.

Let fn : M A := invoke what beh.

Lemma invoke_eq w :
  invoke what beh w
  = (fst (beh (calls w) (now w)), after_call what (snd (beh (calls w) (now w))) w).
Proof.
  unfold invoke, after_call. destruct (beh (calls w) (now w)). reflexivity.
Qed.

(** One iteration of the loop. *)
Lemma retry_from_step n i lastErr w :
  retry_from fn attempts baseDelay (S n) i lastErr w =
  match fst (beh (calls w) (now w)) with
  | Returned a => (Returned a, after_call what (snd (beh (calls w) (now w))) w)
  | Threw err =>
      if negb (isRetryableStatus (status_of err)) || (i =? attempts - 1)
      then (Threw err, after_call what (snd (beh (calls w) (now w))) w)
      else retry_from fn attempts baseDelay n (i + 1) err
             (after_sleep (baseDelay * 2 ^ i)
                (after_call what (snd (beh (calls w) (now w))) w))
  end.
Proof.
  simpl. unfold try_catch, fn. rewrite invoke_eq.
  destruct (fst (beh (calls w) (now w))) as [a|err]; [reflexivity|].
  destruct (negb (isRetryableStatus (status_of err)) || (i =? attempts - 1));
    reflexivity.
Qed.

(** What the whole loop adds to the trace. *)
Lemma retry_from_trace (fired : Z) n :
  forall i lastErr w,
    Z.of_nat n = attempts - i ->
    exists new,
      trace (snd (retry_from fn attempts baseDelay n i lastErr w))
      = trace w ++ new
      /\ (forall e, (0 < n)%nat -> hd e new = EvCall what (now w))
      /\ sleeps_run_out new = true
      /\ (List.length (filter is_call new) <= n)%nat
      /\ (refuses_from fired beh ->
          (List.length (filter (called_from fired) new) <= 1)%nat).
Proof.
  induction n as [|n IH]; intros i lastErr w Hn.
  - exists []. simpl. rewrite app_nil_r. repeat split; auto; intros; lia.
  - rewrite retry_from_step.
    set (d := snd (beh (calls w) (now w))).
    assert (Hone :
      exists new,
        trace (after_call what d w) = trace w ++ new
        /\ (forall e, (0 < S n)%nat -> hd e new = EvCall what (now w))
        /\ sleeps_run_out new = true
        /\ (List.length (filter is_call new) <= S n)%nat
        /\ (refuses_from fired beh ->
            (List.length (filter (called_from fired) new) <= 1)%nat)).
    { exists [EvCall what (now w)]. simpl.
      repeat split; auto; [|intros _; destruct (fired <=? now w); simpl]; lia. }
    destruct (fst (beh (calls w) (now w))) as [a|err] eqn:Hout; [exact Hone|].
    destruct (isRetryableStatus (status_of err)) eqn:Hretry; simpl negb; simpl orb;
      [|exact Hone].
    destruct (i =? attempts - 1) eqn:Hlast; [exact Hone|].
    apply Z.eqb_neq in Hlast.
    set (w1 := after_call what d w).
    set (ms := baseDelay * 2 ^ i).
    destruct (IH (i + 1) err (after_sleep ms w1))
      as (new & Htr & Hhd & Hso & Hcc & Hcf); [lia|].
    exists (EvCall what (now w) :: EvSleep ms (now w1) :: new).
    assert (Hpos : (0 < n)%nat) by lia.
    specialize (Hhd (EvSleep 0 0) Hpos).
    destruct new as [|e new']; simpl in Hhd; [discriminate|]. subst e.
    split; [|split; [|split; [|split]]].
    + rewrite Htr. simpl. rewrite <- !app_assoc. reflexivity.
    + reflexivity.
    + simpl in Hso |- *. rewrite Hso.
      unfold after_sleep, advance, emit; simpl. rewrite Z.eqb_refl. reflexivity.
    + simpl in Hcc |- *. lia.
    + intros Href. specialize (Hcf Href).
      assert (Hearly : now w < fired).
      { destruct (Z.lt_ge_cases (now w) fired) as [|Hge]; [assumption|].
        pose proof (Href (calls w) (now w) Hge) as Hw.
        rewrite Hout in Hw. congruence. }
      simpl in Hcf |- *.
      destruct (fired <=? now w) eqn:E; [apply Z.leb_le in E; lia|]. exact Hcf.
Qed.

End Retries.


(** C6. An operation that fails with status 429 on its first two
    invocations and succeeds on the third: [withRetries(op, 3, 500)]
    returns the success value after exactly three invocations, having
    slept 500 ms before the second and 1000 ms before the third (at least
    1500 ms in all, the delays being exactly these). *)
Theorem withRetries_429_429_success {A : Type} (what : call) (beh : behaviour A)
        (w : world) (x1 x2 : exn) (v : A) :
  (forall t, fst (beh (calls w) t) = Threw x1) ->
  status_of x1 = Some 429 ->
  (forall t, fst (beh (S (calls w)) t) = Threw x2) ->
  status_of x2 = Some 429 ->
  (forall t, fst (beh (S (S (calls w))) t) = Returned v) ->
  exists t1 s1 t2 s2 t3 w',
    withRetries (invoke what beh) 3 500 w = (Returned v, w')
    /\ trace w' = trace w ++ [EvCall what t1; EvSleep 500 s1; EvCall what t2;
                              EvSleep 1000 s2; EvCall what t3]
    /\ t2 = s1 + 500 /\ t3 = s2 + 1000
    /\ calls w' = S (S (S (calls w)))
    /\ now w + 1500 <= now w'.
Proof.
  intros H1 S1 H2 S2 H3.
  unfold withRetries. change (Z.to_nat 3) with 3%nat.
  rewrite retry_from_step, H1, S1. simpl negb. simpl orb. cbv iota.
  set (w1 := after_call what (snd (beh (calls w) (now w))) w).
  set (w2 := after_sleep (500 * 2 ^ 0) w1).
  rewrite retry_from_step.
  change (calls w2) with (S (calls w)). rewrite H2, S2.
  simpl negb. simpl orb. cbv iota.
  set (w3 := after_call what (snd (beh (S (calls w)) (now w2))) w2).
  set (w4 := after_sleep (500 * 2 ^ (0 + 1)) w3).
  rewrite retry_from_step.
  change (calls w4) with (S (S (calls w))). rewrite H3.
  exists (now w), (now w1), (now w2), (now w3), (now w4).
  eexists. split; [reflexivity|].
  split; [simpl; rewrite <- !app_assoc; reflexivity|].
  split; [simpl; lia|]. split; [simpl; lia|]. split; [reflexivity|].
  simpl. lia.
Qed.

(** C6 at the operation [beh_429_429_ok], from the initial world. *)
Lemma withRetries_429_429_success_witness :
  exists t1 s1 t2 s2 t3 w',
    withRetries (invoke (ProviderCall some_client some_request) beh_429_429_ok)
                3 500 world0
    = (Returned (VStr "ok"), w')
    /\ trace w' = trace world0
                  ++ [EvCall (ProviderCall some_client some_request) t1;
                      EvSleep 500 s1;
                      EvCall (ProviderCall some_client some_request) t2;
                      EvSleep 1000 s2;
                      EvCall (ProviderCall some_client some_request) t3]
    /\ t2 = s1 + 500 /\ t3 = s2 + 1000
    /\ calls w' = S (S (S (calls world0)))
    /\ now world0 + 1500 <= now w'.
Proof.
  apply (withRetries_429_429_success
           (ProviderCall some_client some_request) beh_429_429_ok world0
           (http_error 429) (http_error 429) (VStr "ok")).
  - intros t. reflexivity.
  - reflexivity.
  - intros t. reflexivity.
  - reflexivity.
  - intros t. reflexivity.
Defined.

(** C7. An operation whose first invocation fails with a status outside
    the retryable class (429, or 500 to 599), or with no status: called
    with at least one attempt allowed, [withRetries] rethrows that failure
    after this one invocation and without sleeping. *)
Theorem withRetries_terminal_failure {A : Type} (what : call) (beh : behaviour A)
        (attempts baseDelay : Z) (w : world) (x : exn) :
  0 < attempts ->
  fst (beh (calls w) (now w)) = Threw x ->
  isRetryableStatus (status_of x) = false ->
  exists w',
    withRetries (invoke what beh) attempts baseDelay w = (Threw x, w')
    /\ trace w' = trace w ++ [EvCall what (now w)]
    /\ calls w' = S (calls w).
Proof.
  intros Hpos Hfail Hterm. unfold withRetries.
  destruct (Z.to_nat attempts) as [|n] eqn:Hn; [lia|].
  rewrite retry_from_step, Hfail, Hterm. simpl.
  eexists. split; [reflexivity|]. split; reflexivity.
Qed.

(** C7 at an operation that answers 400, with the handler's policy. *)
Lemma withRetries_terminal_failure_witness :
  0 < 3
  /\ isRetryableStatus (status_of (http_error 400)) = false
  /\ exists w',
      withRetries (invoke (ProviderCall some_client some_request) beh_400)
                  3 500 world0
      = (Threw (http_error 400), w')
      /\ trace w' = trace world0
                    ++ [EvCall (ProviderCall some_client some_request) (now world0)]
      /\ calls w' = S (calls world0).
Proof.
  split; [lia|]. split; [reflexivity|].
  apply (withRetries_terminal_failure
           (ProviderCall some_client some_request) beh_400 3 500 world0
           (http_error 400)); [lia|reflexivity|reflexivity].
Defined.

(** C3 as stated fails when the token fires during a backoff sleep. The
    operation [beh_busy_until 100] is rate-limited until the token fires
    at 100 ms: the first invocation fails at 10 ms, the sleep of 500 ms
    that starts then spans the firing of the token and is not cut short,
    and the operation is invoked again at 510 ms, after the token has
    fired. *)
Lemma withRetries_sleeps_through_token :
  let what := ProviderCall some_client some_request in
  let w' := snd (withRetries (invoke what (beh_busy_until 100)) 3 500 world0) in
  trace w' = [EvCall what 0; EvSleep 500 10; EvCall what 510]
  /\ 10 < 100 < 10 + 500
  /\ now w' = 510
  /\ filter (called_from 100) (trace w') = [EvCall what 510].
Proof.
  vm_compute. repeat split; reflexivity.
Qed.

(** C3 (amended). [withRetries] is given no cancellation token and does
    not observe one. Every backoff sleep lasts its whole delay and is
    followed by a further invocation, and at most [attempts] invocations
    are made. When the operation refuses to run once the token has fired
    (it fails with a status that is not retryable, as a provider call does
    on an aborted signal), at most one invocation is started after the
    token has fired. *)
Theorem withRetries_token_unobserved {A : Type} (what : call) (beh : behaviour A)
        (attempts baseDelay fired : Z) (w : world) :
  exists new,
    trace (snd (withRetries (invoke what beh) attempts baseDelay w))
    = trace w ++ new
    /\ sleeps_run_out new = true
    /\ (List.length (filter is_call new) <= Z.to_nat attempts)%nat
    /\ (refuses_from fired beh ->
        (List.length (filter (called_from fired) new) <= 1)%nat).
Proof.
  unfold withRetries.
  destruct (Z.le_gt_cases attempts 0) as [Hle|Hgt].
  - replace (Z.to_nat attempts) with 0%nat by lia.
    exists []. simpl. rewrite app_nil_r. repeat split; auto.
  - destruct (retry_from_trace what beh attempts baseDelay fired
                (Z.to_nat attempts) 0 ExnUndefined w)
      as (new & Htr & _ & Hso & Hcc & Hcf); [lia|].
    exists new. auto.
Qed.

(** The amended C3 at [beh_busy_until 100]. *)
Lemma withRetries_token_unobserved_witness :
  refuses_from 100 (beh_busy_until 100)
  /\ exists new,
      trace (snd (withRetries
                    (invoke (ProviderCall some_client some_request)
                            (beh_busy_until 100)) 3 500 world0))
      = trace world0 ++ new
      /\ sleeps_run_out new = true
      /\ (List.length (filter is_call new) <= Z.to_nat 3)%nat
      /\ (List.length (filter (called_from 100) new) <= 1)%nat.
Proof.
  assert (Href : refuses_from 100 (beh_busy_until 100)).
  { intros i t Ht. unfold beh_busy_until.
    destruct (100 <=? t) eqn:E; [reflexivity|apply Z.leb_gt in E; lia]. }
  split; [exact Href|].
  destruct (withRetries_token_unobserved
              (ProviderCall some_client some_request) (beh_busy_until 100)
              3 500 100 world0) as (new & Htr & Hso & Hcc & Hcf).
  exists new. auto.
Defined.


(* ------------------------------------------------------------------ *)
(** ** Traces of monadic code *)

Lemma extends_refl P w : extends P w w.
Proof. exists []. rewrite app_nil_r. auto. Qed.

Lemma extends_trans P w1 w2 w3 :
  extends P w1 w2 -> extends P w2 w3 -> extends P w1 w3.
Proof.
  intros (n1 & E1 & F1) (n2 & E2 & F2). exists (n1 ++ n2).
  rewrite E2, E1, app_assoc. split; [reflexivity|]. apply Forall_app. auto.
Qed.

Lemma extends_emit (P : event -> Prop) e w : P e -> extends P w (emit e w).
Proof. intros H. exists [e]. simpl. auto. Qed.

Lemma emits_ret {A} P (a : A) : emits P (ret a).
Proof. intros w. apply extends_refl. Qed.

Lemma emits_throw {A} P x : emits P (@throw A x).
Proof. intros w. apply extends_refl. Qed.

Lemma emits_bind {A B} P (m : M A) (k : A -> M B) :
  emits P m -> (forall a, emits P (k a)) -> emits P (bind m k).
Proof.
  intros Hm Hk w. unfold bind. specialize (Hm w).
  destruct (m w) as [[a|x] w1]; simpl in Hm.
  - eapply extends_trans; [exact Hm|apply Hk].
  - exact Hm.
Qed.

Lemma emits_try_catch {A} P (m : M A) (h : exn -> M A) :
  emits P m -> (forall x, emits P (h x)) -> emits P (try_catch m h).
Proof.
  intros Hm Hh w. unfold try_catch. specialize (Hm w).
  destruct (m w) as [[a|x] w1]; simpl in Hm.
  - exact Hm.
  - eapply extends_trans; [exact Hm|apply Hh].
Qed.

Lemma emits_try_finally {A} P (m : M A) (f : M unit) :
  emits P m -> emits P f -> emits P (try_finally m f).
Proof.
  intros Hm Hf w. unfold try_finally. specialize (Hm w).
  destruct (m w) as [r w1]; simpl in Hm. specialize (Hf w1).
  destruct (f w1) as [[u|x] w2]; simpl in *; eapply extends_trans; eauto.
Qed.

Lemma emits_swallow P (m : M unit) : emits P m -> emits P (swallow m).
Proof. intros Hm. apply emits_try_catch; [exact Hm|]. intros x. apply emits_ret. Qed.

Lemma emits_tell (P : event -> Prop) e : P e -> emits P (tell e).
Proof. intros H w. apply extends_emit, H. Qed.

Lemma emits_date_now P : emits P date_now.
Proof. intros w. apply extends_refl. Qed.

Lemma emits_sendInfo (P : event -> Prop) ctx message :
  (forall via, P (EvInfo via message)) -> emits P (sendInfo ctx message).
Proof.
  intros H. unfold sendInfo. destruct (info_sink_of ctx).
  - apply emits_tell, H.
  - apply emits_ret.
Qed.

Lemma emits_reportProgress (P : event -> Prop) ctx p t :
  (forall via, P (EvProgress via p t)) -> emits P (reportProgress ctx p t).
Proof.
  intros H. unfold reportProgress. destruct (progress_sink_of ctx).
  - apply emits_tell, H.
  - apply emits_ret.
Qed.

Lemma emits_invoke {A} (P : event -> Prop) what (beh : behaviour A) :
  (forall t, P (EvCall what t)) -> emits P (invoke what beh).
Proof.
  intros H w. unfold invoke. destruct (beh (calls w) (now w)) as [r d].
  exists [EvCall what (now w)]. simpl. auto.
Qed.

Lemma emits_sleep (P : event -> Prop) ms :
  (forall t, P (EvSleep ms t)) -> emits P (sleep ms).
Proof. intros H w. exists [EvSleep ms (now w)]. simpl. auto. Qed.

Lemma emits_retry_from {A} (P : event -> Prop) (fn : M A) attempts baseDelay n :
  emits P fn -> (forall ms t, P (EvSleep ms t)) ->
  forall i lastErr, emits P (retry_from fn attempts baseDelay n i lastErr).
Proof.
  intros Hfn Hsl. induction n as [|n IH]; intros i lastErr; simpl.
  - apply emits_throw.
  - apply emits_try_catch; [exact Hfn|]. intros err.
    destruct (negb (isRetryableStatus (status_of err)) || (i =? attempts - 1)).
    + apply emits_throw.
    + apply emits_bind; [apply emits_sleep; auto|]. intros _. apply IH.
Qed.

Lemma emits_withRetries {A} (P : event -> Prop) (fn : M A) attempts baseDelay :
  emits P fn -> (forall ms t, P (EvSleep ms t)) ->
  emits P (withRetries fn attempts baseDelay).
Proof. intros. apply emits_retry_from; auto. Qed.

Lemma emits_getOpenAI P k b o : emits P (getOpenAI k b o).
Proof.
  intros w. unfold getOpenAI, new_OpenAI.
  destruct (pool_get _ (clients w)); [|destruct k]; simpl; exists [];
    rewrite app_nil_r; auto.
Qed.

Lemma emits_setTimeout (P : event -> Prop) ms :
  (forall id, P (EvTimerSet id ms)) -> emits P (setTimeout ms).
Proof. intros H w. exists [EvTimerSet (next_id w) ms]. simpl. auto. Qed.

Lemma emits_clearTimeout (P : event -> Prop) id :
  P (EvTimerCleared id) -> emits P (clearTimeout id).
Proof. intros H w. exists [EvTimerCleared id]. simpl. auto. Qed.

Lemma emits_addEventListener (P : event -> Prop) :
  (forall id, P (EvListenerAdded id)) -> emits P addEventListener.
Proof. intros H w. exists [EvListenerAdded (next_id w)]. simpl. auto. Qed.

Lemma emits_removeEventListener (P : event -> Prop) id :
  P (EvListenerRemoved id) -> emits P (removeEventListener id).
Proof. intros H w. exists [EvListenerRemoved id]. simpl. auto. Qed.

Lemma emits_tryClientSampling (P : event -> Prop) N ctx system user maxTokens
      temperature model :
  (forall via payload t, P (EvCall (SampleCall via payload) t)) ->
  emits P (tryClientSampling N ctx system user maxTokens temperature model).
Proof.
  intros H. unfold tryClientSampling.
  apply emits_try_catch; [|intros x; apply emits_ret].
  destruct (choose_entry ctx) as [[via f]|]; [|apply emits_ret].
  apply emits_bind; [apply emits_invoke; auto|]. intros result. apply emits_ret.
Qed.


(* ------------------------------------------------------------------ *)
(** ** Runs of the notifiers and of the pool *)

Lemma bind_run {A B} (m : M A) (k : A -> M B) w a w1 :
  m w = (Returned a, w1) -> bind m k w = k a w1.
Proof. intros H. unfold bind. rewrite H. reflexivity. Qed.

Lemma sendInfo_run ctx message w :
  sendInfo ctx message w = (Returned tt, snd (sendInfo ctx message w)).
Proof. unfold sendInfo. destruct (info_sink_of ctx); reflexivity. Qed.

Lemma reportProgress_run ctx p t w :
  reportProgress ctx p t w = (Returned tt, snd (reportProgress ctx p t w)).
Proof. unfold reportProgress. destruct (progress_sink_of ctx); reflexivity. Qed.

Lemma swallow_run (m : M unit) w :
  swallow m w = (Returned tt, snd (swallow m w)).
Proof.
  unfold swallow, try_catch. destruct (m w) as [[[]|x] w1]; reflexivity.
Qed.

(** [getOpenAI] returns a client, or throws and leaves the world as it
    is. *)
Lemma getOpenAI_run k b o w :
  (exists c, getOpenAI k b o w = (Returned c, snd (getOpenAI k b o w)))
  \/ (exists x, getOpenAI k b o w = (Threw x, w)).
Proof.
  unfold getOpenAI, new_OpenAI.
  destruct (pool_get _ (clients w)); [|destruct k];
    [left|left|right]; eexists; reflexivity.
Qed.

(** With a key, even an empty one, a client is returned. *)
Lemma getOpenAI_keyed key b o w :
  exists c, getOpenAI (Some key) b o w
            = (Returned c, snd (getOpenAI (Some key) b o w)).
Proof.
  unfold getOpenAI, new_OpenAI.
  destruct (pool_get _ (clients w)); eexists; reflexivity.
Qed.

(** Without one, and with no client filed under the key, the constructor
    throws. *)
Lemma getOpenAI_unset b o w :
  pool_get (EmptyString, or_empty b, or_empty o) (clients w) = None ->
  getOpenAI None b o w = (Threw missing_credentials, w).
Proof. intros H. unfold getOpenAI, new_OpenAI. simpl. rewrite H. reflexivity. Qed.

Lemma bind_throws {A B} (m : M A) (k : A -> M B) w x w1 :
  m w = (Threw x, w1) -> bind m k w = (Threw x, w1).
Proof. intros H. unfold bind. rewrite H. reflexivity. Qed.

Lemma tryClientSampling_run N ctx system user maxTokens temperature model w :
  exists o,
    tryClientSampling N ctx system user maxTokens temperature model w
    = (Returned o,
       snd (tryClientSampling N ctx system user maxTokens temperature model w)).
Proof.
  unfold tryClientSampling, try_catch.
  match goal with |- context [match ?m w with _ => _ end] => destruct (m w) as [[o|x] w1] end;
    eexists; reflexivity.
Qed.

(** One syntax-directed step of a trace argument. *)
Ltac emits_step :=
  lazymatch goal with
  | |- emits _ (ret _) => apply emits_ret
  | |- emits _ (throw _) => apply emits_throw
  | |- emits _ date_now => apply emits_date_now
  | |- emits _ (getOpenAI _ _ _) => apply emits_getOpenAI
  | |- emits _ (swallow _) => apply emits_swallow
  | |- emits _ (sendInfo _ _) => apply emits_sendInfo; intros; exact I
  | |- emits _ (reportProgress _ _ _) => apply emits_reportProgress; intros; exact I
  | |- emits _ (tryClientSampling _ _ _ _ _ _ _) =>
      apply emits_tryClientSampling; intros; exact I
  | |- emits _ (setTimeout _) => apply emits_setTimeout; intros; exact I
  | |- emits _ (clearTimeout _) => apply emits_clearTimeout; exact I
  | |- emits _ addEventListener => apply emits_addEventListener; intros; exact I
  | |- emits _ (removeEventListener _) => apply emits_removeEventListener; exact I
  | |- emits _ (bind _ _) => apply emits_bind; [|intros ?]
  | |- emits _ (try_finally _ _) => apply emits_try_finally
  | |- emits _ (try_catch _ _) => apply emits_try_catch; [|intros ?]
  | |- emits _ (if ?b then _ else _) => destruct b
  | |- emits _ (match ?x with _ => _ end) => destruct x
  end.

Ltac emits_auto := repeat emits_step.

(* ------------------------------------------------------------------ *)
(** ** The provider path *)

Lemma remove_id_spec id j l : In id (remove_id j l) <-> In id l /\ id <> j.
Proof.
  unfold remove_id. rewrite filter_In, negb_true_iff, Nat.eqb_neq. tauto.
Qed.

(** A [try] block closed by [provider_finally] leaves neither the timer
    nor the listener registered, however the block completes. *)
Lemma finally_clears {A} (m : M A) timer cancelUnsub w :
  ~ In timer (timers (snd (try_finally m (provider_finally timer cancelUnsub) w)))
  /\ (forall l, cancelUnsub = Some l ->
        ~ In l (listeners (snd (try_finally m (provider_finally timer cancelUnsub) w)))).
Proof.
  unfold try_finally. destruct (m w) as [res w1].
  destruct cancelUnsub as [l|]; simpl; split.
  - rewrite remove_id_spec. tauto.
  - intros l' [= <-]. rewrite remove_id_spec. tauto.
  - rewrite remove_id_spec. tauto.
  - discriminate.
Qed.

Section ProviderPath.

Variable Number_toString : Q -> string.
Variable cfg : config.
Variable provider : client -> provider_request -> behaviour value.
Variable ctx : context.
Variable r : request.

Let apiKey := option_map trim (OPENAI_API_KEY cfg).
Let system := system_prompt (buildSectionsHeader (sections r)).
Let user := user_prompt (question r) (context_text r).
Let safeMaxTokens := Z.min (Z.max 1 (maxOutputTokens r)) (MAX_TOKENS_CAP cfg).

(** Every provider call of the provider path carries [outbound_request],
    and there is none without a key. *)
Lemma emits_provider_path (Q : client -> provider_request -> Prop) c :
  (no_key apiKey = false -> Q c (outbound_request cfg r)) ->
  emits (calls_satisfy Q)
        (provider_path provider ctx apiKey c r system user safeMaxTokens).
Proof.
  intros HQ. unfold provider_path.
  apply emits_bind; [emits_auto|]. intros cancelUnsub.
  apply emits_bind; [emits_auto|]. intros timer.
  destruct (no_key apiKey); [emits_auto|].
  apply emits_try_finally; [|unfold provider_finally; emits_auto].
  apply emits_try_catch; [|intros x; unfold provider_catch; cbv zeta; emits_auto].
  unfold provider_try.
  apply emits_bind; [emits_auto|]. intros start. cbv zeta.
  apply emits_bind; [emits_auto|]. intros _.
  apply emits_bind.
  - apply emits_withRetries; [|intros; exact I].
    apply emits_invoke. intros t. simpl. apply HQ. reflexivity.
  - intros response. unfold extract_text. emits_auto.
Qed.

Lemma emits_sampling_broker (Q : client -> provider_request -> Prop) c :
  (no_key apiKey = false -> String.eqb (SAMPLING_MODE cfg) "always" = false ->
   Q c (outbound_request cfg r)) ->
  emits (calls_satisfy Q)
        (sampling_broker Number_toString cfg provider ctx apiKey c r
                         system user safeMaxTokens).
Proof.
  intros HQ. unfold sampling_broker.
  destruct (negb (String.eqb (SAMPLING_MODE cfg) "off")) eqn:Hoff.
  - apply emits_bind; [emits_auto|]. intros [text|]; [emits_auto|].
    destruct (String.eqb (SAMPLING_MODE cfg) "always") eqn:Hmode; [emits_auto|].
    apply emits_provider_path. auto.
  - apply emits_provider_path. intros Hk. apply HQ; [exact Hk|].
    apply negb_false_iff, String.eqb_eq in Hoff. rewrite Hoff. reflexivity.
Qed.

(** With no key the provider path returns the missing-key error, and the
    timer and the listener it has just registered stay registered. *)
Lemma provider_path_no_key c w :
  no_key apiKey = true ->
  fst (provider_path provider ctx apiKey c r system user safeMaxTokens w)
  = Returned (mcpErr missing_key_msg "E_MISSING_OPENAI_KEY")
  /\ In (timer_of ctx w)
        (timers (snd (provider_path provider ctx apiKey c r system user
                                    safeMaxTokens w)))
  /\ (ctx_signal ctx = true ->
      In (listener_of w)
         (listeners (snd (provider_path provider ctx apiKey c r system user
                                        safeMaxTokens w)))).
Proof.
  intros Hk. unfold provider_path, timer_of, listener_of. rewrite Hk.
  unfold sendInfo, reportProgress.
  destruct (ctx_signal ctx), (info_sink_of ctx), (progress_sink_of ctx); simpl;
    repeat split; intros; try discriminate;
    repeat (apply in_or_app; simpl); auto.
Qed.

(** With a key, the [finally] block runs on every completion of the
    [try] block: at the exit the timer is cleared and the listener
    removed. *)
Lemma provider_path_tears_down c w :
  no_key apiKey = false ->
  ~ In (timer_of ctx w)
       (timers (snd (provider_path provider ctx apiKey c r system user
                                   safeMaxTokens w)))
  /\ (ctx_signal ctx = true ->
      ~ In (listener_of w)
           (listeners (snd (provider_path provider ctx apiKey c r system user
                                          safeMaxTokens w)))).
Proof.
  intros Hk. unfold provider_path, timer_of, listener_of. rewrite Hk.
  destruct (ctx_signal ctx); unfold bind, addEventListener, setTimeout, ret;
    simpl;
    match goal with |- context [try_finally ?m (provider_finally ?t ?cu) ?w0] =>
      destruct (finally_clears m t cu w0) as [Ht Hl] end;
    split; auto; discriminate.
Qed.

End ProviderPath.

(* ------------------------------------------------------------------ *)
(** ** The handler *)

Section HandlerFacts.

Variable Number_toString : Q -> string.
Variable cfg : config.
Variable provider : client -> provider_request -> behaviour value.
Variable ctx : context.

Let apiKey := option_map trim (OPENAI_API_KEY cfg).

Lemma emits_serve (Q : client -> provider_request -> Prop) r :
  (no_key apiKey = false -> String.eqb (SAMPLING_MODE cfg) "always" = false ->
   forall c, Q c (outbound_request cfg r)) ->
  emits (calls_satisfy Q) (serve Number_toString cfg provider ctx r).
Proof.
  intros HQ. unfold serve.
  apply emits_bind; [emits_auto|]. intros _.
  apply emits_bind; [emits_auto|]. intros _. cbv zeta.
  apply emits_bind; [emits_auto|]. intros c.
  apply emits_sampling_broker. auto.
Qed.

(** The provider calls of a request: each carries the request built from
    the validated arguments, and there is none without a key or in mode
    [always]. *)
Lemma oracle_handler_calls rawArgs w :
  extends
    (calls_satisfy
       (fun _ req =>
          exists r,
            askSchema_parse (DEFAULT_MODEL cfg) rawArgs = Returned r
            /\ req = outbound_request cfg r
            /\ no_key apiKey = false
            /\ String.eqb (SAMPLING_MODE cfg) "always" = false))
    w (snd (oracle_handler Number_toString cfg provider ctx rawArgs w)).
Proof.
  unfold oracle_handler.
  destruct (askSchema_parse (DEFAULT_MODEL cfg) rawArgs) as [r|x] eqn:Hparse.
  - apply emits_serve. intros Hk Hmode c. exists r. auto.
  - apply extends_refl.
Qed.

End HandlerFacts.

Lemma extends_new P w w' new :
  extends P w w' -> trace w' = trace w ++ new -> Forall P new.
Proof.
  intros (new' & E & F) E'. rewrite E in E'. apply app_inv_head in E'.
  subst. exact F.
Qed.

(** The notifiers touch nothing but the trace. *)
Lemma sendInfo_frame ctx message w :
  timers (snd (sendInfo ctx message w)) = timers w
  /\ listeners (snd (sendInfo ctx message w)) = listeners w
  /\ clients (snd (sendInfo ctx message w)) = clients w.
Proof. unfold sendInfo. destruct (info_sink_of ctx); simpl; auto. Qed.

Lemma reportProgress_frame ctx p t w :
  timers (snd (reportProgress ctx p t w)) = timers w
  /\ listeners (snd (reportProgress ctx p t w)) = listeners w
  /\ clients (snd (reportProgress ctx p t w)) = clients w.
Proof. unfold reportProgress. destruct (progress_sink_of ctx); simpl; auto. Qed.

(** With [OPENAI_API_KEY] unset and no client filed under the key, a
    validated request ends in [getOpenAI]: the constructor's exception
    leaves the handler after the two opening notifications. *)
Lemma serve_unset_key Number_toString cfg provider ctx r w :
  OPENAI_API_KEY cfg = None ->
  unpooled cfg w ->
  serve Number_toString cfg provider ctx r w
  = (Threw missing_credentials,
     snd (reportProgress ctx 0 100
            (snd (sendInfo ctx ("Starting oracle request (model="
                                ++ model r ++ ")")%string w)))).
Proof.
  intros Hkey Hpool. unfold serve.
  rewrite (bind_run _ _ _ _ _ (sendInfo_run _ _ _)).
  rewrite (bind_run _ _ _ _ _ (reportProgress_run _ _ _ _)). cbv zeta.
  rewrite Hkey. simpl option_map.
  apply bind_throws. apply getOpenAI_unset.
  destruct (reportProgress_frame ctx 0 100
              (snd (sendInfo ctx ("Starting oracle request (model="
                                  ++ model r ++ ")")%string w)))
    as (_ & _ & ->).
  destruct (sendInfo_frame ctx ("Starting oracle request (model="
                                ++ model r ++ ")")%string w) as (_ & _ & ->).
  exact Hpool.
Qed.

Lemma serve_unset_key_notifies Number_toString cfg provider ctx r w :
  OPENAI_API_KEY cfg = None ->
  unpooled cfg w ->
  let run := serve Number_toString cfg provider ctx r w in
  fst run = Threw missing_credentials
  /\ extends notification w (snd run)
  /\ timers (snd run) = timers w
  /\ listeners (snd run) = listeners w.
Proof.
  intros Hkey Hpool run. unfold run.
  rewrite (serve_unset_key Number_toString cfg provider ctx r w Hkey Hpool).
  cbn [fst snd].
  destruct (reportProgress_frame ctx 0 100
              (snd (sendInfo ctx ("Starting oracle request (model="
                                  ++ model r ++ ")")%string w)))
    as (-> & -> & _).
  destruct (sendInfo_frame ctx ("Starting oracle request (model="
                                ++ model r ++ ")")%string w) as (-> & -> & _).
  repeat split; try reflexivity.
  eapply extends_trans; [apply (emits_sendInfo notification)|
                         apply (emits_reportProgress notification)];
    intros; exact I.
Qed.

(** With a key in the environment, a validated request whose control
    reaches the provider path is a run of the provider path. *)
Lemma serve_reaches_provider_path Number_toString cfg provider ctx r w key :
  OPENAI_API_KEY cfg = Some key ->
  reaches_provider_path Number_toString cfg ctx ->
  exists c w1,
    serve Number_toString cfg provider ctx r w
    = provider_path provider ctx (Some (trim key)) c r
        (system_prompt (buildSectionsHeader (sections r)))
        (user_prompt (question r) (context_text r))
        (Z.min (Z.max 1 (maxOutputTokens r)) (MAX_TOKENS_CAP cfg)) w1.
Proof.
  intros Hkey Hreach. unfold serve.
  rewrite (bind_run _ _ _ _ _ (sendInfo_run _ _ _)).
  rewrite (bind_run _ _ _ _ _ (reportProgress_run _ _ _ _)). cbv zeta.
  rewrite Hkey. simpl option_map.
  match goal with |- context [bind (getOpenAI (Some ?k) ?b ?o) _ ?w0] =>
    destruct (getOpenAI_keyed k b o w0) as [c Hc] end.
  rewrite (bind_run _ _ _ _ _ Hc). exists c.
  unfold sampling_broker.
  destruct Hreach as [Hoff|[Hnot Hnone]].
  - rewrite Hoff. change (negb (String.eqb "off" "off")) with false. cbv iota.
    eexists. reflexivity.
  - destruct (negb (String.eqb (SAMPLING_MODE cfg) "off"));
      [|eexists; reflexivity].
    match goal with
    | |- context [bind (tryClientSampling ?N ?cx ?sy ?us ?mt ?te ?mo) _ ?w0] =>
        destruct (tryClientSampling_run N cx sy us mt te mo w0) as [o Ho];
        pose proof (Hnone sy us mt te mo w0) as Hn
    end.
    rewrite Ho in Hn. simpl in Hn. injection Hn as ->.
    rewrite (bind_run _ _ _ _ _ Ho).
    destruct (String.eqb (SAMPLING_MODE cfg) "always") eqn:Hm.
    + apply String.eqb_eq in Hm. contradiction.
    + eexists. reflexivity.
Qed.

(** C4. With no credential configured ([OPENAI_API_KEY] unset, or empty
    once trimmed) a validated request makes no provider call, in any
    sampling mode. When the variable is set and empty once trimmed, a
    request whose control reaches the provider path gets the error result
    with flag [isError] and the text [E_MISSING_OPENAI_KEY: Missing
    OPENAI_API_KEY ...]. When the variable is unset the handler does not
    get that far: [getOpenAI] is called first, the constructor of the
    client throws, and the exception leaves the handler, in every mode,
    after the two opening notifications. *)
Theorem missing_key_exits (Number_toString : Q -> string) (cfg : config)
        (provider : client -> provider_request -> behaviour value)
        (ctx : context) (rawArgs : value) (r : request) (w : world) :
  askSchema_parse (DEFAULT_MODEL cfg) rawArgs = Returned r ->
  no_key (option_map trim (OPENAI_API_KEY cfg)) = true ->
  let run := oracle_handler Number_toString cfg provider ctx rawArgs w in
  (exists new,
      trace (snd run) = trace w ++ new /\ Forall no_provider_call new)
  /\ (OPENAI_API_KEY cfg <> None ->
      reaches_provider_path Number_toString cfg ctx ->
      fst run
      = Returned
          {| isError := true;
             content :=
               [("text",
                 "E_MISSING_OPENAI_KEY: Missing OPENAI_API_KEY in environment (required for server-side generation)")] |})
  /\ (OPENAI_API_KEY cfg = None ->
      unpooled cfg w ->
      (exists x, fst run = Threw x)
      /\ (exists new,
            trace (snd run) = trace w ++ new /\ Forall notification new)
      /\ timers (snd run) = timers w
      /\ listeners (snd run) = listeners w).
Proof.
  intros Hparse Hk run. split; [|split].
  - destruct (oracle_handler_calls Number_toString cfg provider ctx rawArgs w)
      as (new & Htr & Hcalls).
    exists new. split; [exact Htr|].
    eapply Forall_impl; [|exact Hcalls].
    intros [| |[c req|] t| | | | |]; simpl; auto.
    intros (r' & _ & _ & Hk' & _). congruence.
  - intros Hset Hreach. unfold run, oracle_handler. rewrite Hparse.
    destruct (OPENAI_API_KEY cfg) as [key|] eqn:Hkey; [|congruence].
    destruct (serve_reaches_provider_path Number_toString cfg provider ctx r w
                key Hkey Hreach) as (c & w1 & ->).
    assert (Hk1 : no_key (option_map trim (OPENAI_API_KEY cfg)) = true)
      by (rewrite Hkey; exact Hk).
    pose proof (proj1 (provider_path_no_key cfg provider ctx r c w1 Hk1))
      as Hres.
    rewrite Hkey in Hres. simpl option_map in Hres. rewrite Hres. reflexivity.
  - intros Hunset Hpool. unfold run, oracle_handler. rewrite Hparse.
    destruct (serve_unset_key_notifies Number_toString cfg provider ctx r w
                Hunset Hpool) as (Hres & Hext & Ht & Hl).
    repeat split; [eexists; exact Hres|exact Hext|exact Ht|exact Hl].
Qed.

(** C4 under mode [off]: the variable unset, where the exception escapes,
    and the variable set to a blank, where the error result is
    returned. *)
Lemma missing_key_exits_witness :
  no_key (option_map trim (OPENAI_API_KEY (cfg_of None "off"))) = true
  /\ (exists x,
        fst (oracle_handler print_number (cfg_of None "off") provider_ok
                            plain_context (args_of []) world0) = Threw x)
  /\ no_key (option_map trim (OPENAI_API_KEY (cfg_of (Some "  ") "off"))) = true
  /\ fst (oracle_handler print_number (cfg_of (Some "  ") "off") provider_ok
                         plain_context (args_of []) world0)
     = Returned
         {| isError := true;
            content :=
              [("text",
                "E_MISSING_OPENAI_KEY: Missing OPENAI_API_KEY in environment (required for server-side generation)")] |}.
Proof.
  split; [reflexivity|]. split.
  - destruct (missing_key_exits print_number (cfg_of None "off") provider_ok
                plain_context (args_of []) _ world0 eq_refl eq_refl)
      as (_ & _ & Hunset).
    destruct (Hunset eq_refl eq_refl) as (Hx & _). exact Hx.
  - split; [reflexivity|].
    destruct (missing_key_exits print_number (cfg_of (Some "  ") "off")
                provider_ok plain_context (args_of []) _ world0
                eq_refl eq_refl)
      as (_ & Hblank & _).
    apply Hblank; [discriminate|left; reflexivity].
Defined.

(** C2 (evaluation at a request under mode [off] with [OPENAI_API_KEY]
    set to a blank, from a caller that supplies an abort signal). The
    handler registers the listener (handle 0), arms the timer (handle 1)
    and leaves through the missing-key [return], which precedes the
    [try ... finally]: at the exit the timer is still armed and the
    listener still registered. In general the exit of the provider path
    without a key leaves both in place, while with a key the [finally]
    block removes both on every completion. *)
Theorem missing_key_exit_leaks :
  (let run := oracle_handler print_number (cfg_of (Some "  ") "off") provider_ok
                             plain_context (args_of []) world0 in
   fst run
   = Returned
       {| isError := true;
          content :=
            [("text",
              "E_MISSING_OPENAI_KEY: Missing OPENAI_API_KEY in environment (required for server-side generation)")] |}
   /\ trace (snd run)
      = [EvInfo ViaInfo "Starting oracle request (model=o3)";
         EvProgress ViaReportProgress 0 100;
         EvListenerAdded 0;
         EvTimerSet 1 120000;
         EvInfo ViaInfo ("Error: " ++ missing_key_msg)%string;
         EvProgress ViaReportProgress 100 100]
   /\ timers (snd run) = [1%nat]
   /\ listeners (snd run) = [0%nat])
  /\ (forall cfg provider ctx r c w,
        let apiKey := option_map trim (OPENAI_API_KEY cfg) in
        let w' := snd (provider_path provider ctx apiKey c r
                         (system_prompt (buildSectionsHeader (sections r)))
                         (user_prompt (question r) (context_text r))
                         (Z.min (Z.max 1 (maxOutputTokens r)) (MAX_TOKENS_CAP cfg))
                         w) in
        (no_key apiKey = true ->
         In (timer_of ctx w) (timers w')
         /\ (ctx_signal ctx = true -> In (listener_of w) (listeners w')))
        /\ (no_key apiKey = false ->
            ~ In (timer_of ctx w) (timers w')
            /\ (ctx_signal ctx = true -> ~ In (listener_of w) (listeners w')))).
Proof.
  split; [vm_compute; repeat split; reflexivity|].
  intros cfg provider ctx r c w apiKey w'. split; intros Hk.
  - apply (provider_path_no_key cfg provider ctx r c w Hk).
  - apply (provider_path_tears_down cfg provider ctx r c w Hk).
Qed.

Lemma tryClientSampling_none N ctx system user maxTokens temperature model w :
  choose_entry ctx = None ->
  tryClientSampling N ctx system user maxTokens temperature model w
  = (Returned None, w).
Proof.
  intros H. unfold tryClientSampling, try_catch. rewrite H. reflexivity.
Qed.

(** C8. A valid request under sampling mode [always], from a caller none
    of whose [createMessage] entry points exists, makes no provider call.
    With [OPENAI_API_KEY] set (to anything, a blank included) the handler
    returns the error result with flag [isError] and the text
    [E_CLIENT_SAMPLING_UNAVAILABLE: Client sampling requested but not
    available]. With the variable unset it does not: [getOpenAI] runs
    before the sampling decision, the constructor of the client throws,
    and the exception leaves the handler. *)
Theorem always_without_capability (Number_toString : Q -> string) (cfg : config)
        (provider : client -> provider_request -> behaviour value)
        (ctx : context) (rawArgs : value) (r : request) (w : world) :
  askSchema_parse (DEFAULT_MODEL cfg) rawArgs = Returned r ->
  SAMPLING_MODE cfg = "always" ->
  no_capability ctx ->
  let run := oracle_handler Number_toString cfg provider ctx rawArgs w in
  (exists new,
      trace (snd run) = trace w ++ new /\ Forall no_provider_call new)
  /\ (OPENAI_API_KEY cfg <> None ->
      fst run
      = Returned
          {| isError := true;
             content :=
               [("text",
                 "E_CLIENT_SAMPLING_UNAVAILABLE: Client sampling requested but not available")] |})
  /\ (OPENAI_API_KEY cfg = None ->
      unpooled cfg w ->
      exists x, fst run = Threw x).
Proof.
  intros Hparse Hmode (H1 & H2 & H3) run. split; [|split].
  - destruct (oracle_handler_calls Number_toString cfg provider ctx rawArgs w)
      as (new & Htr & Hcalls).
    exists new. split; [exact Htr|].
    eapply Forall_impl; [|exact Hcalls].
    intros [| |[c req|] t| | | | |]; simpl; auto.
    intros (r' & _ & _ & _ & Hm). rewrite Hmode in Hm. discriminate.
  - intros Hset. unfold run, oracle_handler. rewrite Hparse. unfold serve.
    rewrite (bind_run _ _ _ _ _ (sendInfo_run _ _ _)).
    rewrite (bind_run _ _ _ _ _ (reportProgress_run _ _ _ _)). cbv zeta.
    destruct (OPENAI_API_KEY cfg) as [key|]; [|congruence]. simpl option_map.
    match goal with |- context [bind (getOpenAI (Some ?k) ?b ?o) _ ?w0] =>
      destruct (getOpenAI_keyed k b o w0) as [c Hc] end.
    rewrite (bind_run _ _ _ _ _ Hc).
    unfold sampling_broker. rewrite Hmode.
    change (negb (String.eqb "always" "off")) with true.
    change (String.eqb "always" "always") with true. cbv iota.
    assert (Hnone : choose_entry ctx = None).
    { unfold choose_entry. rewrite H1, H2, H3. reflexivity. }
    rewrite (bind_run _ _ _ _ _ (tryClientSampling_none _ _ _ _ _ _ _ _ Hnone)).
    rewrite (bind_run _ _ _ _ _ (swallow_run _ _)). reflexivity.
  - intros Hunset Hpool. unfold run, oracle_handler. rewrite Hparse.
    rewrite (serve_unset_key Number_toString cfg provider ctx r w Hunset Hpool).
    eexists. reflexivity.
Qed.

(** C8 at a caller without any capability: with a key the error result,
    without [OPENAI_API_KEY] an exception. *)
Lemma always_without_capability_witness :
  askSchema_parse (DEFAULT_MODEL (cfg_of (Some "sk-x") "always")) (args_of [])
  = Returned {| question := "How do I shard this table?";
                context_text := None;
                sections := [Summary; Findings; Plan];
                model := "o3";
                maxOutputTokens := 1024;
                timeoutMs := 120000;
                temperature := None |}
  /\ no_capability no_context
  /\ fst (oracle_handler print_number (cfg_of (Some "sk-x") "always") provider_ok
                         no_context (args_of []) world0)
     = Returned
         {| isError := true;
            content :=
              [("text",
                "E_CLIENT_SAMPLING_UNAVAILABLE: Client sampling requested but not available")] |}
  /\ exists x,
      fst (oracle_handler print_number (cfg_of None "always") provider_ok
                          no_context (args_of []) world0) = Threw x.
Proof.
  split; [reflexivity|]. split; [repeat split|]. split.
  - destruct (always_without_capability print_number
                (cfg_of (Some "sk-x") "always") provider_ok no_context
                (args_of []) _ world0 eq_refl eq_refl
                (conj eq_refl (conj eq_refl eq_refl)))
      as (_ & Hset & _).
    apply Hset. discriminate.
  - destruct (always_without_capability print_number
                (cfg_of None "always") provider_ok no_context
                (args_of []) _ world0 eq_refl eq_refl
                (conj eq_refl (conj eq_refl eq_refl)))
      as (_ & _ & Hunset).
    apply Hunset; reflexivity.
Defined.

(* ------------------------------------------------------------------ *)
(** ** The outbound request *)

Lemma obind_Returned {A B} (o : outcome A) (k : A -> outcome B) b :
  obind o k = Returned b -> exists a, o = Returned a /\ k a = Returned b.
Proof. destruct o as [a|x]; simpl; [eauto|discriminate]. Qed.

Lemma zod_posint_optional_pos field v n :
  zod_posint_optional field v = Returned (Some n) -> 0 < n.
Proof.
  unfold zod_posint_optional. destruct v; try discriminate.
  destruct (Pos.eqb (Qden (Qred q)) 1 && (0 <? Qnum (Qred q))) eqn:E;
    [|discriminate].
  intros [= <-]. apply andb_true_iff in E. destruct E as [_ E].
  apply Z.ltb_lt. exact E.
Qed.

(** Validation only lets positive token counts through. *)
Lemma askSchema_parse_tokens dm rawArgs r :
  askSchema_parse dm rawArgs = Returned r -> 1 <= maxOutputTokens r.
Proof.
  unfold askSchema_parse. destruct rawArgs as [| | | | | |fs]; try discriminate.
  destruct (negb (forallb (fun kv => known_key (fst kv)) fs)); [discriminate|].
  destruct (lookup "question" fs) as [| | | |q| |]; try discriminate.
  destruct (Nat.ltb (String.length q) 5); [discriminate|].
  intros H.
  apply obind_Returned in H. destruct H as (context & _ & H).
  apply obind_Returned in H. destruct H as (secs & _ & H).
  apply obind_Returned in H. destruct H as (m & _ & H).
  apply obind_Returned in H. destruct H as (mt & Hmt & H).
  apply obind_Returned in H. destruct H as (tm & _ & H).
  apply obind_Returned in H. destruct H as (temp & _ & H).
  injection H as <-. simpl.
  destruct mt as [n|].
  - apply zod_posint_optional_pos in Hmt. lia.
  - unfold DEFAULT_MAX_TOKENS. lia.
Qed.

(** [maxOutputTokens: 0] does not pass validation. *)
Lemma askSchema_parse_zero dm fs :
  lookup "maxOutputTokens" fs = VNum 0 ->
  exists x, askSchema_parse dm (VObj fs) = Threw x.
Proof.
  intros H0. unfold askSchema_parse.
  destruct (negb (forallb (fun kv => known_key (fst kv)) fs)); [eauto|].
  destruct (lookup "question" fs) as [| | | |q| |]; eauto.
  destruct (Nat.ltb (String.length q) 5); [eauto|].
  destruct (zod_string_optional "context" (lookup "context" fs)); simpl; eauto.
  match goal with |- context [obind ?o _] => destruct o; simpl; eauto end.
  destruct (zod_string_optional "model" (lookup "model" fs)); simpl; eauto.
  rewrite H0. simpl. eauto.
Qed.

Lemma calls_satisfy_impl (Q Q' : client -> provider_request -> Prop) :
  (forall c req, Q c req -> Q' c req) ->
  forall e, calls_satisfy Q e -> calls_satisfy Q' e.
Proof. intros H [| |[c req|] t| | | | |]; simpl; auto. Qed.

(** C5 as stated fails on its second instance: arguments with
    [maxOutputTokens: 0] are rejected by [askSchema.parse] (the field is
    declared [positive()]), the handler throws before any effect and no
    request, with or without the count 1, goes out. *)
Lemma zero_tokens_sends_nothing :
  oracle_handler print_number (cfg_of (Some "sk-x") "off") provider_ok
                 plain_context (args_of [("maxOutputTokens", VNum 0)]) world0
  = (Threw (ExnZod "maxOutputTokens"), world0).
Proof. reflexivity. Qed.

(** C5 (amended). Every provider call of a request carries
    [min(max(1, maxOutputTokens), tokenCap)] as its token count, where
    [maxOutputTokens] is the validated value (1024 by default), which is
    at least 1, so that the count is also [min(maxOutputTokens, tokenCap)].
    Arguments with [maxOutputTokens: 0] do not pass validation: the
    handler throws and leaves the world as it was. A request with
    [maxOutputTokens: 100000] under the cap 4096 goes out with 4096. *)
Theorem outbound_tokens_clamped (Number_toString : Q -> string) (cfg : config)
        (provider : client -> provider_request -> behaviour value)
        (ctx : context) (rawArgs : value) (w : world) :
  (exists new,
     trace (snd (oracle_handler Number_toString cfg provider ctx rawArgs w))
     = trace w ++ new
     /\ Forall
          (calls_satisfy
             (fun _ req =>
                exists r,
                  askSchema_parse (DEFAULT_MODEL cfg) rawArgs = Returned r
                  /\ 1 <= maxOutputTokens r
                  /\ req_max_output_tokens req
                     = Z.min (Z.max 1 (maxOutputTokens r)) (MAX_TOKENS_CAP cfg)
                  /\ req_max_output_tokens req
                     = Z.min (maxOutputTokens r) (MAX_TOKENS_CAP cfg)))
          new)
  /\ (forall fs,
        rawArgs = VObj fs -> lookup "maxOutputTokens" fs = VNum 0 ->
        exists x,
          oracle_handler Number_toString cfg provider ctx rawArgs w = (Threw x, w))
  /\ map req_max_output_tokens
         (provider_requests
            (trace (snd (oracle_handler print_number (cfg_of (Some "sk-x") "off")
                           provider_ok plain_context
                           (args_of [("maxOutputTokens", VNum (100000 # 1))])
                           world0))))
     = [4096].
Proof.
  split; [|split].
  - destruct (oracle_handler_calls Number_toString cfg provider ctx rawArgs w)
      as (new & Htr & Hcalls).
    exists new. split; [exact Htr|].
    eapply Forall_impl; [|exact Hcalls]. apply calls_satisfy_impl.
    intros c req (r & Hparse & -> & _ & _).
    pose proof (askSchema_parse_tokens _ _ _ Hparse) as Hpos.
    exists r. repeat split; auto. simpl. lia.
  - intros fs -> H0. unfold oracle_handler.
    destruct (askSchema_parse_zero (DEFAULT_MODEL cfg) fs H0) as [x Hx].
    rewrite Hx. eauto.
  - reflexivity.
Qed.

(** The amended C5 at arguments that carry [maxOutputTokens: 0]. *)
Lemma outbound_tokens_clamped_witness :
  lookup "maxOutputTokens"
         [("question", VStr "How do I shard this table?");
          ("maxOutputTokens", VNum 0)] = VNum 0
  /\ exists x,
      oracle_handler print_number (cfg_of (Some "sk-x") "off") provider_ok
                     plain_context (args_of [("maxOutputTokens", VNum 0)]) world0
      = (Threw x, world0).
Proof.
  split; [reflexivity|].
  apply (proj1 (proj2 (outbound_tokens_clamped print_number
                         (cfg_of (Some "sk-x") "off") provider_ok plain_context
                         (args_of [("maxOutputTokens", VNum 0)]) world0))
               _ eq_refl eq_refl).
Defined.

(** C9. No provider call carries both a temperature and a reasoning
    effort. For a reasoning-class model the request carries the effort
    ["medium"] and no temperature, whatever the caller supplied; otherwise
    it carries no effort and the caller's temperature, when there is
    one. *)
Theorem temperature_xor_reasoning (Number_toString : Q -> string) (cfg : config)
        (provider : client -> provider_request -> behaviour value)
        (ctx : context) (rawArgs : value) (w : world) :
  exists new,
    trace (snd (oracle_handler Number_toString cfg provider ctx rawArgs w))
    = trace w ++ new
    /\ Forall
         (calls_satisfy
            (fun _ req =>
               exists r,
                 askSchema_parse (DEFAULT_MODEL cfg) rawArgs = Returned r
                 /\ req_model req = model r
                 /\ (req_temperature req = None \/ req_reasoning_effort req = None)
                 /\ (isReasoningModel (model r) = true ->
                     req_reasoning_effort req = Some "medium"
                     /\ req_temperature req = None)
                 /\ (isReasoningModel (model r) = false ->
                     req_reasoning_effort req = None
                     /\ req_temperature req = temperature r)))
         new.
Proof.
  destruct (oracle_handler_calls Number_toString cfg provider ctx rawArgs w)
    as (new & Htr & Hcalls).
  exists new. split; [exact Htr|].
  eapply Forall_impl; [|exact Hcalls]. apply calls_satisfy_impl.
  intros c req (r & Hparse & -> & _ & _).
  exists r. split; [exact Hparse|]. split; [reflexivity|].
  unfold outbound_request, build_request. simpl.
  destruct (isReasoningModel (model r)); simpl; repeat split; auto;
    intros; discriminate.
Qed.

(** C9 on two runs: [o3] with a temperature supplied, [gpt-4o] with the
    same temperature. *)
Lemma temperature_xor_reasoning_samples :
  map (fun req => (req_reasoning_effort req, req_temperature req))
      (provider_requests
         (trace (snd (oracle_handler print_number (cfg_of (Some "sk-x") "off")
                        provider_ok no_context
                        (args_of [("temperature", VNum (7 # 10))]) world0))))
  = [(Some "medium", None)]
  /\ map (fun req => (req_reasoning_effort req, req_temperature req))
         (provider_requests
            (trace (snd (oracle_handler print_number (cfg_of (Some "sk-x") "off")
                           provider_ok no_context
                           (args_of [("model", VStr "gpt-4o");
                                     ("temperature", VNum (7 # 10))]) world0))))
     = [(None, Some (7 # 10)%Q)].
Proof. split; reflexivity. Qed.


(* ================================================================== *)
(** * Further properties of the code *)

(** ** Retry executor: schedule, bound and result *)

Section RetrySchedule.

Context {A : Type}.
Variable what : call.
Variable beh : behaviour A.
Variables attempts baseDelay : Z.

Lemma retry_from_schedule n :
  forall i lastErr w,
    Z.of_nat n = attempts - i ->
    exists new,
      trace (snd (retry_from (invoke what beh) attempts baseDelay n i lastErr w))
      = trace w ++ new
      /\ sleep_delays new
         = backoff_schedule baseDelay i (List.length (sleep_delays new))
      /\ ((0 < n)%nat ->
          List.length (filter is_call new) = S (List.length (sleep_delays new)))
      /\ (List.length (filter is_call new) <= n)%nat.
Proof.
  induction n as [|n IH]; intros i lastErr w Hn.
  - exists []. simpl. rewrite app_nil_r. repeat split; auto. lia.
  - rewrite retry_from_step.
    set (d := snd (beh (calls w) (now w))).
    assert (Hone :
      exists new,
        trace (after_call what d w) = trace w ++ new
        /\ sleep_delays new
           = backoff_schedule baseDelay i (List.length (sleep_delays new))
        /\ ((0 < S n)%nat ->
            List.length (filter is_call new) = S (List.length (sleep_delays new)))
        /\ (List.length (filter is_call new) <= S n)%nat).
    { exists [EvCall what (now w)]. simpl. repeat split; auto. lia. }
    destruct (fst (beh (calls w) (now w))) as [a|err]; [exact Hone|].
    destruct (negb (isRetryableStatus (status_of err))); simpl orb; [exact Hone|].
    destruct (i =? attempts - 1) eqn:Hlast; [exact Hone|].
    apply Z.eqb_neq in Hlast.
    set (w1 := after_call what d w).
    destruct (IH (i + 1) err (after_sleep (baseDelay * 2 ^ i) w1))
      as (new & Htr & Hsch & Hcnt & Hle); [lia|].
    exists (EvCall what (now w) :: EvSleep (baseDelay * 2 ^ i) (now w1) :: new).
    split; [|split; [|split]].
    + rewrite Htr. simpl. rewrite <- !app_assoc. reflexivity.
    + simpl. f_equal. exact Hsch.
    + intros _. simpl. f_equal. apply Hcnt. lia.
    + simpl. lia.
Qed.

(** The outcome is that of the last invocation made. *)
Lemma retry_from_last n :
  forall i lastErr w,
    (0 < n)%nat ->
    Z.of_nat n = attempts - i ->
    exists pre t,
      trace (snd (retry_from (invoke what beh) attempts baseDelay n i lastErr w))
      = trace w ++ pre ++ [EvCall what t]
      /\ (calls w
          < calls (snd (retry_from (invoke what beh) attempts baseDelay n
                                   i lastErr w)))%nat
      /\ fst (retry_from (invoke what beh) attempts baseDelay n i lastErr w)
         = fst (beh (pred (calls (snd (retry_from (invoke what beh) attempts
                                                   baseDelay n i lastErr w)))) t).
Proof.
  induction n as [|n IH]; intros i lastErr w Hpos Hn; [lia|].
  rewrite retry_from_step.
  set (d := snd (beh (calls w) (now w))).
  assert (Hone : forall r,
    r = fst (beh (calls w) (now w)) ->
    exists pre t,
      trace (snd (r, after_call what d w)) = trace w ++ pre ++ [EvCall what t]
      /\ (calls w < calls (snd (r, after_call what d w)))%nat
      /\ fst (r, after_call what d w)
         = fst (beh (pred (calls (snd (r, after_call what d w)))) t)).
  { intros r ->. exists [], (now w). simpl. auto. }
  destruct (fst (beh (calls w) (now w))) as [a|err] eqn:Hout;
    [apply Hone; reflexivity|].
  destruct (negb (isRetryableStatus (status_of err))); simpl orb;
    [apply Hone; reflexivity|].
  destruct (i =? attempts - 1) eqn:Hlast; [apply Hone; reflexivity|].
  apply Z.eqb_neq in Hlast.
  set (w2 := after_sleep (baseDelay * 2 ^ i) (after_call what d w)).
  destruct (IH (i + 1) err w2) as (pre & t & Htr & Hc & Hres); [lia|lia|].
  exists (EvCall what (now w)
          :: EvSleep (baseDelay * 2 ^ i) (now (after_call what d w)) :: pre), t.
  split; [|split].
  - rewrite Htr. simpl. rewrite <- !app_assoc. reflexivity.
  - simpl in Hc. lia.
  - exact Hres.
Qed.

End RetrySchedule.

Lemma withRetries_schedule_aux {A : Type} (what : call) (beh : behaviour A)
      (attempts baseDelay : Z) (w : world) :
  exists new,
    trace (snd (withRetries (invoke what beh) attempts baseDelay w))
    = trace w ++ new
    /\ sleep_delays new
       = backoff_schedule baseDelay 0 (List.length (sleep_delays new))
    /\ (0 < attempts ->
        List.length (filter is_call new) = S (List.length (sleep_delays new)))
    /\ (List.length (filter is_call new) <= Z.to_nat attempts)%nat.
Proof.
  unfold withRetries.
  destruct (Z.le_gt_cases attempts 0) as [Hle|Hgt].
  - replace (Z.to_nat attempts) with 0%nat by lia.
    exists []. simpl. rewrite app_nil_r. repeat split; auto. lia.
  - destruct (retry_from_schedule what beh attempts baseDelay
                (Z.to_nat attempts) 0 ExnUndefined w)
      as (new & Htr & Hsch & Hcnt & Hbound); [lia|].
    exists new. repeat split; auto. intros _. apply Hcnt. lia.
Qed.

(** X1. Whatever the operation does, the backoff sleeps of [withRetries]
    follow the schedule [baseDelay], [2 * baseDelay], [4 * baseDelay], ...
    with nothing added; when at least one attempt is allowed there is one
    more invocation than there are sleeps, and never more invocations than
    attempts. *)
Theorem withRetries_schedule {A : Type} (what : call) (beh : behaviour A)
        (attempts baseDelay : Z) (w : world) :
  exists new,
    trace (snd (withRetries (invoke what beh) attempts baseDelay w))
    = trace w ++ new
    /\ sleep_delays new
       = backoff_schedule baseDelay 0 (List.length (sleep_delays new))
    /\ (0 < attempts ->
        List.length (filter is_call new) = S (List.length (sleep_delays new)))
    /\ (List.length (filter is_call new) <= Z.to_nat attempts)%nat.
Proof. apply withRetries_schedule_aux. Qed.

(** The schedule of the operation that is rate-limited twice. *)
Lemma withRetries_schedule_witness :
  0 < 3
  /\ exists new,
      trace (snd (withRetries
                    (invoke (ProviderCall some_client some_request) beh_429_429_ok)
                    3 500 world0))
      = trace world0 ++ new
      /\ List.length (filter is_call new) = S (List.length (sleep_delays new)).
Proof.
  split; [lia|].
  destruct (withRetries_schedule (ProviderCall some_client some_request)
              beh_429_429_ok 3 500 world0) as (new & Htr & _ & Hcnt & _).
  exists new. split; [exact Htr|]. apply Hcnt. lia.
Defined.

(** X2. With at least one attempt allowed, what [withRetries] returns or
    throws is what the last invocation it made returned or threw: it
    stops at the first success and rethrows the failure that ended the
    loop, never an earlier one. *)
Theorem withRetries_last_outcome {A : Type} (what : call) (beh : behaviour A)
        (attempts baseDelay : Z) (w : world) :
  0 < attempts ->
  let run := withRetries (invoke what beh) attempts baseDelay w in
  exists pre t,
    trace (snd run) = trace w ++ pre ++ [EvCall what t]
    /\ (calls w < calls (snd run))%nat
    /\ fst run = fst (beh (pred (calls (snd run))) t).
Proof.
  intros Hpos run. unfold run, withRetries.
  apply retry_from_last; lia.
Qed.

Lemma withRetries_last_outcome_witness :
  0 < 3
  /\ let run := withRetries
                  (invoke (ProviderCall some_client some_request) beh_429_429_ok)
                  3 500 world0 in
     exists pre t,
       trace (snd run)
       = trace world0 ++ pre ++ [EvCall (ProviderCall some_client some_request) t]
       /\ (calls world0 < calls (snd run))%nat
       /\ fst run = fst (beh_429_429_ok (pred (calls (snd run))) t).
Proof.
  split; [lia|].
  apply (withRetries_last_outcome (ProviderCall some_client some_request)
           beh_429_429_ok 3 500 world0). lia.
Defined.

(** X3. With no attempt allowed ([attempts <= 0]) the loop body never
    runs: [withRetries] throws [undefined] (the initial [lastErr]) and the
    operation is not invoked, whatever it is. *)
Theorem withRetries_no_attempt {A : Type} (fn : M A) (attempts baseDelay : Z)
        (w : world) :
  attempts <= 0 ->
  withRetries fn attempts baseDelay w = (Threw ExnUndefined, w).
Proof.
  intros H. unfold withRetries. replace (Z.to_nat attempts) with 0%nat by lia.
  reflexivity.
Qed.

Lemma withRetries_no_attempt_witness :
  0 <= 0
  /\ withRetries (invoke (ProviderCall some_client some_request) beh_429_429_ok)
                 0 500 world0
     = (Threw ExnUndefined, world0).
Proof.
  split; [lia|].
  apply (withRetries_no_attempt
           (invoke (ProviderCall some_client some_request) beh_429_429_ok)
           0 500 world0). lia.
Defined.

Section RetryExhaustion.

Context {A : Type}.
Variable what : call.
Variable beh : behaviour A.
Variables attempts baseDelay : Z.

Lemma retry_from_exhausts (Hbeh : always_retryable beh) n :
  forall i lastErr w,
    (0 < n)%nat ->
    Z.of_nat n = attempts - i ->
    exists x new,
      fst (retry_from (invoke what beh) attempts baseDelay n i lastErr w) = Threw x
      /\ isRetryableStatus (status_of x) = true
      /\ trace (snd (retry_from (invoke what beh) attempts baseDelay n i lastErr w))
         = trace w ++ new
      /\ List.length (filter is_call new) = n
      /\ sleep_delays new = backoff_schedule baseDelay i (pred n).
Proof.
  induction n as [|n IH]; intros i lastErr w Hpos Hn; [lia|].
  rewrite retry_from_step.
  pose proof (Hbeh (calls w) (now w)) as Hw.
  destruct (fst (beh (calls w) (now w))) as [a|err]; [contradiction|].
  rewrite Hw. simpl negb. simpl orb.
  destruct (i =? attempts - 1) eqn:Hlast.
  - apply Z.eqb_eq in Hlast. assert (n = 0%nat) by lia. subst n.
    exists err, [EvCall what (now w)]. simpl. auto.
  - apply Z.eqb_neq in Hlast.
    set (w1 := after_call what (snd (beh (calls w) (now w))) w).
    destruct (IH (i + 1) err (after_sleep (baseDelay * 2 ^ i) w1))
      as (x & new & Hres & Hretry & Htr & Hcnt & Hsch); [lia|lia|].
    exists x, (EvCall what (now w) :: EvSleep (baseDelay * 2 ^ i) (now w1) :: new).
    split; [exact Hres|]. split; [exact Hretry|]. split; [|split].
    + rewrite Htr. simpl. rewrite <- !app_assoc. reflexivity.
    + simpl. f_equal. exact Hcnt.
    + simpl. rewrite Hsch. destruct n as [|n']; [lia|]. reflexivity.
Qed.

End RetryExhaustion.

(** X4. An operation that fails with a retryable status at every
    invocation exhausts the retries: with [attempts >= 1] it is invoked
    exactly [attempts] times, [attempts - 1] sleeps separate the
    invocations, their delays are [baseDelay * 2^0], ...,
    [baseDelay * 2^(attempts - 2)], and the failure that is rethrown is a
    retryable one. *)
Theorem withRetries_exhausted {A : Type} (what : call) (beh : behaviour A)
        (attempts baseDelay : Z) (w : world) :
  0 < attempts ->
  always_retryable beh ->
  exists x new,
    fst (withRetries (invoke what beh) attempts baseDelay w) = Threw x
    /\ isRetryableStatus (status_of x) = true
    /\ trace (snd (withRetries (invoke what beh) attempts baseDelay w))
       = trace w ++ new
    /\ List.length (filter is_call new) = Z.to_nat attempts
    /\ sleep_delays new = backoff_schedule baseDelay 0 (pred (Z.to_nat attempts)).
Proof.
  intros Hpos Hbeh. unfold withRetries.
  apply retry_from_exhausts; [exact Hbeh|lia|lia].
Qed.

(** The handler's policy on a provider that
    always answers 503: three invocations, sleeps of 500 and 1000 ms. *)
Lemma withRetries_exhausted_witness :
  0 < 3
  /\ always_retryable beh_503
  /\ exists x new,
      fst (withRetries (invoke (ProviderCall some_client some_request) beh_503)
                       3 500 world0) = Threw x
      /\ isRetryableStatus (status_of x) = true
      /\ trace (snd (withRetries
                       (invoke (ProviderCall some_client some_request) beh_503)
                       3 500 world0))
         = trace world0 ++ new
      /\ List.length (filter is_call new) = 3%nat
      /\ sleep_delays new = [500; 1000].
Proof.
  split; [lia|]. split; [intros i t; reflexivity|].
  apply (withRetries_exhausted (ProviderCall some_client some_request) beh_503
           3 500 world0); [lia|intros i t; reflexivity].
Defined.

(* ------------------------------------------------------------------ *)
(** ** Trimming *)

Lemma trimStart_clean s : starts_clean (trimStart s).
Proof.
  induction s as [|c r IH]; simpl; [exact I|].
  destruct (is_space c) eqn:E; [exact IH|exact E].
Qed.

Lemma trimStart_of_clean s : starts_clean s -> trimStart s = s.
Proof. destruct s as [|c r]; simpl; [reflexivity|]. intros ->. reflexivity. Qed.

Lemma trimEnd_clean s : starts_clean s -> starts_clean (trimEnd s).
Proof.
  destruct s as [|c r]; simpl; [auto|]. intros Hc.
  destruct (trimEnd r); [rewrite Hc|]; exact Hc.
Qed.

Lemma trimEnd_idem s : trimEnd (trimEnd s) = trimEnd s.
Proof.
  induction s as [|c r IH]; simpl; [reflexivity|].
  destruct (trimEnd r) as [|c' r'] eqn:E.
  - destruct (is_space c) eqn:Hc; simpl; [reflexivity|]. rewrite Hc. reflexivity.
  - simpl in IH |- *. rewrite IH. reflexivity.
Qed.

Lemma trim_idem s : trim (trim s) = trim s.
Proof.
  unfold trim.
  rewrite (trimStart_of_clean (trimEnd (trimStart s))).
  - apply trimEnd_idem.
  - apply trimEnd_clean, trimStart_clean.
Qed.

(* ------------------------------------------------------------------ *)
(** ** Response extractor: what is collected *)

Lemma value_ind_nested (P : value -> Prop) :
  P VUndefined -> P VNull -> (forall b, P (VBool b)) -> (forall q, P (VNum q)) ->
  (forall s, P (VStr s)) ->
  (forall xs, Forall P xs -> P (VArr xs)) ->
  (forall fs, Forall (fun kv => P (snd kv)) fs -> P (VObj fs)) ->
  forall v, P v.
Proof.
  intros Hu Hn Hb Hq Hs Harr Hobj. fix IH 1.
  intros [| |b|q|s|xs|fs];
    [exact Hu|exact Hn|apply Hb|apply Hq|apply Hs| | ].
  - apply Harr. revert xs. fix IHxs 1. intros [|x xs]; constructor;
      [apply IH|apply IHxs].
  - apply Hobj. revert fs. fix IHfs 1. intros [|[k v] fs]; constructor;
      [apply IH|apply IHfs].
Qed.

Lemma scan_falsy v : truthy v = false -> scan v = [].
Proof.
  destruct v; simpl; try reflexivity; try discriminate.
  intros ->. reflexivity.
Qed.

Lemma scan_sound node : forall s, In s (scan node) -> reaches node s.
Proof.
  induction node as [| |b|q|s0|xs IH|fs IH] using value_ind_nested;
    intros s Hin; simpl in Hin; try contradiction.
  - destruct (nonempty s0); simpl in Hin; [|contradiction].
    destruct Hin as [<-|[]]. constructor.
  - apply in_flat_map in Hin. destruct Hin as (x & Hx & Hs).
    rewrite Forall_forall in IH. eapply reaches_elem; eauto.
  - change (In s (scan (VObj fs))) in Hin. rewrite scan_obj_eq in Hin.
    rewrite Forall_forall in IH.
    apply in_app_or in Hin. destruct Hin as [Hin|Hin].
    { unfold text_pushes in Hin.
      destruct (lookup "text" fs) as [| | | |t| |] eqn:Ht; try contradiction.
      assert (s = t) as ->.
      { destruct (is_str "output_text" (lookup "type" fs)); simpl in Hin;
          intuition congruence. }
      eapply reaches_field with (k := "text");
        [apply lookup_In; [exact Ht|discriminate]|reflexivity|constructor]. }
    apply in_app_or in Hin. destruct Hin as [Hin|Hin].
    { destruct (is_str "assistant" (lookup "role" fs) && truthy (lookup "content" fs))
        eqn:E; [|contradiction].
      apply andb_true_iff in E. destruct E as [_ Hc].
      assert (Hc' : In ("content", lookup "content" fs) fs).
      { apply lookup_In; [reflexivity|]. intros E. rewrite E in Hc. discriminate. }
      eapply reaches_field; [exact Hc'|reflexivity|].
      apply (IH _ Hc'). exact Hin. }
    apply in_app_or in Hin. destruct Hin as [Hin|Hin].
    { destruct (truthy (lookup "message" fs)
                && is_str "assistant" (get "role" (lookup "message" fs)))
        eqn:E; [|contradiction].
      apply andb_true_iff in E. destruct E as [_ Hrole].
      destruct (lookup "message" fs) as [| | | | | |ms] eqn:Hm;
        try discriminate.
      assert (Hm' : In ("message", VObj ms) fs).
      { apply lookup_In; [exact Hm|discriminate]. }
      eapply reaches_field; [exact Hm'|reflexivity|].
      apply (IH _ Hm'). simpl snd. rewrite scan_obj_eq.
      simpl in Hrole, Hin. rewrite Hrole.
      apply in_or_app. right. apply in_or_app. left.
      destruct (truthy (lookup "content" ms)) eqn:Hc; [exact Hin|].
      rewrite (scan_falsy _ Hc) in Hin. contradiction. }
    apply in_flat_map in Hin. destruct Hin as ([k v] & Hkv & Hs). simpl in Hs.
    destruct (skipped k) eqn:Hk; [contradiction|].
    eapply reaches_field; eauto. apply (IH _ Hkv). exact Hs.
Qed.

(** X5. The scan collects nothing but strings of the response that are
    reachable through array elements and object keys other than
    [logprobs], [tool] and [annotations]: whatever sits only under a
    skipped key never reaches the extracted text. *)
Theorem scan_collects_only_reachable (node : value) (s : string) :
  In s (scan node) -> reaches node s.
Proof. apply scan_sound. Qed.

Lemma scan_collects_only_reachable_witness :
  In "assistant" (scan (get "output" resp_nested))
  /\ reaches (get "output" resp_nested) "assistant".
Proof.
  assert (H : In "assistant" (scan (get "output" resp_nested))).
  { vm_compute. auto 10. }
  split; [exact H|].
  apply (scan_collects_only_reachable (get "output" resp_nested) "assistant" H).
Defined.

(** X6. An object all of whose keys are among [logprobs], [tool] and
    [annotations] contributes no fragment, whatever it contains. *)
Theorem scan_skipped_only (fs : list (string * value)) :
  forallb (fun kv => skipped (fst kv)) fs = true ->
  scan (VObj fs) = [].
Proof.
  intros Hall.
  destruct (scan (VObj fs)) as [|s l] eqn:E; [reflexivity|].
  assert (Hin : In s (scan (VObj fs))) by (rewrite E; left; reflexivity).
  apply scan_sound in Hin. inversion Hin as [| |fs' k v s' Hkv Hk Hv]; subst.
  rewrite forallb_forall in Hall. specialize (Hall _ Hkv). simpl in Hall.
  congruence.
Qed.

Lemma scan_skipped_only_witness :
  scan (VObj [("logprobs", VArr [VObj [("token", VStr "hi")]]);
              ("annotations", VArr [VStr "cite"])]) = [].
Proof.
  apply (scan_skipped_only
           [("logprobs", VArr [VObj [("token", VStr "hi")]]);
            ("annotations", VArr [VStr "cite"])]).
  reflexivity.
Defined.

Lemma response_text_trim_idem (anyResp : value) :
  trim (response_text anyResp) = response_text anyResp.
Proof.
  unfold response_text.
  destruct (get "output_text" anyResp); try apply trim_idem.
  destruct (nonempty (trim s)); apply trim_idem.
Qed.

(** X7. The text extracted from a response has no surrounding whitespace:
    trimming it again changes nothing. *)
Theorem response_text_trimmed (anyResp : value) :
  trim (response_text anyResp) = response_text anyResp.
Proof. apply response_text_trim_idem. Qed.

(** X8. A response in which no string is reachable off the skipped keys,
    and whose [output_text] is not a string with something besides
    whitespace, yields the empty text. *)
Theorem response_text_nothing (anyResp : value) :
  (forall s, ~ reaches (get "output" anyResp) s) ->
  (forall s, ~ reaches (get "message" anyResp) s) ->
  (forall ot, get "output_text" anyResp = VStr ot -> nonempty (trim ot) = false) ->
  response_text anyResp = EmptyString.
Proof.
  intros Ho Hm Hot.
  assert (Hnil : forall v, (forall s, ~ reaches v s) -> scan v = []).
  { intros v Hv. destruct (scan v) as [|s l] eqn:E; [reflexivity|].
    exfalso. apply (Hv s). apply scan_sound. rewrite E. left. reflexivity. }
  unfold response_text. rewrite (Hnil _ Ho), (Hnil _ Hm).
  destruct (get "output_text" anyResp) as [| | | |ot| |] eqn:E; try reflexivity.
  rewrite (Hot ot eq_refl). reflexivity.
Qed.

Lemma response_text_nothing_witness :
  response_text (VObj [("id", VStr "resp_1"); ("output", VArr [])]) = EmptyString.
Proof.
  apply (response_text_nothing (VObj [("id", VStr "resp_1"); ("output", VArr [])])).
  - intros s H. simpl in H. inversion H as [|xs x s' Hin|]; subst. destruct Hin.
  - intros s H. simpl in H. inversion H.
  - intros ot H. discriminate H.
Defined.

(* ------------------------------------------------------------------ *)
(** ** Client pool *)

Lemma key_eqb_eq a b : key_eqb a b = true <-> a = b.
Proof.
  destruct a as [[a1 a2] a3], b as [[b1 b2] b3]. simpl.
  rewrite !andb_true_iff, !String.eqb_eq. split.
  - intros [[-> ->] ->]. reflexivity.
  - intros [= -> -> ->]. auto.
Qed.

Lemma pool_get_app key pool key' c :
  pool_get key (pool ++ [(key', c)])
  = match pool_get key pool with
    | Some c0 => Some c0
    | None => if key_eqb key' key then Some c else None
    end.
Proof.
  induction pool as [|[k0 c0] pool IH]; simpl; [reflexivity|].
  destruct (key_eqb k0 key); [reflexivity|exact IH].
Qed.

Lemma pool_get_None key pool :
  pool_get key pool = None -> ~ In key (map fst pool).
Proof.
  induction pool as [|[k0 c0] pool IH]; simpl; [tauto|].
  destruct (key_eqb k0 key) eqn:E; [discriminate|].
  intros H [->|Hin]; [|exact (IH H Hin)].
  assert (key_eqb key key = true) by (apply key_eqb_eq; reflexivity).
  congruence.
Qed.

(** X9. The pool memoizes: once [getOpenAI(k, b, o)] has returned a
    client, a call with arguments that give the same key ([undefined] and
    the empty string give the same one) returns that client and leaves
    the pool as it is. When [getOpenAI] throws (the constructor's
    exception) nothing is filed: the world is as before. *)
Theorem getOpenAI_memoizes (k b o k' b' o' : option string) (w : world) :
  pool_key k' b' o' = pool_key k b o ->
  (forall c,
      fst (getOpenAI k b o w) = Returned c ->
      getOpenAI k' b' o' (snd (getOpenAI k b o w))
      = (Returned c, snd (getOpenAI k b o w)))
  /\ (forall x,
        fst (getOpenAI k b o w) = Threw x -> snd (getOpenAI k b o w) = w).
Proof.
  unfold pool_key. intros Hkey. split.
  - intros c Hc. unfold getOpenAI at 1. rewrite Hkey.
    assert (Hget : pool_get (or_empty k, or_empty b, or_empty o)
                            (clients (snd (getOpenAI k b o w))) = Some c).
    { revert Hc. unfold getOpenAI, new_OpenAI.
      destruct (pool_get _ (clients w)) as [c0|] eqn:E; simpl.
      - intros [= <-]. exact E.
      - destruct k as [key|]; simpl in *; [|discriminate].
        intros [= <-]. rewrite pool_get_app, E.
        rewrite (proj2 (key_eqb_eq _ _) eq_refl). reflexivity. }
    rewrite Hget. reflexivity.
  - intros x. unfold getOpenAI, new_OpenAI.
    destruct (pool_get _ (clients w)); [reflexivity|].
    destruct k; simpl; [discriminate|reflexivity].
Qed.

(** An unset base URL and an empty one share their client: the second
    call returns the client built by the first. *)
Lemma getOpenAI_memoizes_witness :
  pool_key (Some "sk-a") (Some EmptyString) None = pool_key (Some "sk-a") None None
  /\ fst (getOpenAI (Some "sk-a") None None world0)
     = Returned {| c_apiKey := Some "sk-a"; c_baseURL := None;
                   c_organization := None |}
  /\ fst (getOpenAI (Some "sk-a") (Some EmptyString) None
            (snd (getOpenAI (Some "sk-a") None None world0)))
     = Returned {| c_apiKey := Some "sk-a"; c_baseURL := None;
                   c_organization := None |}.
Proof.
  split; [reflexivity|]. split; [reflexivity|].
  rewrite (proj1 (getOpenAI_memoizes (Some "sk-a") None None
                    (Some "sk-a") (Some EmptyString) None world0 eq_refl)
                 _ eq_refl).
  reflexivity.
Defined.

(** X10. The pool never holds two clients for one key, and never drops or
    replaces an entry: if its keys are pairwise distinct before
    [getOpenAI] they are so after it, and every client that could be
    looked up before is still the one found after. *)
Theorem getOpenAI_keeps_pool (k b o : option string) (w : world) :
  NoDup (map fst (clients w)) ->
  NoDup (map fst (clients (snd (getOpenAI k b o w))))
  /\ forall key c,
       pool_get key (clients w) = Some c ->
       pool_get key (clients (snd (getOpenAI k b o w))) = Some c.
Proof.
  intros Hnd. unfold getOpenAI, new_OpenAI.
  destruct (pool_get _ (clients w)) as [c0|] eqn:E; simpl; [auto|].
  destruct k as [apiKey|]; simpl; [|auto].
  - split.
    + rewrite map_app. simpl.
      apply (NoDup_Add (Add_app _ (map fst (clients w)) [])).
      rewrite app_nil_r. split; [exact Hnd|].
      apply pool_get_None. exact E.
    + intros key c Hget. rewrite pool_get_app, Hget. reflexivity.
Qed.

Lemma getOpenAI_keeps_pool_witness :
  NoDup (map fst (clients world0))
  /\ NoDup (map fst (clients (snd (getOpenAI (Some "sk-a") None None world0)))).
Proof.
  assert (H : NoDup (map fst (clients world0))) by constructor.
  split; [exact H|].
  apply (proj1 (getOpenAI_keeps_pool (Some "sk-a") None None world0 H)).
Defined.

(* ------------------------------------------------------------------ *)
(** ** Outcomes of monadic code *)

Lemma sat_weaken {A} (m : M A) (Q Q' : outcome A -> Prop) :
  sat m Q -> (forall r, Q r -> Q' r) -> sat m Q'.
Proof. intros H HQ w. apply HQ, H. Qed.

Lemma sat_ret {A} (a : A) (Q : outcome A -> Prop) : Q (Returned a) -> sat (ret a) Q.
Proof. intros H w. exact H. Qed.

Lemma sat_bind {A B} (m : M A) (k : A -> M B) Qm (Q : outcome B -> Prop) :
  sat m Qm ->
  (forall a, Qm (Returned a) -> sat (k a) Q) ->
  (forall x, Qm (Threw x) -> Q (Threw x)) ->
  sat (bind m k) Q.
Proof.
  intros Hm Hk Hx w. unfold bind. specialize (Hm w).
  destruct (m w) as [[a|x] w1]; simpl in *; [apply (Hk a Hm w1)|apply Hx, Hm].
Qed.

Lemma sat_try_catch {A} (m : M A) (h : exn -> M A) Qm (Q : outcome A -> Prop) :
  sat m Qm ->
  (forall a, Qm (Returned a) -> Q (Returned a)) ->
  (forall x, Qm (Threw x) -> sat (h x) Q) ->
  sat (try_catch m h) Q.
Proof.
  intros Hm Ha Hx w. unfold try_catch. specialize (Hm w).
  destruct (m w) as [[a|x] w1]; simpl in *; [apply Ha, Hm|apply (Hx x Hm w1)].
Qed.

Lemma sat_try_finally {A} (m : M A) (f : M unit) (Q : outcome A -> Prop) :
  sat m Q -> sat f returned -> sat (try_finally m f) Q.
Proof.
  intros Hm Hf w. unfold try_finally. specialize (Hm w).
  destruct (m w) as [r w1]. specialize (Hf w1).
  destruct (f w1) as [[u|x] w2]; simpl in *; [exact Hm|].
  destruct Hf as [u Hu]. discriminate.
Qed.

Lemma sat_swallow (m : M unit) : sat (swallow m) (fun r => r = Returned tt).
Proof. intros w. rewrite swallow_run. reflexivity. Qed.

Lemma sat_sendInfo ctx message :
  sat (sendInfo ctx message) (fun r => r = Returned tt).
Proof. intros w. rewrite sendInfo_run. reflexivity. Qed.

Lemma sat_reportProgress ctx p t :
  sat (reportProgress ctx p t) (fun r => r = Returned tt).
Proof. intros w. rewrite reportProgress_run. reflexivity. Qed.

Lemma sat_any {A} (m : M A) : sat m (fun _ => True).
Proof. intros w. exact I. Qed.

Lemma sat_provider_finally timer cancelUnsub :
  sat (provider_finally timer cancelUnsub) returned.
Proof.
  intros w. unfold provider_finally, bind, clearTimeout.
  rewrite swallow_run. exists tt. reflexivity.
Qed.

(* ------------------------------------------------------------------ *)
(** ** Caller-provided generation *)

Section Sampling.

Variable Number_toString : Q -> string.

Lemma extract_text_part t : extract Number_toString (text_part t) = t.
Proof. destruct t; reflexivity. Qed.

Lemma sat_tryClientSampling ctx system user maxTokens temperature model :
  sat (tryClientSampling Number_toString ctx system user maxTokens temperature model)
      (fun r => exists o,
           r = Returned o
           /\ forall text, o = Some text ->
                           nonempty text = true /\ trim text = text).
Proof.
  unfold tryClientSampling.
  apply sat_try_catch
    with (Qm := fun r => forall o, r = Returned o ->
                  forall text, o = Some text ->
                               nonempty text = true /\ trim text = text).
  - destruct (choose_entry ctx) as [[via f]|].
    + eapply sat_bind; [apply sat_any| |discriminate].
      intros result _. apply sat_ret. intros o [= <-] text.
      destruct (nonempty (trim _)) eqn:E; [|discriminate].
      intros [= <-]. split; [exact E|apply trim_idem].
    + apply sat_ret. intros o [= <-] text. discriminate.
  - intros o H. exists o. split; [reflexivity|]. apply H. reflexivity.
  - intros x _. apply sat_ret. exists None. split; [reflexivity|]. discriminate.
Qed.

End Sampling.

(** X11. [tryClientSampling] never throws: whatever the caller's
    [createMessage] does (throw, or return any value), the result is
    [null] or a text, and a text it returns is not blank and has no
    surrounding whitespace. *)
Theorem tryClientSampling_safe (Number_toString : Q -> string) (ctx : context)
        (system user : string) (maxTokens : Z) (temperature : option Q)
        (model : string) (w : world) :
  exists o,
    fst (tryClientSampling Number_toString ctx system user maxTokens
                           temperature model w) = Returned o
    /\ forall text, o = Some text -> nonempty text = true /\ trim text = text.
Proof. apply sat_tryClientSampling. Qed.

(** X12. A caller whose selected [createMessage] returns a result with a
    [content] that is a list of text parts gets back the parts that are
    not empty, joined by newlines and trimmed ([null] when that is
    blank). *)
Theorem tryClientSampling_text_parts (Number_toString : Q -> string)
        (ctx : context) (system user : string) (maxTokens : Z)
        (temperature : option Q) (model : string) (w : world)
        (via : entry_point) (createMessage : sampler) (result : value)
        (parts : list string) :
  choose_entry ctx = Some (via, createMessage) ->
  (forall payload,
      fst (createMessage payload (calls w) (now w)) = Returned result) ->
  get "content" result = VArr (map text_part parts) ->
  fst (tryClientSampling Number_toString ctx system user maxTokens
                         temperature model w)
  = Returned (let text := trim (join nl (filter nonempty parts)) in
              if nonempty text then Some text else None).
Proof.
  intros Hentry Hres Hcontent. unfold tryClientSampling, try_catch.
  rewrite Hentry. unfold bind, invoke.
  match goal with |- context [createMessage ?p (calls w) (now w)] =>
    specialize (Hres p); destruct (createMessage p (calls w) (now w)) as [r d] end.
  simpl in Hres. subst r. cbv zeta. rewrite Hcontent.
  assert (Hmap : forall ps, map (extract Number_toString) (map text_part ps) = ps).
  { induction ps as [|t ts IH]; [reflexivity|].
    simpl map. rewrite IH. f_equal. apply (extract_text_part Number_toString). }
  change (coalesce (coalesce (VArr (map text_part parts)) _) _)
    with (VArr (map text_part parts)).
  change (extract Number_toString (VArr (map text_part parts)))
    with (join nl (filter nonempty
                     (map (extract Number_toString) (map text_part parts)))).
  rewrite Hmap. reflexivity.
Qed.

Lemma tryClientSampling_text_parts_witness :
  choose_entry (sampling_context (says ["Use a hash ring. "; EmptyString; "Rebalance."]))
  = Some (SamplingCreateMessage, says ["Use a hash ring. "; EmptyString; "Rebalance."])
  /\ fst (tryClientSampling print_number
            (sampling_context (says ["Use a hash ring. "; EmptyString; "Rebalance."]))
            "s" "u" 1024 None "o3" world0)
     = Returned (Some ("Use a hash ring. " ++ nl ++ "Rebalance.")%string).
Proof.
  split; [reflexivity|].
  apply (tryClientSampling_text_parts print_number
           (sampling_context (says ["Use a hash ring. "; EmptyString; "Rebalance."]))
           "s" "u" 1024 None "o3" world0 SamplingCreateMessage
           (says ["Use a hash ring. "; EmptyString; "Rebalance."])
           (VObj [("role", VStr "assistant");
                  ("content", VArr (map text_part
                                     ["Use a hash ring. "; EmptyString; "Rebalance."]))])
           ["Use a hash ring. "; EmptyString; "Rebalance."]);
    [reflexivity|intros; reflexivity|reflexivity].
Defined.

(* ------------------------------------------------------------------ *)
(** ** Results of the handler *)

Lemma truthy_status_nonzero status s : truthy_status status = Some s -> s <> 0.
Proof.
  unfold truthy_status. destruct status as [s0|]; [|discriminate].
  destruct (s0 =? 0) eqn:E; [discriminate|].
  intros [= <-]. apply Z.eqb_neq. exact E.
Qed.

Section Results.

Variable Number_toString : Q -> string.
Variable cfg : config.
Variable provider : client -> provider_request -> behaviour value.
Variable ctx : context.
Variable apiKey : option string.
Variable c : client.
Variable r : request.
Variables system user : string.
Variable safeMaxTokens : Z.

Let good (o : outcome tool_result) : Prop :=
  exists t, o = Returned t /\ classified t.

Lemma sat_provider_catch err : sat (provider_catch ctx err) good.
Proof.
  unfold provider_catch. cbv zeta.
  eapply sat_bind; [apply sat_swallow| |discriminate].
  intros _ _. apply sat_ret. eexists. split; [reflexivity|].
  constructor. unfold known_code.
  destruct (truthy_status (status_of err)) as [s|] eqn:E.
  - do 4 right. exists s. split; [|reflexivity].
    eapply truthy_status_nonzero; eauto.
  - auto.
Qed.

Lemma sat_provider_try :
  sat (provider_try provider ctx c r system user safeMaxTokens)
      (fun o => forall t, o = Returned t -> classified t).
Proof.
  unfold provider_try.
  eapply sat_bind; [apply sat_any| |discriminate]. intros start _. cbv zeta.
  eapply sat_bind; [apply sat_any| |discriminate]. intros _ _.
  eapply sat_bind; [apply sat_any| |discriminate]. intros response _.
  eapply sat_bind; [apply sat_any| |discriminate]. intros finish _.
  eapply sat_bind; [apply sat_any| |discriminate]. intros _ _.
  eapply sat_bind; [apply sat_any| |discriminate]. intros _ _.
  eapply sat_bind with (Qm := fun o => forall text, o = Returned text ->
                                 text = response_text response);
    [| |discriminate].
  - unfold extract_text. destruct response;
      first [apply sat_ret; intros text [= <-]; reflexivity
            |intros w text; discriminate].
  - intros text Htext. specialize (Htext text eq_refl). subst text.
    destruct (nonempty (response_text response)) eqn:E; simpl negb; cbv iota.
    + eapply sat_bind; [apply sat_any| |discriminate]. intros _ _.
      apply sat_ret. intros t [= <-]. constructor; [exact E|].
      apply response_text_trim_idem.
    + eapply sat_bind; [apply sat_any| |discriminate]. intros _ _.
      eapply sat_bind; [apply sat_any| |discriminate]. intros _ _.
      apply sat_ret. intros t [= <-]. constructor. unfold known_code. auto.
Qed.

Lemma sat_provider_path :
  sat (provider_path provider ctx apiKey c r system user safeMaxTokens) good.
Proof.
  unfold provider_path.
  eapply sat_bind with (Qm := returned).
  - destruct (ctx_signal ctx); intros w; eexists; reflexivity.
  - intros cancelUnsub _.
    eapply sat_bind with (Qm := returned);
      [intros w; eexists; reflexivity| |intros x [a Ha]; discriminate].
    intros timer _. destruct (no_key apiKey).
    + eapply sat_bind; [apply sat_swallow| |discriminate].
      intros _ _. apply sat_ret. eexists. split; [reflexivity|].
      constructor. unfold known_code. auto.
    + apply sat_try_finally; [|apply sat_provider_finally].
      eapply sat_try_catch; [apply sat_provider_try| |].
      * intros t Ht. exists t. split; [reflexivity|]. apply Ht. reflexivity.
      * intros x _. apply sat_provider_catch.
  - intros x [a Ha]. discriminate.
Qed.

Lemma sat_sampling_broker :
  sat (sampling_broker Number_toString cfg provider ctx apiKey c r
                       system user safeMaxTokens) good.
Proof.
  unfold sampling_broker.
  destruct (negb (String.eqb (SAMPLING_MODE cfg) "off")); [|apply sat_provider_path].
  eapply sat_bind; [apply sat_tryClientSampling| |].
  - intros o (o' & [= <-] & Ho). destruct o as [text|].
    + eapply sat_bind; [apply sat_swallow| |discriminate]. intros _ _.
      eapply sat_bind; [apply sat_sendInfo| |discriminate]. intros _ _.
      apply sat_ret. eexists. split; [reflexivity|].
      destruct (Ho text eq_refl). constructor; assumption.
    + destruct (String.eqb (SAMPLING_MODE cfg) "always");
        [|apply sat_provider_path].
      eapply sat_bind; [apply sat_swallow| |discriminate]. intros _ _.
      apply sat_ret. eexists. split; [reflexivity|].
      constructor. unfold known_code. auto.
  - intros x (o & Ho & _). discriminate.
Qed.

End Results.

(** X13. Once the client has been obtained the handler cannot throw, and
    what it returns is either a text result whose text is not blank and
    has no surrounding whitespace, or an error result whose code is one of
    [E_CLIENT_SAMPLING_UNAVAILABLE], [E_MISSING_OPENAI_KEY],
    [E_EMPTY_MODEL_OUTPUT], [E_OPENAI_ERROR] and [E_OPENAI_HTTP_<status>]
    with a status other than 0; this whatever the caller's sampling and
    the provider do. *)
Theorem handler_result_classified (Number_toString : Q -> string) (cfg : config)
        (provider : client -> provider_request -> behaviour value)
        (ctx : context) (apiKey : option string) (c : client) (r : request)
        (system user : string) (safeMaxTokens : Z) (w : world) :
  exists t,
    fst (sampling_broker Number_toString cfg provider ctx apiKey c r
                         system user safeMaxTokens w) = Returned t
    /\ classified t.
Proof. apply sat_sampling_broker. Qed.

(* ------------------------------------------------------------------ *)
(** ** Which mechanism generates *)

(** X14. Under sampling mode [always] no provider call is ever made,
    whatever the caller's [createMessage] does (absent, throwing, or
    answering with nothing usable) and whether or not a key is
    configured. *)
Theorem always_never_calls_provider (Number_toString : Q -> string)
        (cfg : config)
        (provider : client -> provider_request -> behaviour value)
        (ctx : context) (rawArgs : value) (w : world) :
  SAMPLING_MODE cfg = "always" ->
  exists new,
    trace (snd (oracle_handler Number_toString cfg provider ctx rawArgs w))
    = trace w ++ new
    /\ Forall no_provider_call new.
Proof.
  intros Hmode.
  destruct (oracle_handler_calls Number_toString cfg provider ctx rawArgs w)
    as (new & Htr & Hcalls).
  exists new. split; [exact Htr|].
  eapply Forall_impl; [|exact Hcalls]. apply calls_satisfy_impl.
  intros c req (r & _ & _ & _ & Hm). rewrite Hmode in Hm. discriminate.
Qed.

(** Under [always], a caller whose [createMessage] answers with blank
    text: no provider request goes out. *)
Lemma always_never_calls_provider_witness :
  SAMPLING_MODE (cfg_of (Some "sk-x") "always") = "always"
  /\ provider_requests
       (trace (snd (oracle_handler print_number (cfg_of (Some "sk-x") "always")
                      provider_ok (sampling_context (says [" "]))
                      (args_of []) world0)))
     = [].
Proof.
  split; [reflexivity|].
  destruct (always_never_calls_provider print_number
              (cfg_of (Some "sk-x") "always") provider_ok
              (sampling_context (says [" "])) (args_of []) world0 eq_refl)
    as (new & Htr & Hnone).
  rewrite Htr. clear Htr. simpl trace. simpl app.
  induction Hnone as [|e new He _ IH]; [reflexivity|].
  destruct e as [| |[c req|] t| | | | |]; simpl in *; try exact IH; contradiction.
Defined.

Section ModeOff.

Variable Number_toString : Q -> string.
Variable cfg : config.
Variable provider : client -> provider_request -> behaviour value.
Variable ctx : context.

Lemma emits_provider_path_no_sample apiKey c r system user safeMaxTokens :
  emits no_sample_call
        (provider_path provider ctx apiKey c r system user safeMaxTokens).
Proof.
  unfold provider_path.
  apply emits_bind; [emits_auto|]. intros cancelUnsub.
  apply emits_bind; [emits_auto|]. intros timer.
  destruct (no_key apiKey); [emits_auto|].
  apply emits_try_finally; [|unfold provider_finally; emits_auto].
  apply emits_try_catch; [|intros x; unfold provider_catch; cbv zeta; emits_auto].
  unfold provider_try.
  apply emits_bind; [emits_auto|]. intros start. cbv zeta.
  apply emits_bind; [emits_auto|]. intros _.
  apply emits_bind.
  - apply emits_withRetries; [|intros; exact I].
    apply emits_invoke. intros t. exact I.
  - intros response. unfold extract_text. emits_auto.
Qed.

Lemma emits_serve_off r :
  SAMPLING_MODE cfg = "off" ->
  emits no_sample_call (serve Number_toString cfg provider ctx r).
Proof.
  intros Hmode. unfold serve.
  apply emits_bind; [emits_auto|]. intros _.
  apply emits_bind; [emits_auto|]. intros _. cbv zeta.
  apply emits_bind; [emits_auto|]. intros c.
  unfold sampling_broker. rewrite Hmode.
  change (negb (String.eqb "off" "off")) with false. cbv iota.
  apply emits_provider_path_no_sample.
Qed.

End ModeOff.

(** X15. Under sampling mode [off] the caller's generation is never
    attempted: none of its [createMessage] entry points is called, even
    when they exist. *)
Theorem off_never_samples (Number_toString : Q -> string) (cfg : config)
        (provider : client -> provider_request -> behaviour value)
        (ctx : context) (rawArgs : value) (w : world) :
  SAMPLING_MODE cfg = "off" ->
  exists new,
    trace (snd (oracle_handler Number_toString cfg provider ctx rawArgs w))
    = trace w ++ new
    /\ Forall no_sample_call new.
Proof.
  intros Hmode. unfold oracle_handler.
  destruct (askSchema_parse (DEFAULT_MODEL cfg) rawArgs) as [r|x].
  - apply emits_serve_off. exact Hmode.
  - exists []. simpl. rewrite app_nil_r. auto.
Qed.

Lemma off_never_samples_witness :
  SAMPLING_MODE (cfg_of (Some "sk-x") "off") = "off"
  /\ exists new,
      trace (snd (oracle_handler print_number (cfg_of (Some "sk-x") "off")
                    provider_ok (sampling_context (says ["hi"]))
                    (args_of []) world0))
      = trace world0 ++ new
      /\ Forall no_sample_call new.
Proof.
  split; [reflexivity|].
  apply (off_never_samples print_number (cfg_of (Some "sk-x") "off") provider_ok
           (sampling_context (says ["hi"])) (args_of []) world0 eq_refl).
Defined.

(** X16. Outside mode [off], when the caller's generation yields a text,
    the handler returns exactly that text and does nothing else than
    notify: no provider call, no timer, no listener. *)
Theorem sampled_text_is_returned (Number_toString : Q -> string) (cfg : config)
        (provider : client -> provider_request -> behaviour value)
        (ctx : context) (apiKey : option string) (c : client) (r : request)
        (system user : string) (safeMaxTokens : Z) (w : world) (text : string) :
  String.eqb (SAMPLING_MODE cfg) "off" = false ->
  fst (tryClientSampling Number_toString ctx system user safeMaxTokens
                         (temperature r) (model r) w) = Returned (Some text) ->
  fst (sampling_broker Number_toString cfg provider ctx apiKey c r
                       system user safeMaxTokens w)
  = Returned (text_result text)
  /\ exists new,
      trace (snd (sampling_broker Number_toString cfg provider ctx apiKey c r
                                  system user safeMaxTokens w))
      = trace w ++ new
      /\ Forall quiet new.
Proof.
  intros Hmode Hs. unfold sampling_broker. rewrite Hmode.
  change (negb false) with true. cbv iota.
  destruct (tryClientSampling Number_toString ctx system user safeMaxTokens
              (temperature r) (model r) w) as [o w1] eqn:Hrun.
  simpl in Hs. subst o.
  rewrite (bind_run _ _ _ _ _ Hrun).
  split.
  - rewrite (bind_run _ _ _ _ _ (swallow_run _ _)).
    rewrite (bind_run _ _ _ _ _ (sendInfo_run _ _ _)). reflexivity.
  - assert (H1 : extends quiet w w1).
    { replace w1 with (snd (tryClientSampling Number_toString ctx system user
                              safeMaxTokens (temperature r) (model r) w))
        by (rewrite Hrun; reflexivity).
      apply emits_tryClientSampling. intros; exact I. }
    eapply extends_trans; [exact H1|].
    match goal with |- extends _ ?w0 (snd (?m ?w0)) =>
      assert (He : emits quiet m) by emits_auto; apply He end.
Qed.

Lemma sampled_text_is_returned_witness :
  String.eqb (SAMPLING_MODE (cfg_of (Some "sk-test") "auto")) "off" = false
  /\ fst (sampling_broker print_number (cfg_of (Some "sk-test") "auto") provider_ok
            (sampling_context (says ["Shard by tenant."])) (Some "sk-test") some_client
            {| question := "How do I shard this table?"; context_text := None;
               sections := [Summary]; model := "o3"; maxOutputTokens := 1024;
               timeoutMs := 120000; temperature := None |}
            "s" "u" 1024 world0)
     = Returned (text_result "Shard by tenant.").
Proof.
  split; [reflexivity|].
  apply (sampled_text_is_returned print_number (cfg_of (Some "sk-test") "auto") provider_ok
           (sampling_context (says ["Shard by tenant."])) (Some "sk-test") some_client
           {| question := "How do I shard this table?"; context_text := None;
              sections := [Summary]; model := "o3"; maxOutputTokens := 1024;
              timeoutMs := 120000; temperature := None |}
           "s" "u" 1024 world0 "Shard by tenant." eq_refl eq_refl).
Defined.


(* ------------------------------------------------------------------ *)
(** ** Provider calls and sleeps of a request *)

Lemma bind_unfold {A B} (m : M A) (k : A -> M B) w :
  bind m k w
  = match m w with
    | (Returned a, w1) => k a w1
    | (Threw x, w1) => (Threw x, w1)
    end.
Proof. reflexivity. Qed.

Lemma bind_ret {A B} (a : A) (k : A -> M B) w : bind (ret a) k w = k a w.
Proof. reflexivity. Qed.

Lemma provider_requests_app a b :
  provider_requests (a ++ b) = provider_requests a ++ provider_requests b.
Proof.
  induction a as [|e a IH]; [reflexivity|].
  destruct e as [| |[c req|] t| | | | |]; simpl; rewrite ?IH; reflexivity.
Qed.

Lemma sleep_delays_app a b : sleep_delays (a ++ b) = sleep_delays a ++ sleep_delays b.
Proof.
  induction a as [|e a IH]; [reflexivity|].
  destruct e; simpl; rewrite ?IH; reflexivity.
Qed.

Lemma idle_nothing new :
  Forall idle new -> provider_requests new = [] /\ sleep_delays new = [].
Proof.
  induction 1 as [|e new He _ [IH1 IH2]]; [auto|].
  destruct e as [| |[c req|] t| | | | |]; simpl in *; auto; contradiction.
Qed.

Lemma same_io_refl w : same_io w w.
Proof. split; reflexivity. Qed.

Lemma same_io_trans w1 w2 w3 : same_io w1 w2 -> same_io w2 w3 -> same_io w1 w3.
Proof. intros [A1 A2] [B1 B2]. split; congruence. Qed.

Lemma extends_idle_same w w' : extends idle w w' -> same_io w w'.
Proof.
  intros (new & E & F). destruct (idle_nothing _ F) as [H1 H2].
  unfold same_io. rewrite E, provider_requests_app, sleep_delays_app, H1, H2.
  rewrite !app_nil_r. auto.
Qed.

Lemma emits_idle_same {A} (m : M A) : emits idle m -> forall w, same_io w (snd (m w)).
Proof. intros H w. apply extends_idle_same, H. Qed.

Lemma retry_requests c req new :
  Forall (retry_event (ProviderCall c req)) new ->
  provider_requests new = repeat req (List.length (filter is_call new)).
Proof.
  induction 1 as [|e new He _ IH]; [reflexivity|].
  destruct e as [| |what t| | | | |]; simpl in *; try contradiction; auto.
  subst what. simpl. f_equal. exact IH.
Qed.

(** What one run of the retried provider call adds. *)
Lemma withRetries_io c req (beh : behaviour value) w :
  exists k,
    (1 <= k <= 3)%nat
    /\ provider_requests
         (trace (snd (withRetries (invoke (ProviderCall c req) beh) 3 500 w)))
       = provider_requests (trace w) ++ repeat req k
    /\ sleep_delays
         (trace (snd (withRetries (invoke (ProviderCall c req) beh) 3 500 w)))
       = sleep_delays (trace w) ++ backoff_schedule 500 0 (pred k).
Proof.
  destruct (withRetries_schedule_aux (ProviderCall c req) beh 3 500 w)
    as (new & Htr & Hsch & Hcnt & Hle).
  assert (Hev : Forall (retry_event (ProviderCall c req)) new).
  { eapply extends_new; [|exact Htr].
    apply (emits_withRetries (retry_event (ProviderCall c req))).
    - apply emits_invoke. intros t. reflexivity.
    - intros; exact I. }
  specialize (Hcnt ltac:(lia)).
  exists (List.length (filter is_call new)).
  split; [change (Z.to_nat 3) with 3%nat in Hle; lia|].
  rewrite Htr, provider_requests_app, sleep_delays_app.
  rewrite (retry_requests _ _ _ Hev). split; [reflexivity|].
  rewrite Hcnt. simpl pred. rewrite <- Hsch. reflexivity.
Qed.

Section RequestIO.

Variable Number_toString : Q -> string.
Variable cfg : config.
Variable provider : client -> provider_request -> behaviour value.
Variable ctx : context.

Lemma provider_catch_fst err w :
  fst (provider_catch ctx err w) = Returned (error_result err).
Proof.
  unfold provider_catch. cbv zeta.
  rewrite (bind_run _ _ _ _ _ (swallow_run _ _)). reflexivity.
Qed.

Lemma emits_provider_catch_idle err : emits idle (provider_catch ctx err).
Proof. unfold provider_catch. cbv zeta. emits_auto. Qed.

(** The [try] block: its outcome and its calls are those of the retried
    provider call, started after the progress report. *)
Lemma provider_try_io c r system user safeMaxTokens w :
  let req := build_request (model r) system user safeMaxTokens (temperature r) in
  let run := withRetries (invoke (ProviderCall c req) (provider c req)) 3 500
                         (snd (reportProgress ctx 10 100 w)) in
  same_io (snd run) (snd (provider_try provider ctx c r system user safeMaxTokens w))
  /\ fst (provider_try provider ctx c r system user safeMaxTokens w)
     = match fst run with
       | Returned resp => result_of_response resp
       | Threw x => Threw x
       end.
Proof.
  intros req run. subst run. unfold provider_try.
  rewrite (bind_run date_now _ w (now w) w eq_refl). cbv zeta.
  rewrite (bind_run _ _ _ _ _ (reportProgress_run _ _ _ _)).
  fold req.
  rewrite (bind_unfold (withRetries (invoke (ProviderCall c req) (provider c req))
                                    3 500)).
  destruct (withRetries (invoke (ProviderCall c req) (provider c req)) 3 500
              (snd (reportProgress ctx 10 100 w))) as [[resp|x] w2];
    simpl fst; simpl snd; [|split; [apply same_io_refl|reflexivity]].
  rewrite (bind_run date_now _ w2 (now w2) w2 eq_refl).
  split.
  - match goal with |- same_io ?w0 (snd (?m ?w0)) =>
      apply (emits_idle_same m) end.
    unfold extract_text. emits_auto.
  - rewrite (bind_run _ _ _ _ _ (reportProgress_run _ _ _ _)).
    rewrite (bind_run _ _ _ _ _ (sendInfo_run _ _ _)).
    unfold result_of_response, extract_text.
    destruct resp; try reflexivity;
      (rewrite bind_ret;
       match goal with |- context [nonempty ?t] => destruct (nonempty t) end;
       cbn [negb];
       rewrite ?(bind_run _ _ _ _ _ (swallow_run _ _)); reflexivity).
Qed.

Lemma provider_path_unfold apiKey c r system user safeMaxTokens w :
  no_key apiKey = false ->
  provider_path provider ctx apiKey c r system user safeMaxTokens w
  = try_finally
      (try_catch (provider_try provider ctx c r system user safeMaxTokens)
                 (provider_catch ctx))
      (provider_finally (timer_of ctx w) (cancelUnsub_of ctx w))
      (registered ctx (timeoutMs r) w).
Proof.
  intros Hk. unfold provider_path, registered, timer_of, cancelUnsub_of, listener_of.
  rewrite Hk. destruct (ctx_signal ctx); reflexivity.
Qed.

Lemma registered_same ms w : same_io w (registered ctx ms w).
Proof.
  unfold registered.
  match goal with |- same_io _ (snd (?m w)) => apply (emits_idle_same m) end.
  emits_auto.
Qed.

(** The provider path with a key: its calls and sleeps are those of the
    retried provider call, its result is made from the outcome of that
    call. *)
Lemma provider_path_io apiKey c r system user safeMaxTokens w :
  no_key apiKey = false ->
  let req := build_request (model r) system user safeMaxTokens (temperature r) in
  let w1 := snd (reportProgress ctx 10 100 (registered ctx (timeoutMs r) w)) in
  let run := withRetries (invoke (ProviderCall c req) (provider c req)) 3 500 w1 in
  same_io w w1
  /\ same_io (snd run)
             (snd (provider_path provider ctx apiKey c r system user safeMaxTokens w))
  /\ fst (provider_path provider ctx apiKey c r system user safeMaxTokens w)
     = Returned (result_of_run (fst run)).
Proof.
  intros Hk req w1 run. split; [|split].
  - eapply same_io_trans; [apply registered_same|].
    apply (emits_idle_same (reportProgress ctx 10 100)). emits_auto.
  - rewrite (provider_path_unfold _ _ _ _ _ _ _ Hk).
    destruct (provider_try_io c r system user safeMaxTokens
                (registered ctx (timeoutMs r) w)) as [Hio _].
    fold req in Hio. fold w1 in Hio. fold run in Hio.
    eapply same_io_trans; [exact Hio|].
    unfold try_finally, try_catch.
    destruct (provider_try provider ctx c r system user safeMaxTokens
                (registered ctx (timeoutMs r) w)) as [[t|x] w3]; simpl snd.
    + pose proof (emits_idle_same
                    (provider_finally (timer_of ctx w) (cancelUnsub_of ctx w))) as Hf.
      specialize (Hf ltac:(unfold provider_finally; emits_auto) w3).
      destruct (provider_finally _ _ w3) as [[u|y] w4]; exact Hf.
    + eapply same_io_trans;
        [apply (emits_idle_same _ (emits_provider_catch_idle x))|].
      destruct (provider_catch ctx x w3) as [res w4]; simpl snd.
      pose proof (emits_idle_same
                    (provider_finally (timer_of ctx w) (cancelUnsub_of ctx w))) as Hf.
      specialize (Hf ltac:(unfold provider_finally; emits_auto) w4).
      destruct (provider_finally _ _ w4) as [[u|y] w5]; exact Hf.
  - rewrite (provider_path_unfold _ _ _ _ _ _ _ Hk).
    destruct (provider_try_io c r system user safeMaxTokens
                (registered ctx (timeoutMs r) w)) as [_ Hres].
    fold req in Hres. fold w1 in Hres. fold run in Hres.
    assert (Hfin : forall (m : M tool_result) w0,
               fst (try_finally m
                      (provider_finally (timer_of ctx w) (cancelUnsub_of ctx w)) w0)
               = fst (m w0)).
    { intros m w0. unfold try_finally. destruct (m w0) as [res w3].
      destruct (sat_provider_finally (timer_of ctx w) (cancelUnsub_of ctx w) w3)
        as [u Hu].
      destruct (provider_finally _ _ w3) as [[u'|y] w4]; simpl in *;
        [reflexivity|discriminate]. }
    rewrite Hfin. unfold try_catch.
    destruct (provider_try provider ctx c r system user safeMaxTokens
                (registered ctx (timeoutMs r) w)) as [[t|x] w3]; simpl fst in *.
    + unfold result_of_run. destruct (fst run) as [resp|y]; [|discriminate].
      rewrite <- Hres. reflexivity.
    + rewrite provider_catch_fst. unfold result_of_run.
      destruct (fst run) as [resp|y].
      * rewrite <- Hres. reflexivity.
      * injection Hres as ->. reflexivity.
Qed.

End RequestIO.

Section RequestBudget.

Variable Number_toString : Q -> string.
Variable cfg : config.
Variable provider : client -> provider_request -> behaviour value.
Variable ctx : context.
Variable r : request.

Lemma provider_path_budget apiKey c w :
  exists k,
    (k <= 3)%nat
    /\ provider_requests
         (trace (snd (provider_path provider ctx apiKey c r
                        (system_prompt (buildSectionsHeader (sections r)))
                        (user_prompt (question r) (context_text r))
                        (Z.min (Z.max 1 (maxOutputTokens r)) (MAX_TOKENS_CAP cfg))
                        w)))
       = provider_requests (trace w) ++ repeat (outbound_request cfg r) k
    /\ sleep_delays
         (trace (snd (provider_path provider ctx apiKey c r
                        (system_prompt (buildSectionsHeader (sections r)))
                        (user_prompt (question r) (context_text r))
                        (Z.min (Z.max 1 (maxOutputTokens r)) (MAX_TOKENS_CAP cfg))
                        w)))
       = sleep_delays (trace w) ++ backoff_schedule 500 0 (pred k).
Proof.
  destruct (no_key apiKey) eqn:Hk.
  - exists 0%nat. split; [lia|]. simpl. rewrite !app_nil_r.
    match goal with |- context [snd (?m w)] =>
      assert (He : emits idle m) end.
    { unfold provider_path. rewrite Hk. emits_auto. }
    apply (emits_idle_same _ He w).
  - destruct (provider_path_io provider ctx apiKey c r
                (system_prompt (buildSectionsHeader (sections r)))
                (user_prompt (question r) (context_text r))
                (Z.min (Z.max 1 (maxOutputTokens r)) (MAX_TOKENS_CAP cfg))
                w Hk)
      as ([Ha1 Ha2] & [Hb1 Hb2] & _).
    match type of Hb1 with
    | context [withRetries (invoke (ProviderCall _ ?req) ?beh) 3 500 ?w1] =>
        destruct (withRetries_io c req beh w1) as (k & Hk3 & Hreq & Hsl)
    end.
    exists k. split; [lia|].
    rewrite Hb1, Hb2, Hreq, Hsl, Ha1, Ha2. split; reflexivity.
Qed.

Lemma sampling_broker_cases_quiet apiKey c system user safeMaxTokens w :
  extends quiet w
    (snd (sampling_broker Number_toString cfg provider ctx apiKey c r
                          system user safeMaxTokens w))
  \/ exists w1,
      extends quiet w w1
      /\ sampling_broker Number_toString cfg provider ctx apiKey c r
                         system user safeMaxTokens w
         = provider_path provider ctx apiKey c r system user safeMaxTokens w1.
Proof.
  unfold sampling_broker.
  destruct (negb (String.eqb (SAMPLING_MODE cfg) "off"));
    [|right; exists w; split; [apply extends_refl|reflexivity]].
  destruct (tryClientSampling_run Number_toString ctx system user safeMaxTokens
              (temperature r) (model r) w) as [o Ho].
  assert (Hs : extends quiet w
                 (snd (tryClientSampling Number_toString ctx system user
                         safeMaxTokens (temperature r) (model r) w))).
  { apply emits_tryClientSampling. intros; exact I. }
  rewrite (bind_run _ _ _ _ _ Ho).
  destruct o as [text|].
  - left. eapply extends_trans; [exact Hs|].
    match goal with |- extends _ ?w1 (snd (?m ?w1)) =>
      assert (He : emits quiet m) by emits_auto; apply He end.
  - destruct (String.eqb (SAMPLING_MODE cfg) "always").
    + left. eapply extends_trans; [exact Hs|].
      match goal with |- extends _ ?w1 (snd (?m ?w1)) =>
        assert (He : emits quiet m) by emits_auto; apply He end.
    + right. eexists. split; [exact Hs|reflexivity].
Qed.

Lemma serve_cases_quiet w :
  extends quiet w (snd (serve Number_toString cfg provider ctx r w))
  \/ exists c w1,
      extends quiet w w1
      /\ serve Number_toString cfg provider ctx r w
         = provider_path provider ctx (option_map trim (OPENAI_API_KEY cfg)) c r
             (system_prompt (buildSectionsHeader (sections r)))
             (user_prompt (question r) (context_text r))
             (Z.min (Z.max 1 (maxOutputTokens r)) (MAX_TOKENS_CAP cfg)) w1.
Proof.
  unfold serve.
  rewrite (bind_run _ _ _ _ _ (sendInfo_run _ _ _)).
  rewrite (bind_run _ _ _ _ _ (reportProgress_run _ _ _ _)). cbv zeta.
  set (w2 := snd (reportProgress ctx 0 100 (snd (sendInfo ctx _ w)))).
  assert (H2 : extends quiet w w2).
  { eapply extends_trans; [apply (emits_sendInfo quiet)|
                           apply (emits_reportProgress quiet)];
      intros; exact I. }
  destruct (getOpenAI_run (option_map trim (OPENAI_API_KEY cfg))
              (trimmed_or_undefined (OPENAI_BASE_URL cfg))
              (trimmed_or_undefined (OPENAI_ORG_ID cfg)) w2) as [[c Hc]|[x Hx]];
    [|rewrite (bind_throws _ _ _ _ _ Hx); left; exact H2].
  rewrite (bind_run _ _ _ _ _ Hc).
  set (w3 := snd (getOpenAI _ _ _ w2)).
  assert (H3 : extends quiet w w3).
  { eapply extends_trans; [exact H2|apply emits_getOpenAI]. }
  destruct (sampling_broker_cases_quiet (option_map trim (OPENAI_API_KEY cfg)) c
              (system_prompt (buildSectionsHeader (sections r)))
              (user_prompt (question r) (context_text r))
              (Z.min (Z.max 1 (maxOutputTokens r)) (MAX_TOKENS_CAP cfg)) w3)
    as [Hl|(w4 & H4 & Heq)].
  - left. eapply extends_trans; eauto.
  - right. exists c, w4. split; [eapply extends_trans; eauto|exact Heq].
Qed.

Lemma quiet_idle w w' : extends quiet w w' -> same_io w w'.
Proof.
  intros (new & E & F). apply extends_idle_same. exists new. split; [exact E|].
  eapply Forall_impl; [|exact F].
  intros [| |[c req|] t| | | | |]; simpl; auto.
Qed.

End RequestBudget.

(** X17. A request costs at most three provider calls. They all carry the
    one request built from the validated arguments, and the sleeps made
    between them are exactly 500 ms, then 1000 ms: nothing with one call,
    500 with two, 500 and 1000 with three. *)
Theorem request_retry_budget (Number_toString : Q -> string) (cfg : config)
        (provider : client -> provider_request -> behaviour value)
        (ctx : context) (r : request) (w : world) :
  exists k,
    (k <= 3)%nat
    /\ provider_requests (trace (snd (serve Number_toString cfg provider ctx r w)))
       = provider_requests (trace w) ++ repeat (outbound_request cfg r) k
    /\ sleep_delays (trace (snd (serve Number_toString cfg provider ctx r w)))
       = sleep_delays (trace w) ++ backoff_schedule 500 0 (pred k).
Proof.
  destruct (serve_cases_quiet Number_toString cfg provider ctx r w)
    as [Hq|(c & w1 & Hq & Heq)].
  - exists 0%nat. split; [lia|]. simpl. rewrite !app_nil_r.
    apply quiet_idle. exact Hq.
  - rewrite Heq. apply quiet_idle in Hq. destruct Hq as [Hq1 Hq2].
    destruct (provider_path_budget cfg provider ctx r
                (option_map trim (OPENAI_API_KEY cfg)) c w1)
      as (k & Hk & Hreq & Hsl).
    exists k. split; [exact Hk|]. rewrite Hreq, Hsl, Hq1, Hq2. auto.
Qed.

(* ------------------------------------------------------------------ *)
(** ** The provider path from end to end *)

Lemma withRetries_3_throws {A} what (beh : behaviour A) x w :
  (forall i t, fst (beh i t) = Threw x) ->
  fst (withRetries (invoke what beh) 3 500 w) = Threw x
  /\ exists new,
      trace (snd (withRetries (invoke what beh) 3 500 w)) = trace w ++ new
      /\ List.length (filter is_call new)
         = (if isRetryableStatus (status_of x) then 3 else 1)%nat
      /\ sleep_delays new
         = if isRetryableStatus (status_of x) then [500; 1000] else [].
Proof.
  intros H. unfold withRetries. change (Z.to_nat 3) with 3%nat.
  rewrite retry_from_step, H.
  destruct (isRetryableStatus (status_of x)) eqn:Hretry; cbn [negb orb].
  - change (0 =? 3 - 1) with false. cbv iota.
    rewrite retry_from_step, H, Hretry. cbn [negb orb].
    change (0 + 1 =? 3 - 1) with false. cbv iota.
    rewrite retry_from_step, H, Hretry. cbn [negb orb].
    change (0 + 1 + 1 =? 3 - 1) with true. cbv iota.
    split; [reflexivity|]. eexists. split.
    + simpl. rewrite <- !app_assoc. reflexivity.
    + split; reflexivity.
  - split; [reflexivity|]. exists [EvCall what (now w)].
    split; [reflexivity|]. split; reflexivity.
Qed.

Lemma withRetries_3_returns {A} what (beh : behaviour A) v w :
  (forall i t, fst (beh i t) = Returned v) ->
  fst (withRetries (invoke what beh) 3 500 w) = Returned v
  /\ trace (snd (withRetries (invoke what beh) 3 500 w))
     = trace w ++ [EvCall what (now w)].
Proof.
  intros H. unfold withRetries. change (Z.to_nat 3) with 3%nat.
  rewrite retry_from_step, H. split; reflexivity.
Qed.

Lemma retry_run_io c req (beh : behaviour value) w new :
  trace (snd (withRetries (invoke (ProviderCall c req) beh) 3 500 w))
  = trace w ++ new ->
  provider_requests
    (trace (snd (withRetries (invoke (ProviderCall c req) beh) 3 500 w)))
  = provider_requests (trace w) ++ repeat req (List.length (filter is_call new))
  /\ sleep_delays
       (trace (snd (withRetries (invoke (ProviderCall c req) beh) 3 500 w)))
     = sleep_delays (trace w) ++ sleep_delays new.
Proof.
  intros Htr.
  assert (Hev : Forall (retry_event (ProviderCall c req)) new).
  { eapply extends_new; [|exact Htr].
    apply (emits_withRetries (retry_event (ProviderCall c req))).
    - apply emits_invoke. intros t. reflexivity.
    - intros; exact I. }
  rewrite Htr, provider_requests_app, sleep_delays_app.
  rewrite (retry_requests _ _ _ Hev). auto.
Qed.

(** X18. With a key, a provider that fails with the same error at every
    call: the handler returns an error result and does not throw. The
    code is [E_OPENAI_HTTP_<status>] when the error carries a status other
    than 0 and [E_OPENAI_ERROR] when it carries none, and the message ends
    with the error's own. A retryable status costs three provider calls
    and sleeps of 500 and 1000 ms, any other error one call and no
    sleep. *)
Theorem provider_failure_reported
        (provider : client -> provider_request -> behaviour value)
        (ctx : context) (apiKey : option string) (c : client) (r : request)
        (system user : string) (safeMaxTokens : Z) (w : world) (x : exn) :
  no_key apiKey = false ->
  (forall req i t, fst (provider c req i t) = Threw x) ->
  let run := provider_path provider ctx apiKey c r system user safeMaxTokens w in
  (status_of x = None ->
   fst run = Returned (mcpErr ("OpenAI error: " ++ message_or_self x)%string
                              "E_OPENAI_ERROR"))
  /\ (forall s, status_of x = Some s -> s <> 0 ->
      fst run
      = Returned (mcpErr ("OpenAI error (status " ++ string_of_Z s ++ "): "
                          ++ message_or_self x)%string
                         ("E_OPENAI_HTTP_" ++ string_of_Z s)%string))
  /\ List.length (provider_requests (trace (snd run)))
     = (List.length (provider_requests (trace w))
        + if isRetryableStatus (status_of x) then 3 else 1)%nat
  /\ sleep_delays (trace (snd run))
     = sleep_delays (trace w)
       ++ if isRetryableStatus (status_of x) then [500; 1000] else [].
Proof.
  intros Hk Hfail run. subst run.
  destruct (provider_path_io provider ctx apiKey c r system user safeMaxTokens w Hk)
    as ([Ha1 Ha2] & [Hb1 Hb2] & Hres).
  cbv zeta in Hb1, Hb2, Hres.
  match type of Hres with
  | context [withRetries (invoke ?what ?beh) 3 500 ?w1] =>
      destruct (withRetries_3_throws what beh x w1 (Hfail _))
        as (Hthrow & new & Htr & Hcnt & Hsl);
      destruct (retry_run_io _ _ _ _ _ Htr) as [Hreq Hsleep]
  end.
  rewrite Hthrow in Hres. simpl in Hres.
  split; [|split; [|split]].
  - intros Hs. rewrite Hres. unfold error_result, code_of. rewrite Hs. reflexivity.
  - intros s Hs Hnz. rewrite Hres. unfold error_result, code_of. rewrite Hs.
    unfold truthy_status.
    destruct (s =? 0) eqn:E; [apply Z.eqb_eq in E; contradiction|].
    do 2 f_equal. cbn [append]. do 21 f_equal.
    generalize (string_of_Z s). intros n.
    induction n as [|ch n IH]; [reflexivity|]. cbn [append]. f_equal. exact IH.
  - rewrite Hb1, Hreq, Ha1, Hcnt, length_app, repeat_length. reflexivity.
  - rewrite Hb2, Hsleep, Ha2, Hsl. reflexivity.
Qed.

(** A provider that always answers 503. *)
Lemma provider_failure_reported_witness :
  no_key (Some "sk-x") = false
  /\ fst (provider_path (fun _ _ => beh_503) plain_context (Some "sk-x")
            some_client
            {| question := "How do I shard this table?"; context_text := None;
               sections := [Summary]; model := "o3"; maxOutputTokens := 1024;
               timeoutMs := 120000; temperature := None |}
            "s" "u" 1024 world0)
     = Returned (mcpErr "OpenAI error (status 503): HTTP error" "E_OPENAI_HTTP_503").
Proof.
  split; [reflexivity|].
  apply (proj1 (proj2 (provider_failure_reported (fun _ _ => beh_503) plain_context
                         (Some "sk-x") some_client
                         {| question := "How do I shard this table?";
                            context_text := None; sections := [Summary];
                            model := "o3"; maxOutputTokens := 1024;
                            timeoutMs := 120000; temperature := None |}
                         "s" "u" 1024 world0 (http_error 503) eq_refl
                         (fun _ _ _ => eq_refl)))
               503 eq_refl).
  discriminate.
Defined.

(** X19. With a key, a provider that answers with the response [resp]:
    one provider call, no sleep, and the handler returns the text of the
    response when it is not blank, the error [E_EMPTY_MODEL_OUTPUT] when
    it is, and the error [E_OPENAI_ERROR] when the response is [null] (the
    read of [output_text] throws into the [catch] block). *)
Theorem provider_answer_reported
        (provider : client -> provider_request -> behaviour value)
        (ctx : context) (apiKey : option string) (c : client) (r : request)
        (system user : string) (safeMaxTokens : Z) (w : world) (resp : value) :
  no_key apiKey = false ->
  (forall req i t, fst (provider c req i t) = Returned resp) ->
  let run := provider_path provider ctx apiKey c r system user safeMaxTokens w in
  (nullish resp = false -> nonempty (response_text resp) = true ->
   fst run = Returned (text_result (response_text resp)))
  /\ (nullish resp = false -> nonempty (response_text resp) = false ->
      fst run = Returned (mcpErr "Model returned no text content"
                                 "E_EMPTY_MODEL_OUTPUT"))
  /\ (resp = VNull ->
      fst run
      = Returned (mcpErr "OpenAI error: Cannot read properties of null (reading 'output_text')"
                         "E_OPENAI_ERROR"))
  /\ List.length (provider_requests (trace (snd run)))
     = S (List.length (provider_requests (trace w)))
  /\ sleep_delays (trace (snd run)) = sleep_delays (trace w).
Proof.
  intros Hk Hans run. subst run.
  destruct (provider_path_io provider ctx apiKey c r system user safeMaxTokens w Hk)
    as ([Ha1 Ha2] & [Hb1 Hb2] & Hres).
  cbv zeta in Hb1, Hb2, Hres.
  match type of Hres with
  | context [withRetries (invoke ?what ?beh) 3 500 ?w1] =>
      destruct (withRetries_3_returns what beh resp w1 (Hans _)) as (Hret & Htr);
      destruct (retry_run_io _ _ _ _ _ Htr) as [Hreq Hsleep]
  end.
  rewrite Hret in Hres. simpl in Hres.
  split; [|split; [|split; [|split]]].
  - intros Hn Hne. rewrite Hres. unfold result_of_response.
    destruct resp; try discriminate; rewrite Hne; reflexivity.
  - intros Hn He. rewrite Hres. unfold result_of_response.
    destruct resp; try discriminate; rewrite He; reflexivity.
  - intros ->. rewrite Hres. reflexivity.
  - rewrite Hb1, Hreq, Ha1, length_app. simpl. lia.
  - rewrite Hb2, Hsleep, Ha2. simpl. apply app_nil_r.
Qed.

(** A response that holds nothing but
    log-probability data. *)
Lemma provider_answer_reported_witness :
  no_key (Some "sk-x") = false
  /\ fst (provider_path
            (fun _ _ _ _ =>
               (Returned (VObj [("output", VArr [VObj [("logprobs", VStr "x")]])]), 40))
            plain_context (Some "sk-x") some_client
            {| question := "How do I shard this table?"; context_text := None;
               sections := [Summary]; model := "o3"; maxOutputTokens := 1024;
               timeoutMs := 120000; temperature := None |}
            "s" "u" 1024 world0)
     = Returned (mcpErr "Model returned no text content" "E_EMPTY_MODEL_OUTPUT").
Proof.
  split; [reflexivity|].
  apply (proj1 (proj2 (provider_answer_reported
                         (fun _ _ _ _ =>
                            (Returned (VObj [("output",
                                              VArr [VObj [("logprobs", VStr "x")]])]),
                             40))
                         plain_context (Some "sk-x") some_client
                         {| question := "How do I shard this table?";
                            context_text := None; sections := [Summary];
                            model := "o3"; maxOutputTokens := 1024;
                            timeoutMs := 120000; temperature := None |}
                         "s" "u" 1024 world0 _ eq_refl (fun _ _ _ => eq_refl)))
               eq_refl eq_refl).
Defined.


(* ------------------------------------------------------------------ *)
(** ** File-system roots *)

Lemma prefix_app s t : String.prefix s (s ++ t)%string = true.
Proof.
  induction s as [|c s IH]; simpl; [destruct t; reflexivity|].
  destruct (ascii_dec c c); [exact IH|congruence].
Qed.

(** X20. Whatever may be written may be read: a path allowed with
    [requireWritable] is allowed without it. *)
Theorem writable_is_readable (host : fs_host) (ROOTS_CONFIG : roots_config)
        (requestedPath : string) :
  fst (isPathAllowed host ROOTS_CONFIG requestedPath true) = true ->
  fst (isPathAllowed host ROOTS_CONFIG requestedPath false) = true.
Proof.
  unfold isPathAllowed. cbv zeta.
  destruct (existsb _ (writable ROOTS_CONFIG)) eqn:E; [|discriminate].
  intros _. rewrite existsb_app, E, orb_true_r. reflexivity.
Qed.

Lemma writable_is_readable_witness :
  fst (isPathAllowed plain_host sample_roots "/srv/out/report.md" true) = true
  /\ fst (isPathAllowed plain_host sample_roots "/srv/out/report.md" false) = true.
Proof.
  split; [reflexivity|].
  apply (writable_is_readable plain_host sample_roots "/srv/out/report.md").
  reflexivity.
Defined.

(** X21. The check compares strings, not path components: a path whose
    resolved form begins with the resolved form of an allowed root is
    allowed whatever follows, a separator or not; with the root
    [/srv/out], the sibling [/srv/out-old/...] passes. *)
Theorem isPathAllowed_string_prefix (host : fs_host) (ROOTS_CONFIG : roots_config)
        (requestedPath root suffix : string) (requireWritable : bool) :
  In root (writable ROOTS_CONFIG) ->
  resolve host requestedPath = (resolve host root ++ suffix)%string ->
  fst (isPathAllowed host ROOTS_CONFIG requestedPath requireWritable) = true.
Proof.
  intros Hroot Hpath. unfold isPathAllowed. cbv zeta.
  assert (Hex : forall roots, In root roots ->
            existsb (fun root0 => String.prefix (resolve host root0)
                                                (resolve host requestedPath))
                    roots = true).
  { intros roots Hin. apply existsb_exists. exists root. split; [exact Hin|].
    rewrite Hpath. apply prefix_app. }
  destruct requireWritable.
  - rewrite (Hex _ Hroot). reflexivity.
  - rewrite (Hex _ (in_or_app _ _ _ (or_intror Hroot))). reflexivity.
Qed.

Lemma isPathAllowed_string_prefix_witness :
  In "/srv/out" (writable sample_roots)
  /\ fst (isPathAllowed plain_host sample_roots "/srv/out-old/secrets.txt" true)
     = true.
Proof.
  split; [left; reflexivity|].
  apply (isPathAllowed_string_prefix plain_host sample_roots
           "/srv/out-old/secrets.txt" "/srv/out" "-old/secrets.txt" true);
    [left; reflexivity|reflexivity].
Defined.

(** X22. [read_file] on a path that is not allowed touches nothing: no
    file operation is made, and the tool returns (it does not throw) an
    error result that names the resolved path and the roots. *)
Theorem read_file_denied (host : fs_host) (ROOTS_CONFIG : roots_config)
        (filePath : string) (ops : list fs_op) :
  fst (isPathAllowed host ROOTS_CONFIG filePath false) = false ->
  read_file_tool host ROOTS_CONFIG filePath ops
  = (error_text_result
       ("Error reading file: Error: Path " ++ resolve host filePath
        ++ " is not within allowed roots: "
        ++ join ", " (readonly ROOTS_CONFIG ++ writable ROOTS_CONFIG))%string,
     ops).
Proof.
  unfold read_file_tool, safeReadFile, isPathAllowed. cbv zeta.
  destruct (existsb _ _); [discriminate|]. intros _. reflexivity.
Qed.

Lemma read_file_denied_witness :
  fst (isPathAllowed plain_host sample_roots "/etc/passwd" false) = false
  /\ read_file_tool plain_host sample_roots "/etc/passwd" []
     = (error_text_result
          "Error reading file: Error: Path /etc/passwd is not within allowed roots: /srv/docs, /srv/out",
        []).
Proof.
  split; [reflexivity|].
  apply (read_file_denied plain_host sample_roots "/etc/passwd" []). reflexivity.
Defined.

(** X23. [write_file] writes only where it may and only once the
    directory is there: whatever the file system answers, the operations
    it adds contain a write only if the path is allowed for writing and
    [mkdir] on its directory succeeded, and then it is the one write of
    the given content to the given path, made after the [mkdir]. *)
Theorem write_file_guarded (host : fs_host) (ROOTS_CONFIG : roots_config)
        (filePath content : string) (ops : list fs_op) :
  exists new,
    snd (write_file_tool host ROOTS_CONFIG filePath content ops) = ops ++ new
    /\ (new = []
        \/ new = [FsMkdir (dirname host filePath)]
           /\ fst (isPathAllowed host ROOTS_CONFIG filePath true) = true
        \/ new = [FsMkdir (dirname host filePath); FsWriteFile filePath content]
           /\ fst (isPathAllowed host ROOTS_CONFIG filePath true) = true
           /\ mkdir host ops (dirname host filePath) = Returned tt)
    /\ (fst (isPathAllowed host ROOTS_CONFIG filePath true) = false -> new = [])
    /\ (forall error, mkdir host ops (dirname host filePath) = Threw error ->
        Forall (fun op => ~ writes_to filePath op) new).
Proof.
  unfold write_file_tool, safeWriteFile.
  destruct (isPathAllowed host ROOTS_CONFIG filePath true) as [allowed reason].
  destruct allowed; simpl negb; cbv iota zeta.
  - destruct (mkdir host ops (dirname host filePath)) as [[]|error] eqn:Hmk.
    + destruct (writeFile host _ filePath content) as [[]|error];
        (exists [FsMkdir (dirname host filePath); FsWriteFile filePath content];
         simpl; split; [reflexivity|]; split; [auto|]; split;
         [discriminate|intros error' H; discriminate]).
    + exists [FsMkdir (dirname host filePath)]. simpl.
      split; [reflexivity|]. split; [auto|]. split; [discriminate|].
      intros _ _. constructor; [simpl; tauto|constructor].
  - exists []. simpl. rewrite app_nil_r. repeat split; auto.
Qed.

Lemma write_file_guarded_witness :
  fst (isPathAllowed plain_host sample_roots "/srv/docs/guide.md" true) = false
  /\ snd (write_file_tool plain_host sample_roots "/srv/docs/guide.md" "x" []) = [].
Proof.
  split; [reflexivity|].
  destruct (write_file_guarded plain_host sample_roots "/srv/docs/guide.md" "x" [])
    as (new & Hops & _ & Hdenied & _).
  rewrite Hops, (Hdenied eq_refl). reflexivity.
Defined.

(* ------------------------------------------------------------------ *)
(** ** Validation *)

Lemma zod_posint_optional_value field v o :
  zod_posint_optional field v = Returned o ->
  (v = VUndefined /\ o = None)
  \/ exists q n, v = VNum q /\ o = Some n /\ 1 <= n /\ (inject_Z n == q)%Q.
Proof.
  unfold zod_posint_optional. destruct v; try discriminate.
  - intros [= <-]. auto.
  - destruct (Pos.eqb (Qden (Qred q)) 1 && (0 <? Qnum (Qred q))) eqn:E;
      [|discriminate].
    intros [= <-]. right. exists q, (Qnum (Qred q)).
    apply andb_true_iff in E. destruct E as [Hden Hpos].
    apply Pos.eqb_eq in Hden. apply Z.ltb_lt in Hpos.
    repeat split; [lia|].
    rewrite <- (Qred_correct q) at 2.
    destruct (Qred q) as [n d]. simpl in *. subst d. reflexivity.
Qed.

(** X24. What passes [askSchema.parse] is what the schema says: the
    arguments are an object with no key outside the seven of the schema,
    the question is the supplied string and has at least 5 characters,
    the token count and the timeout are the supplied integers and at
    least 1 (1024 and 120000 when absent), a temperature lies between 0
    and 2, and the model is the configured default when none is given. *)
Theorem askSchema_parse_sound (dm : string) (rawArgs : value) (r : request) :
  askSchema_parse dm rawArgs = Returned r ->
  exists fs,
    rawArgs = VObj fs
    /\ forallb (fun kv => known_key (fst kv)) fs = true
    /\ lookup "question" fs = VStr (question r)
    /\ (5 <= String.length (question r))%nat
    /\ 1 <= maxOutputTokens r
    /\ 1 <= timeoutMs r
    /\ (lookup "maxOutputTokens" fs = VUndefined -> maxOutputTokens r = 1024)
    /\ (forall q, lookup "maxOutputTokens" fs = VNum q ->
                  (inject_Z (maxOutputTokens r) == q)%Q)
    /\ (lookup "timeoutMs" fs = VUndefined -> timeoutMs r = 120000)
    /\ (forall q, lookup "timeoutMs" fs = VNum q ->
                  (inject_Z (timeoutMs r) == q)%Q)
    /\ (forall t, temperature r = Some t -> (0 <= t)%Q /\ (t <= 2)%Q)
    /\ (lookup "model" fs = VUndefined -> model r = dm)
    /\ (lookup "sections" fs = VUndefined -> sections r = [Summary; Findings; Plan]).
Proof.
  unfold askSchema_parse. destruct rawArgs as [| | | | | |fs]; try discriminate.
  destruct (forallb (fun kv => known_key (fst kv)) fs) eqn:Hkeys;
    [|discriminate]. simpl negb. cbv iota.
  destruct (lookup "question" fs) as [| | | |q| |] eqn:Hq; try discriminate.
  destruct (Nat.ltb (String.length q) 5) eqn:Hlen; [discriminate|].
  apply Nat.ltb_ge in Hlen.
  intros H.
  apply obind_Returned in H. destruct H as (context & _ & H).
  apply obind_Returned in H. destruct H as (secs & Hsecs & H).
  apply obind_Returned in H. destruct H as (m & Hm & H).
  apply obind_Returned in H. destruct H as (mt & Hmt & H).
  apply obind_Returned in H. destruct H as (tm & Htm & H).
  apply obind_Returned in H. destruct H as (temp & Htemp & H).
  injection H as <-. exists fs. simpl.
  apply zod_posint_optional_value in Hmt, Htm.
  split; [reflexivity|]. split; [exact Hkeys|]. split; [exact Hq|].
  split; [exact Hlen|].
  assert (Hmt' : 1 <= match mt with Some n => n | None => DEFAULT_MAX_TOKENS end).
  { destruct Hmt as [[_ ->]|(q0 & n & _ & -> & Hn & _)];
      [unfold DEFAULT_MAX_TOKENS; lia|exact Hn]. }
  assert (Htm' : 1 <= match tm with Some n => n | None => DEFAULT_TIMEOUT_MS end).
  { destruct Htm as [[_ ->]|(q0 & n & _ & -> & Hn & _)];
      [unfold DEFAULT_TIMEOUT_MS; lia|exact Hn]. }
  split; [exact Hmt'|]. split; [exact Htm'|].
  split; [|split; [|split; [|split; [|split; [|split]]]]].
  - intros Hu. destruct Hmt as [[_ ->]|(q0 & n & Hv & _)]; [reflexivity|congruence].
  - intros q0 Hv. destruct Hmt as [[Hu _]|(q1 & n & Hv' & -> & _ & Heq)];
      [congruence|]. rewrite Hv in Hv'. injection Hv' as ->. exact Heq.
  - intros Hu. destruct Htm as [[_ ->]|(q0 & n & Hv & _)]; [reflexivity|congruence].
  - intros q0 Hv. destruct Htm as [[Hu _]|(q1 & n & Hv' & -> & _ & Heq)];
      [congruence|]. rewrite Hv in Hv'. injection Hv' as ->. exact Heq.
  - intros t ->. destruct (lookup "temperature" fs); try discriminate.
    destruct (Qle_bool 0 q0 && Qle_bool q0 2) eqn:E; [|discriminate].
    injection Htemp as ->. apply andb_true_iff in E. destruct E as [E1 E2].
    split; apply Qle_bool_iff; assumption.
  - intros Hu. rewrite Hu in Hm. injection Hm as <-. reflexivity.
  - intros Hu. rewrite Hu in Hsecs. injection Hsecs as <-. reflexivity.
Qed.

Lemma askSchema_parse_sound_witness :
  askSchema_parse "o3" (args_of [("maxOutputTokens", VNum (200 # 1))])
  = Returned {| question := "How do I shard this table?"; context_text := None;
                sections := [Summary; Findings; Plan]; model := "o3";
                maxOutputTokens := 200; timeoutMs := 120000;
                temperature := None |}
  /\ exists fs,
      args_of [("maxOutputTokens", VNum (200 # 1))] = VObj fs
      /\ forallb (fun kv => known_key (fst kv)) fs = true.
Proof.
  split; [reflexivity|].
  destruct (askSchema_parse_sound "o3"
              (args_of [("maxOutputTokens", VNum (200 # 1))]) _ eq_refl)
    as (fs & Hfs & Hkeys & _).
  exists fs. auto.
Defined.

(** X25. The schema is strict: arguments with a key outside the seven it
    names are rejected, whatever else they hold. *)
Theorem askSchema_parse_strict (dm : string) (fs : list (string * value))
        (k : string) (v : value) :
  In (k, v) fs -> known_key k = false ->
  askSchema_parse dm (VObj fs) = Threw (ExnZod "unrecognized_keys").
Proof.
  intros Hin Hk. unfold askSchema_parse.
  destruct (forallb (fun kv => known_key (fst kv)) fs) eqn:E; [|reflexivity].
  rewrite forallb_forall in E. specialize (E _ Hin). simpl in E. congruence.
Qed.

Lemma askSchema_parse_strict_witness :
  In ("stream", VBool true) [("question", VStr "How do I shard this table?");
                             ("stream", VBool true)]
  /\ askSchema_parse "o3" (args_of [("stream", VBool true)])
     = Threw (ExnZod "unrecognized_keys").
Proof.
  split; [right; left; reflexivity|].
  apply (askSchema_parse_strict "o3"
           [("question", VStr "How do I shard this table?"); ("stream", VBool true)]
           "stream" (VBool true)); [right; left; reflexivity|reflexivity].
Defined.
